(* ===== verification/_CoqProject ===== *)
-Q . S2P
Prelude.v
PyRuntime.v
Calendar.v
CalendarProofs.v
FormatProofs.v
Companies.v
DateRange.v
Features.v
Regression.v
Forecast.v
Ledger.v
App.v
Liveness.v
