(* ===== verification/Prelude.v ===== *)
(** * A verification of [src/accuracy.py] (stock price plotting and trend forecast)

    ** The program

    [src/accuracy.py] is a Tk desktop tool.  The user picks a company in a
    combobox ([COMPANIES], lines 13-29) and a duration ("1 year", "2 years",
    "5 years") and clicks "Plot Data".  The callback [on_plot_button_click]
    (lines 165-206) calls [plot_stock_data] (lines 65-112), which
    - computes the date range from two readings of [datetime.today()]
      ([get_start_date], lines 37-48);
    - downloads daily bars with [yf.download];
    - adds the 50- and 200-day moving averages and drops incomplete rows;
    - draws a figure and stores its axes in the global [global_ax];
    - forecasts 30 days with [predict_future_prices] (lines 50-63): a
      least-squares line of the close on the date ordinal, evaluated at
      [today + 1 .. today + 30].
    The callback then shows the 30 predicted prices in a label, appends them
    to [predictions.csv] ([save_predictions], lines 114-139) and shows the
    stored predictions of the ticker ([display_previous_predictions], lines
    141-163).

    ** The development, file by file (in dependency order)

    - [Prelude] (this file): sums and means over [Q], lists of optional
      cells, indexed lists and sortedness, the hint databases [stock] and
      [stock_rw].
    - [PyRuntime]: Python exceptions; the monad [PyM S A = S -> outcome A * S]
      whose [Raise] keeps the state reached; [preserves] and its
      combinators; list and NumPy truthiness; [str(int)] and [:.2f];
      [print] through the [Stdout] interface (the lines written, in order).
    - [Calendar]: the [datetime] slice the program uses: CPython's
      ordinal/ymd conversion, [+ timedelta(days=k)] with its
      [OverflowError], [strftime('%Y-%m-%d')], and the [Clock] interface
      read by [datetime.today()].
    - [CalendarProofs]: [_ord2ymd] and [_ymd2ord] are inverse bijections
      between [1, MAXORDINAL] and the valid dates of years 1..9999.
    - [FormatProofs]: [str(n)] reads back as [n] and its fuel suffices;
      [strftime('%Y-%m-%d')] prints a valid date and names one day;
      [:.2f] prints its argument rounded to the cent.
    - [Companies]: [COMPANIES] as an association list in insertion order and
      [dict.get].
    - [DateRange]: [get_start_date] and the two clock readings of
      [plot_stock_data] ([plot_date_range]).
    - [Features]: bars with NaN cells, [rolling(window=w).mean()],
      [dropna()], [enrich] (lines 79-84).
    - [Regression]: [LinearRegression.fit]/[predict] for one feature, its
      abstract specification [least_squares], and the [Regressor] and
      [AffineRegressor] interfaces with the OLS instance.
    - [Forecast]: [predict_future_prices] over any [Clock] state and any
      [Regressor].
    - [Ledger]: [save_predictions] and [display_previous_predictions],
      debug prints included, against the [LedgerStore] interface (the CSV
      file and the label), the [Stdout] interface, and their laws.
    - [App]: the process [world], which instantiates [Clock],
      [LedgerStore] and [Stdout]; [plot_stock_data] with its two prints;
      [on_plot_button_click] with its canvas swap ([show_canvas], lines
      173-192) and its "Invalid company selected." branch; the
      [SpanSelector] callback [onselect] (lines 187-190); the Tk event loop
      as [step] (select a company, select a duration, click, select a
      span) and [reachable].
    - [Liveness]: the composition of all components on one click, under an
      environment that keeps delivering data.

    ** What is proved

    - Features: on bars with every column present, [enrich] keeps exactly
      the rows from index 199 on, with the exact window means
      ([enrich_spec], [enrich_length]).  Fewer than 200 bars give no row.
      Both averages lie within the range of the closes.
    - Regression: the fitted line satisfies the normal equations.  It
      refines the abstract specification: no line has a smaller squared
      error ([fit_least_squares]).  It recovers an exact line from two
      distinct dates.  Zero samples raise; one sample gives the flat line.
    - Forecast: the functional result.  The dates a successful forecast
      returns are strictly increasing under a monotone clock (a midnight
      during the comprehension skips a day) and depend on the clock only,
      not on the data.
      When all readings fall on the same day, consecutive prices differ by
      the slope.  An empty frame raises before the clock is read.
    - DateRange: the three labels, the [ValueError] branch, and the window
      span [k - (days elapsed between the two readings)].
    - Ledger: a forecast of two or more days makes [save_predictions] raise
      and write nothing.  After an append, querying a ticker returns its old
      rows followed by the new ones; there is no deduplication; the file
      only grows.  The display is characterised on its three branches,
      label, file and printed lines.
    - Calendar and formatting: [_ord2ymd] maps every ordinal in range to a
      valid date and [_ymd2ord] maps it back, and conversely.  The proof
      is arithmetic: a 400-year periodicity, a check of the 625
      combinations of century, 4-year and year counts, and a check of the
      365 + 366 days of a year (no evaluation of a whole cycle).  Hence
      [strftime('%Y-%m-%d')] prints a valid date, is injective on the
      [datetime] range.  The text
      [:.2f] prints reads back within half a cent of the price.
    - App, by rule induction on [reachable]: [predictions.csv] is never
      written; the label never shows previous predictions; stdout only
      ever shows the request, "no data" and invalid-company lines, never a
      line of the ledger functions; [global_ax] designates the newest
      figure; figures are never closed; the figure on screen is never
      newer than [global_ax].  A span selection zooms the figure
      [global_ax] designates.  From any state showing a figure, a click
      for a company whose market answers with fewer than 200 bars opens a
      new figure, moves [global_ax] to it and raises in [fit] before the
      canvas is swapped, so the next span selection zooms the hidden
      figure and not the one on screen.  From any state with a listed company, a known label, a
      clock in range and a market that answers, a click opens exactly one
      figure and prints exactly the request line with its two dates,
      although it then raises.  A click on a name outside [COMPANIES] only
      prints "Invalid company selected." (no message in the window).
    - Liveness: with a market that returns at least 200 complete bars and a
      clock inside the [datetime] range, every reachable state leads, by
      selecting a company and "1 year" and clicking, to a label showing a
      30-day forecast: the exception in [save_predictions] never wedges
      the window.

    ** Modelling choices, bounds and fuel

    - Prices are exact rationals [Q], not binary64 floats: the theorems
      about means and least squares are exact statements.  Floating-point
      rounding is not modelled.
    - Dates are CPython ordinals (day 1 = 0001-01-01, [MAXORDINAL] =
      9999-12-31).  Every clock reading used in a theorem is assumed within
      that range where the code would otherwise raise [OverflowError].
    - Each [datetime.today()] call is a separate clock reading: the
      callback reads the clock 32 times (2 for the date range, 30 for the
      forecast).  No theorem assumes the readings are equal unless it says
      so.
    - [dec_digits] has fuel [1 + log2 n], enough for every digit of [n].
      No other definition uses fuel: every loop of the program is a
      structural recursion on a list.
    - [to_csv] followed by [read_csv] is the identity on the three string
      and float columns, so the CSV file is its list of rows.

    ** Not modelled

    Network access inside [yf.download] (the market is a function of the
    world); matplotlib rendering and the Tk widget objects (a figure
    records what is drawn on it and its x range; the canvas is the index
    of the figure on screen); the [SpanSelector]'s own event handling
    ([minspan], blitting, and whether the unreferenced widget stays alive:
    a [SelectSpan] event is a selection it passes to [onselect]);
    concurrency (the program is single-threaded).  Every [print] is
    modelled, as a line appended to stdout; the buffering of [sys.stdout]
    is not, since the program never reads its output back.  [to_csv] is not
    modelled as text: pandas prints floats in their shortest round-trip
    form, which has no counterpart for exact rationals. *)

From Stdlib Require Import List ZArith QArith Qfield Lqa Lia Bool Morphisms SetoidList.
Import ListNotations.

(** ** Sums and means of rationals *)

Definition qsum (l : list Q) : Q := fold_right Qplus 0 l.

Definition qlen {A} (l : list A) : Q := inject_Z (Z.of_nat (length l)).

Definition qmean (l : list Q) : Q := qsum l / qlen l.

Create HintDb stock.
Create Rewrite HintDb stock_rw.

Lemma qsum_nil : qsum [] = 0.
Proof. reflexivity. Qed.

Lemma qsum_cons x l : qsum (x :: l) = x + qsum l.
Proof. reflexivity. Qed.

Lemma qsum_app l1 l2 : qsum (l1 ++ l2) == qsum l1 + qsum l2.
Proof. induction l1 as [|x l1 IH]; simpl; [ring | rewrite IH; ring]. Qed.

#[export] Instance qsum_Proper : Proper (eqlistA Qeq ==> Qeq) qsum.
Proof. intros l1 l2 H. induction H; simpl; [reflexivity | now rewrite H, IHeqlistA]. Qed.

Section QsumMap.
Context {A : Type}.

Lemma qsum_map_ext (f g : A -> Q) l :
  (forall x, In x l -> f x == g x) -> qsum (map f l) == qsum (map g l).
Proof.
  induction l as [|x l IH]; simpl; intros H; [reflexivity|].
  rewrite H by auto. rewrite IH by auto. reflexivity.
Qed.

Lemma qsum_map_plus (f g : A -> Q) l :
  qsum (map (fun x => f x + g x) l) == qsum (map f l) + qsum (map g l).
Proof. induction l as [|x l IH]; simpl; [ring | rewrite IH; ring]. Qed.

Lemma qsum_map_scale (c : Q) (f : A -> Q) l :
  qsum (map (fun x => c * f x) l) == c * qsum (map f l).
Proof. induction l as [|x l IH]; simpl; [ring | rewrite IH; ring]. Qed.

Lemma qsum_map_const (c : Q) (l : list A) :
  qsum (map (fun _ => c) l) == qlen l * c.
Proof.
  induction l as [|x l IH]; simpl map; simpl qsum; [unfold qlen; simpl; ring|].
  rewrite IH. unfold qlen; simpl length.
  rewrite Nat2Z.inj_succ, <- Z.add_1_r, inject_Z_plus. ring.
Qed.

Lemma qsum_map_nonneg (f : A -> Q) l :
  (forall x, In x l -> 0 <= f x) -> 0 <= qsum (map f l).
Proof.
  induction l as [|x l IH]; simpl; intros H; [apply Qle_refl|].
  assert (0 <= f x) by auto. assert (0 <= qsum (map f l)) by auto. lra.
Qed.

Lemma qsum_map_le (f g : A -> Q) l :
  (forall x, In x l -> f x <= g x) -> qsum (map f l) <= qsum (map g l).
Proof.
  induction l as [|x l IH]; simpl; intros H; [apply Qle_refl|].
  assert (f x <= g x) by auto. assert (qsum (map f l) <= qsum (map g l)) by auto. lra.
Qed.
End QsumMap.

Lemma qlen_pos {A} (l : list A) : l <> [] -> 0 < qlen l.
Proof.
  destruct l as [|x l]; [congruence|]. intros _. unfold qlen, Qlt. simpl. lia.
Qed.

(** ** Lists of optional values (a column in which [None] is NaN) *)

Fixpoint all_some {A} (l : list (option A)) : option (list A) :=
  match l with
  | [] => Some []
  | None :: _ => None
  | Some x :: l' => match all_some l' with Some xs => Some (x :: xs) | None => None end
  end.

Lemma all_some_map_Some {A} (l : list A) : all_some (map Some l) = Some l.
Proof. induction l as [|x l IH]; simpl; [|rewrite IH]; reflexivity. Qed.

Lemma all_some_Some {A} (l : list (option A)) xs :
  all_some l = Some xs -> l = map Some xs.
Proof.
  revert xs; induction l as [|[x|] l IH]; simpl; intros xs H.
  - now inversion H.
  - destruct (all_some l) as [ys|] eqn:E; [|discriminate].
    inversion H; subst. simpl. now rewrite (IH ys).
  - discriminate.
Qed.

Lemma all_some_None {A} (l : list (option A)) :
  all_some l = None <-> In None l.
Proof.
  induction l as [|[x|] l IH]; simpl.
  - split; [discriminate | tauto].
  - destruct (all_some l); split; intros H.
    + discriminate.
    + destruct H as [H|H]; [discriminate|]. apply IH in H; discriminate.
    + right; apply IH; reflexivity.
    + reflexivity.
  - split; auto.
Qed.

#[export] Hint Rewrite qsum_app @qsum_map_plus @qsum_map_scale @qsum_map_const : stock_rw.
#[export] Hint Resolve qsum_map_nonneg qsum_map_le qlen_pos : stock.

(** ** Duplicate-free lists, decided by a boolean test *)

Section NoDupb.
Context {A : Type} (eqb : A -> A -> bool).
Hypothesis eqb_spec : forall x y, eqb x y = true <-> x = y.

Fixpoint nodupb (l : list A) : bool :=
  match l with
  | [] => true
  | x :: l' => negb (existsb (eqb x) l') && nodupb l'
  end.

Lemma nodupb_NoDup l : nodupb l = true -> NoDup l.
Proof.
  induction l as [|x l IH]; simpl; [constructor|].
  rewrite andb_true_iff, negb_true_iff. intros [Hx Hl]. constructor; auto.
  intros Hin. assert (existsb (eqb x) l = true) by
    (apply existsb_exists; exists x; split; [exact Hin | apply eqb_spec; reflexivity]).
  congruence.
Qed.
End NoDupb.

(** [pd.notna] on a cell, [None] being NaN. *)
Definition notna {A} (o : option A) : bool := match o with Some _ => true | None => false end.

(** ** Lists indexed by position *)

Section IndexedLists.
Context {A B C : Type}.
Local Open Scope nat_scope.

Lemma combine_map_map_seq (f : nat -> B) (g : nat -> C) k n :
  combine (map f (seq k n)) (map g (seq k n)) = map (fun i => (f i, g i)) (seq k n).
Proof. revert k; induction n as [|n IH]; intros k; simpl; [|rewrite IH]; reflexivity. Qed.

Lemma combine_nth_seq (l : list A) (f : nat -> B) (d : A) k :
  combine l (map f (seq k (length l))) = map (fun i => (nth (i - k) l d, f i)) (seq k (length l)).
Proof.
  revert k; induction l as [|x l IH]; intros k; simpl; [reflexivity|].
  rewrite Nat.sub_diag, IH. f_equal. apply map_ext_in. intros i Hi.
  apply in_seq in Hi. replace (i - k) with (S (i - S k)) by lia. reflexivity.
Qed.

Lemma filter_map_comm (P : B -> bool) (f : A -> B) l :
  filter P (map f l) = map f (filter (fun x => P (f x)) l).
Proof.
  induction l as [|x l IH]; simpl; [reflexivity|].
  destruct (P (f x)); simpl; rewrite IH; reflexivity.
Qed.

Lemma filter_none (P : A -> bool) l : (forall x, In x l -> P x = false) -> filter P l = [].
Proof.
  induction l as [|x l IH]; simpl; intros H; [reflexivity|].
  rewrite H by auto. apply IH; auto.
Qed.

Lemma filter_every (P : A -> bool) l : (forall x, In x l -> P x = true) -> filter P l = l.
Proof.
  induction l as [|x l IH]; simpl; intros H; [reflexivity|].
  rewrite H by auto. rewrite IH; auto.
Qed.
End IndexedLists.

Section FilterSeq.
Local Open Scope nat_scope.

Lemma filter_seq_ge k n :
  filter (fun i => k <=? i) (seq 0 n) = seq k (n - k).
Proof.
  destruct (Nat.le_gt_cases k n) as [Hle|Hgt].
  - replace n with (k + (n - k)) at 1 by lia. rewrite seq_app, filter_app.
    rewrite filter_none, filter_every; [reflexivity| |].
    + intros i Hi. apply in_seq in Hi. apply Nat.leb_le. lia.
    + intros i Hi. apply in_seq in Hi. apply Nat.leb_gt. lia.
  - replace (n - k) with 0 by lia. apply filter_none.
    intros i Hi. apply in_seq in Hi. apply Nat.leb_gt. lia.
Qed.
End FilterSeq.

Lemma qmean_bounds (l : list Q) (w : Q) lo hi :
  0 < w -> qlen l == w -> (forall y, In y l -> lo <= y <= hi) ->
  lo <= qsum l / w <= hi.
Proof.
  intros Hw Hlen Hb.
  assert (Hlo : qsum (map (fun _ => lo) l) <= qsum (map (fun y => y) l))
    by (apply qsum_map_le; intros y Hy; apply Hb, Hy).
  assert (Hhi : qsum (map (fun y => y) l) <= qsum (map (fun _ => hi) l))
    by (apply qsum_map_le; intros y Hy; apply Hb, Hy).
  rewrite map_id, !qsum_map_const, Hlen in *.
  split; [apply Qle_shift_div_l | apply Qle_shift_div_r]; auto; lra.
Qed.

Section Windows.
Context {A B : Type}.

Lemma in_firstn_skipn (x : A) a b l : In x (firstn a (skipn b l)) -> In x l.
Proof.
  intros H. rewrite <- (firstn_skipn b l). apply in_or_app. right.
  rewrite <- (firstn_skipn a (skipn b l)). apply in_or_app. left. exact H.
Qed.

Lemma map_fst_combine (l : list A) (l' : list B) :
  length l = length l' -> map fst (combine l l') = l.
Proof.
  revert l'; induction l as [|x l IH]; intros [|y l'] H; simpl in *;
    [reflexivity | discriminate | discriminate | rewrite IH; auto].
Qed.
Lemma map_snd_combine (l : list A) (l' : list B) :
  length l = length l' -> map snd (combine l l') = l'.
Proof.
  revert l'; induction l as [|x l IH]; intros [|y l'] H; simpl in *;
    [reflexivity | discriminate | discriminate | rewrite IH; auto].
Qed.
End Windows.

Lemma Sorted_map_seq {A} (R : A -> A -> Prop) (f : nat -> A) k n :
  (forall i, (k <= i)%nat -> (S i < k + n)%nat -> R (f i) (f (S i))) -> Sorted R (map f (seq k n)).
Proof.
  revert k; induction n as [|n IH]; intros k Hf; simpl; constructor.
  - apply IH. intros i Hi Hi'. apply Hf; lia.
  - destruct n; simpl; constructor. apply Hf; lia.
Qed.

(** ** Centred sums *)

Lemma qsq_nonneg (t : Q) : 0 <= t * t.
Proof. nra. Qed.
#[export] Hint Resolve qsq_nonneg : stock.


Section Centred.
Context {A : Type}.

Lemma qlen_map {B} (f : A -> B) l : qlen (map f l) = qlen l.
Proof. unfold qlen. now rewrite length_map. Qed.

Lemma qlen_nonzero (l : list A) : l <> [] -> ~ qlen l == 0.
Proof. intros Hl H. pose proof (qlen_pos l Hl). lra. Qed.

(** The deviations from the mean sum to zero. *)
Lemma qsum_centred (f : A -> Q) l :
  l <> [] -> qsum (map (fun p => f p - qsum (map f l) / qlen l) l) == 0.
Proof.
  intros Hl. pose proof (qlen_nonzero l Hl) as Hn.
  rewrite (qsum_map_ext _ (fun p => f p + (- (qsum (map f l) / qlen l)))) by (intros; ring).
  rewrite qsum_map_plus, qsum_map_const. field. exact Hn.
Qed.

(** A sum of squares vanishes only when every term does. *)
Lemma qsum_squares_zero (g : A -> Q) l :
  qsum (map (fun p => g p * g p) l) == 0 -> forall p, In p l -> g p == 0.
Proof.
  induction l as [|x l IH]; simpl; [tauto|]. intros H p [<-|Hp].
  - assert (0 <= qsum (map (fun p => g p * g p) l))
      by (apply qsum_map_nonneg; intros; nra).
    assert (g x * g x == 0) by nra. nra.
  - apply IH; [|exact Hp].
    assert (0 <= qsum (map (fun p => g p * g p) l))
      by (apply qsum_map_nonneg; intros; nra).
    assert (0 <= g x * g x) by nra. lra.
Qed.
End Centred.

Lemma nth_map_seq {A} (F : nat -> A) n j d : (j < n)%nat -> nth j (map F (seq 0 n)) d = F j.
Proof.
  intros Hj. rewrite (nth_indep _ d (F 0%nat)) by (rewrite length_map, length_seq; lia).
  rewrite map_nth, seq_nth by lia. reflexivity.
Qed.

(** ** Finite checks over integer ranges

    A property of the integers [lo, lo + n) that is decided by a boolean
    function is checked by evaluating [forallb] over [zrange lo n]. *)

Definition zrange (lo : Z) (n : nat) : list Z := map (fun i => lo + Z.of_nat i)%Z (seq 0 n).

Lemma In_zrange lo n z : (lo <= z < lo + Z.of_nat n)%Z -> In z (zrange lo n).
Proof.
  intros Hz. unfold zrange. apply in_map_iff. exists (Z.to_nat (z - lo)).
  split; [lia | apply in_seq; lia].
Qed.

Lemma forallb_zrange (f : Z -> bool) lo n z :
  forallb f (zrange lo n) = true -> (lo <= z < lo + Z.of_nat n)%Z -> f z = true.
Proof. intros Hall Hz. rewrite forallb_forall in Hall. apply Hall, In_zrange, Hz. Qed.

(** The quotient and remainder of [a] by a positive constant, as linear
    facts [lia] can use. *)
Ltac div_facts a k :=
  pose proof (Z.div_mod a k ltac:(lia));
  pose proof (Z.mod_pos_bound a k ltac:(lia)).
