(* ===== verification/PyRuntime.v ===== *)
(** * The slice of the Python runtime that [src/accuracy.py] relies on

    - [exn]: the exceptions the program can raise or that its library calls
      raise ([ValueError] from NumPy, pandas and scikit-learn,
      [OverflowError] from [datetime], [FileNotFoundError] from
      [pd.read_csv], [AttributeError] from a method call on [None]);
    - [PyM S A]: a state-and-exception monad.  A computation takes the
      process state [S] and returns an [outcome] together with the new state.
      A raised exception keeps the state reached so far, as Python does: the
      effects performed before a [raise] are not undone.  This matters for
      the Tk callbacks of the program, whose exceptions are reported by Tk
      and swallowed by the event loop;
    - the truthiness of a Python list and of a NumPy array, used by
      [if not future_dates or not future_prices] in [save_predictions];
    - decimal formatting of integers and the [:.2f] format of a float,
      over exact rationals;
    - [print]: the [Stdout] interface, standard output as the list of the
      lines written to it, which the program writes and never reads. *)

From Stdlib Require Import List ZArith QArith Qround Qabs Lqa Lia String Ascii Bool.
From S2P Require Import Prelude.
Import ListNotations.

(** ** Exceptions and outcomes *)

Inductive exn : Type :=
| ValueError (msg : string)
| OverflowError (msg : string)
| FileNotFoundError (path : string)
| AttributeError (msg : string).

Inductive outcome (A : Type) : Type :=
| Ok (a : A)
| Raise (e : exn).
Arguments Ok {A} a.
Arguments Raise {A} e.

Definition is_ok {A} (o : outcome A) : bool :=
  match o with Ok _ => true | Raise _ => false end.

(** ** The state-and-exception monad *)

Definition PyM (S A : Type) : Type := S -> outcome A * S.

Section Monad.
Context {S : Type}.

Definition ret {A} (a : A) : PyM S A := fun s => (Ok a, s).

Definition bind {A B} (m : PyM S A) (k : A -> PyM S B) : PyM S B :=
  fun s => match m s with
           | (Ok a, s') => k a s'
           | (Raise e, s') => (Raise e, s')
           end.

Definition raise {A} (e : exn) : PyM S A := fun s => (Raise e, s).

(** Reading and updating the state. *)
Definition gets {A} (f : S -> A) : PyM S A := fun s => (Ok (f s), s).
Definition modify (f : S -> S) : PyM S unit := fun s => (Ok tt, f s).

(** A pure library call that may raise. *)
Definition lift {A} (o : outcome A) : PyM S A := fun s => (o, s).
End Monad.

Declare Scope py_scope.
Delimit Scope py_scope with py.
Notation "x <- m ;; k" := (bind m (fun x => k))
  (at level 61, m at next level, right associativity) : py_scope.
Notation "' p <- m ;; k" := (bind m (fun x => match x with p => k end))
  (at level 61, p pattern, m at next level, right associativity) : py_scope.
Notation "m ;;; k" := (bind m (fun _ => k))
  (at level 61, right associativity) : py_scope.
Open Scope py_scope.

Section MonadLaws.
Context {S : Type}.

Lemma bind_ret_l {A B} (a : A) (k : A -> PyM S B) s : bind (ret a) k s = k a s.
Proof. reflexivity. Qed.

Lemma bind_Ok {A B} (m : PyM S A) (k : A -> PyM S B) s a s' :
  m s = (Ok a, s') -> bind m k s = k a s'.
Proof. unfold bind. now intros ->. Qed.

Lemma bind_Raise {A B} (m : PyM S A) (k : A -> PyM S B) s e s' :
  m s = (Raise e, s') -> bind m k s = (Raise e, s').
Proof. unfold bind. now intros ->. Qed.

Lemma bind_assoc {A B C} (m : PyM S A) (k : A -> PyM S B) (h : B -> PyM S C) s :
  bind (bind m k) h s = bind m (fun a => bind (k a) h) s.
Proof. unfold bind. destruct (m s) as [[a|e] s']; reflexivity. Qed.

(** A state predicate preserved by every step of a computation, whether
    the computation returns or raises. *)
Definition preserves {A} (P : S -> Prop) (m : PyM S A) : Prop :=
  forall s, P s -> P (snd (m s)).

Lemma preserves_ret {A} P (a : A) : preserves P (ret a).
Proof. intros s H. exact H. Qed.

Lemma preserves_raise {A} P e : preserves P (@raise S A e).
Proof. intros s H. exact H. Qed.

Lemma preserves_lift {A} P (o : outcome A) : preserves P (lift o).
Proof. intros s H. exact H. Qed.

Lemma preserves_gets {A} P (f : S -> A) : preserves P (gets f).
Proof. intros s H. exact H. Qed.

Lemma preserves_bind {A B} P (m : PyM S A) (k : A -> PyM S B) :
  preserves P m -> (forall a, preserves P (k a)) -> preserves P (bind m k).
Proof.
  intros Hm Hk s Hs. unfold bind. specialize (Hm s Hs).
  destruct (m s) as [[a|e] s']; simpl in *; auto. apply Hk; exact Hm.
Qed.
End MonadLaws.

#[export] Hint Resolve preserves_ret preserves_raise preserves_lift preserves_gets
  preserves_bind : stock.

(** ** Truthiness *)

(** [not l] for a Python list: a list is true when it is not empty. *)
Definition list_truth {A} (l : list A) : bool :=
  match l with [] => false | _ :: _ => true end.

(** [not a] for a one-dimensional NumPy array of floats: an empty array is
    false (with a DeprecationWarning), a one-element array has the truth value
    of its element, and a longer array raises
    [ValueError: The truth value of an array with more than one element is
    ambiguous]. *)
Definition ndarray_ambiguous : exn :=
  ValueError "The truth value of an array with more than one element is ambiguous. Use a.any() or a.all()".

Definition ndarray_truth (a : list Q) : outcome bool :=
  match a with
  | [] => Ok false
  | [x] => Ok (negb (Qeq_bool x 0))
  | _ :: _ :: _ => Raise ndarray_ambiguous
  end.

(** ** Decimal formatting *)

Definition digit_char (d : Z) : ascii := ascii_of_nat (48 + Z.to_nat d).

(** Digits of a non-negative [n], prepended to [acc]; [fuel] bounds the
    number of digits, [S (Z.to_nat (Z.log2 n))] is always enough. *)
Fixpoint dec_digits (fuel : nat) (n : Z) (acc : string) : string :=
  match fuel with
  | O => acc
  | S f =>
      let acc' := String (digit_char (n mod 10)%Z) acc in
      if (n / 10 =? 0)%Z then acc' else dec_digits f (n / 10)%Z acc'
  end.

(** [str(n)] for a Python [int]. *)
Definition dec_Z (n : Z) : string :=
  if (n <? 0)%Z then ("-" ++ dec_digits (S (Z.to_nat (Z.log2 (- n)))) (- n)%Z "")%string
  else dec_digits (S (Z.to_nat (Z.log2 n))) n "".

(** Two digits with a leading zero ([%m], [%d], and the cents of [:.2f]). *)
Definition pad2 (n : Z) : string :=
  String (digit_char (n / 10)%Z) (String (digit_char (n mod 10)%Z) EmptyString).

(** Rounding to the nearest integer, ties to even. *)
Definition round_half_even (q : Q) : Z :=
  let f := Qfloor q in
  let r := q - inject_Z f in
  if Qlt_le_dec r (1 # 2) then f
  else if Qeq_bool r (1 # 2) then (if Z.even f then f else (f + 1)%Z)
  else (f + 1)%Z.

(** [f"{x:.2f}"]: the sign of [x] (so that a small negative value prints as
    [-0.00]), the integer part, a dot and two digits, rounded half to even. *)
Definition format_2f (x : Q) : string :=
  let n := round_half_even (Qabs x * 100) in
  ((if Qlt_le_dec x 0 then "-" else "") ++ dec_Z (n / 100)%Z ++ "." ++ pad2 (n mod 100)%Z)%string.

Example format_2f_ex1 : format_2f (12345 # 100) = "123.45"%string.
Proof. reflexivity. Qed.

Example format_2f_ex2 : format_2f (-1 # 1000) = "-0.00"%string.
Proof. reflexivity. Qed.

Example format_2f_ex3 : format_2f (1 # 8) = "0.12"%string.
Proof. reflexivity. Qed.

(** A list comprehension whose body runs a computation: the elements are
    evaluated left to right, and the first exception stops the loop. *)
Fixpoint map_py {S A B} (f : A -> PyM S B) (l : list A) : PyM S (list B) :=
  match l with
  | [] => ret []
  | x :: l' => b <- f x ;; bs <- map_py f l' ;; ret (b :: bs)
  end.

Lemma iter_succ_r {T} (f : T -> T) n s : Nat.iter n f (f s) = Nat.iter (Datatypes.S n) f s.
Proof. induction n as [|n IH]; simpl; [reflexivity | now rewrite IH]. Qed.

(** The newline character. *)
Definition nl : string := String (ascii_of_nat 10) EmptyString.

Section MapPy.
Context {S A B : Type}.

Lemma preserves_modify (P : S -> Prop) f : (forall s, P s -> P (f s)) -> preserves P (modify f).
Proof. intros Hf s Hs. apply Hf, Hs. Qed.

Lemma preserves_map_py (P : S -> Prop) (f : A -> PyM S B) l :
  (forall x, preserves P (f x)) -> preserves P (map_py f l).
Proof.
  intros Hf. induction l as [|x l IH]; simpl; [apply preserves_ret|].
  apply preserves_bind; [apply Hf|]. intros b. apply preserves_bind; [exact IH|].
  intros bs. apply preserves_ret.
Qed.

Lemma map_py_length (f : A -> PyM S B) l s r s' :
  map_py f l s = (Ok r, s') -> List.length r = List.length l.
Proof.
  revert s r; induction l as [|x l IH]; simpl; intros s r Hrun.
  - inversion Hrun; reflexivity.
  - unfold bind in Hrun. destruct (f x s) as [[b|e] s1]; [|discriminate].
    destruct (map_py f l s1) as [[bs|e] s2] eqn:E; [|discriminate].
    inversion Hrun; subst. simpl. f_equal. exact (IH _ _ E).
Qed.
End MapPy.

#[export] Hint Resolve preserves_modify preserves_map_py : stock.

Lemma bind_Ok_inv {S A B} (m : PyM S A) (k : A -> PyM S B) s b s'' :
  bind m k s = (Ok b, s'') -> exists a s', m s = (Ok a, s') /\ k a s' = (Ok b, s'').
Proof.
  unfold bind. destruct (m s) as [[a|e] s']; [|discriminate]. intros H. eauto.
Qed.

(** ** Standard output *)

(** [sys.stdout] as the lines written to it, oldest first; [print(s)]
    writes the line [s].  Nothing the program runs ever reads it back. *)
Class Stdout (S : Type) : Type := {
  stdout_get : S -> list string;
  stdout_write : string -> S -> S
}.

Class StdoutLaws (S : Type) `{Stdout S} : Prop := {
  stdout_write_get : forall m s, stdout_get (stdout_write m s) = (stdout_get s ++ [m])%list
}.

Definition print {S} `{Stdout S} (msg : string) : PyM S unit := modify (stdout_write msg).
