(* ===== verification/Calendar.v ===== *)
(** * Dates as [datetime] computes them

    The program handles dates through Python's [datetime] module:
    [datetime.today()], [datetime + timedelta(days=i)],
    [datetime - timedelta(days=365)], [.toordinal()] and
    [.strftime('%Y-%m-%d')].  This file models that slice of the module.

    - The proleptic Gregorian calendar through the ordinal day count of
      CPython ([_ymd2ord] and [_ord2ymd] of [Lib/_pydatetime.py], which the C
      module mirrors): day 1 is 0001-01-01, [MAXORDINAL] is 9999-12-31.
    - A [datetime] is its ordinal plus the microseconds since midnight.
      Adding a [timedelta] of whole days moves the ordinal and raises
      [OverflowError] when the result leaves years 1..9999.
    - [datetime.today()] reads a clock that belongs to the process state:
      the [Clock] interface gives the current reading and the state after the
      read, so that two calls may see different days. *)

From Stdlib Require Import List ZArith Lia String Ascii Bool.
From S2P Require Import Prelude PyRuntime.
Import ListNotations.
Local Open Scope Z_scope.

(** ** The calendar *)

Definition MINYEAR : Z := 1.
Definition MAXYEAR : Z := 9999.
Definition MAXORDINAL : Z := 3652059.

Definition DI400Y : Z := 146097.
Definition DI100Y : Z := 36524.
Definition DI4Y : Z := 1461.

Definition DAYS_IN_MONTH : list Z := [-1; 31; 28; 31; 30; 31; 30; 31; 31; 30; 31; 30; 31].
Definition DAYS_BEFORE_MONTH : list Z := [-1; 0; 31; 59; 90; 120; 151; 181; 212; 243; 273; 304; 334].

Definition at_month (l : list Z) (m : Z) : Z := nth (Z.to_nat m) l 0.

Definition is_leap (year : Z) : bool :=
  (year mod 4 =? 0) && (negb (year mod 100 =? 0) || (year mod 400 =? 0)).

Definition days_before_year (year : Z) : Z :=
  let y := year - 1 in y * 365 + y / 4 - y / 100 + y / 400.

Definition days_in_month (year month : Z) : Z :=
  if (month =? 2) && is_leap year then 29 else at_month DAYS_IN_MONTH month.

Definition days_before_month (year month : Z) : Z :=
  at_month DAYS_BEFORE_MONTH month + (if (month >? 2) && is_leap year then 1 else 0).

Definition ymd2ord (year month day : Z) : Z :=
  days_before_year year + days_before_month year month + day.

(** [_ord2ymd]: the ordinal is split into 400-, 100-, 4- and 1-year cycles;
    the month is first estimated as [(n + 50) >> 5] and corrected once. *)
Definition ord2ymd (n0 : Z) : Z * Z * Z :=
  let n := n0 - 1 in
  let n400 := n / DI400Y in let n := n mod DI400Y in
  let year := n400 * 400 + 1 in
  let n100 := n / DI100Y in let n := n mod DI100Y in
  let n4 := n / DI4Y in let n := n mod DI4Y in
  let n1 := n / 365 in let n := n mod 365 in
  let year := year + n100 * 100 + n4 * 4 + n1 in
  if (n1 =? 4) || (n100 =? 4) then (year - 1, 12, 31)
  else
    let leapyear := (n1 =? 3) && (negb (n4 =? 24) || (n100 =? 3)) in
    let month := Z.shiftr (n + 50) 5 in
    let preceding := at_month DAYS_BEFORE_MONTH month
                     + (if (month >? 2) && leapyear then 1 else 0) in
    let '(month, preceding) :=
      if preceding >? n then
        let month := month - 1 in
        (month, preceding - (at_month DAYS_IN_MONTH month
                             + (if (month =? 2) && leapyear then 1 else 0)))
      else (month, preceding) in
    (year, month, n - preceding + 1).

Definition valid_ymd (y m d : Z) : bool :=
  (MINYEAR <=? y) && (y <=? MAXYEAR) && (1 <=? m) && (m <=? 12)
  && (1 <=? d) && (d <=? days_in_month y m).

(** ** [datetime] and [timedelta] *)

Record datetime : Type := mk_datetime {
  dt_ordinal : Z;   (** [self.toordinal()] *)
  dt_usec : Z       (** time of day, in microseconds since midnight *)
}.

(** [dt + timedelta(days=k)]: the time of day is kept, the date moves by
    [k] days, and a date outside years 1..9999 raises [OverflowError]. *)
Definition add_days (dt : datetime) (k : Z) : outcome datetime :=
  let n := dt_ordinal dt + k in
  if (1 <=? n) && (n <=? MAXORDINAL) then Ok (mk_datetime n (dt_usec dt))
  else Raise (OverflowError "date value out of range").

(** [dt.strftime('%Y-%m-%d')].  [%Y] prints the year in decimal (four
    digits for the years 1000..9999 the program meets), [%m] and [%d] with a
    leading zero. *)
Definition strftime_ymd (dt : datetime) : string :=
  let '(y, m, d) := ord2ymd (dt_ordinal dt) in
  (dec_Z y ++ "-" ++ pad2 m ++ "-" ++ pad2 d)%string.

(** ** The clock read by [datetime.today()] *)

Class Clock (S : Type) : Type := {
  clock_now : S -> datetime;
  clock_tick : S -> S
}.

Definition today {S} `{Clock S} : PyM S datetime :=
  fun s => (Ok (clock_now s), clock_tick s).

Example ord2ymd_1 : ord2ymd 1 = (1, 1, 1).
Proof. reflexivity. Qed.

Example ord2ymd_max : ord2ymd MAXORDINAL = (9999, 12, 31).
Proof. reflexivity. Qed.

Example ymd2ord_2024 : ymd2ord 2024 3 1 = 738946.
Proof. reflexivity. Qed.

Example strftime_ex : strftime_ymd (mk_datetime 738946 0) = "2024-03-01"%string.
Proof. reflexivity. Qed.

(** A clock given by the stream of its successive readings; the process
    state of the application embeds one. *)
#[export] Instance Clock_stream : Clock (nat -> datetime) := {
  clock_now := fun c => c O;
  clock_tick := fun c n => c (S n)
}.

(** A clock reading inside the range of [datetime]. *)
Definition valid_datetime (t : datetime) : Prop :=
  (1 <= dt_ordinal t <= MAXORDINAL)%Z /\ (0 <= dt_usec t < 86400000000)%Z.

Lemma add_days_ok t k :
  (1 <= dt_ordinal t + k <= MAXORDINAL)%Z ->
  add_days t k = Ok (mk_datetime (dt_ordinal t + k) (dt_usec t)).
Proof.
  intros Hk. unfold add_days.
  replace ((1 <=? dt_ordinal t + k) && (dt_ordinal t + k <=? MAXORDINAL))%Z with true
    by (symmetry; apply andb_true_iff; split; apply Z.leb_le; lia).
  reflexivity.
Qed.

Lemma add_days_overflow t k :
  (dt_ordinal t + k < 1 \/ MAXORDINAL < dt_ordinal t + k)%Z ->
  add_days t k = Raise (OverflowError "date value out of range").
Proof.
  intros Hk. unfold add_days.
  replace ((1 <=? dt_ordinal t + k) && (dt_ordinal t + k <=? MAXORDINAL))%Z with false
    by (symmetry; apply andb_false_iff; destruct Hk; [left|right]; apply Z.leb_gt; lia).
  reflexivity.
Qed.

(** A stopped clock: every reading is [t]. *)
Definition stopped_clock (t : datetime) : nat -> datetime := fun _ => t.

Lemma stopped_clock_iter (t : datetime) j :
  Nat.iter j clock_tick (stopped_clock t) = stopped_clock t.
Proof.
  induction j as [|j IH]; [reflexivity|].
  change (clock_tick (Nat.iter j clock_tick (stopped_clock t)) = stopped_clock t).
  rewrite IH. reflexivity.
Qed.
