(* ===== verification/CalendarProofs.v ===== *)
(** * The calendar conversions of [Calendar] are inverse bijections

    [ord2ymd] (CPython's [_ord2ymd]) maps every ordinal of [1, MAXORDINAL]
    to a valid date of years 1..9999, and [ymd2ord] ([_ymd2ord]) maps it
    back; conversely every valid date survives the trip through its
    ordinal.  The proof follows the structure of [_ord2ymd]:

    - the 400-year cycle: shifting an ordinal by [DI400Y] shifts the year by
      400 and leaves month and day alone ([days_before_year] and [is_leap]
      are periodic);
    - inside one cycle, the century, 4-year and 1-year counts [n100],
      [n4], [n1] take 5 * 25 * 5 values; the year they give, its leap flag
      and its first ordinal are checked for each combination;
    - inside one year, the month estimate [(n + 50) >> 5] and its
      correction are checked for each of the 365 or 366 days. *)

From Stdlib Require Import List ZArith Lia Bool.
From S2P Require Import Prelude PyRuntime Calendar.
Import ListNotations.
Local Open Scope Z_scope.

(** ** The parts of [ord2ymd] *)

(** The month and day of the zero-based day [n] of a year: the tail of
    [_ord2ymd], after the year is known. *)
Definition ord2md (leapyear : bool) (n : Z) : Z * Z :=
  let month := Z.shiftr (n + 50) 5 in
  let preceding := at_month DAYS_BEFORE_MONTH month
                   + (if (month >? 2) && leapyear then 1 else 0) in
  let '(month, preceding) :=
    if preceding >? n then
      let month := month - 1 in
      (month, preceding - (at_month DAYS_IN_MONTH month
                           + (if (month =? 2) && leapyear then 1 else 0)))
    else (month, preceding) in
  (month, n - preceding + 1).

Definition days_in_year (year : Z) : Z := if is_leap year then 366 else 365.

(** The month tables of a year, by its leap flag. *)
Definition dim_leap (leap : bool) (m : Z) : Z :=
  if (m =? 2) && leap then 29 else at_month DAYS_IN_MONTH m.

Definition dbm_leap (leap : bool) (m : Z) : Z :=
  at_month DAYS_BEFORE_MONTH m + (if (m >? 2) && leap then 1 else 0).

Lemma days_in_month_leap y m : days_in_month y m = dim_leap (is_leap y) m.
Proof. reflexivity. Qed.

Lemma days_before_month_leap y m : days_before_month y m = dbm_leap (is_leap y) m.
Proof. reflexivity. Qed.

(** ** Periodicity over 400 years *)

Lemma mod_add_multiple y a k c : 0 < k -> c = a * k -> (y + c) mod k = y mod k.
Proof. intros Hk ->. apply Z.mod_add. lia. Qed.

Lemma is_leap_add400 y a : is_leap (y + 400 * a) = is_leap y.
Proof.
  unfold is_leap.
  rewrite (mod_add_multiple y (100 * a) 4), (mod_add_multiple y (4 * a) 100),
          (mod_add_multiple y a 400) by lia.
  reflexivity.
Qed.

Lemma days_before_year_add400 y a :
  days_before_year (y + 400 * a) = days_before_year y + DI400Y * a.
Proof.
  unfold days_before_year, DI400Y.
  replace (y + 400 * a - 1) with ((y - 1) + (100 * a) * 4) by ring.
  rewrite Z.div_add by lia.
  replace ((y - 1) + (100 * a) * 4) with ((y - 1) + (4 * a) * 100) by ring.
  rewrite Z.div_add by lia.
  replace ((y - 1) + (4 * a) * 100) with ((y - 1) + a * 400) by ring.
  rewrite Z.div_add by lia.
  ring.
Qed.

(** ** One year after another *)

Lemma days_before_year_succ y :
  days_before_year (y + 1) = days_before_year y + days_in_year y.
Proof.
  unfold days_before_year, days_in_year, is_leap.
  replace (y + 1 - 1) with y by ring.
  div_facts y 4; div_facts y 100; div_facts y 400.
  div_facts (y - 1) 4; div_facts (y - 1) 100; div_facts (y - 1) 400.
  destruct (Z.eqb_spec (y mod 4) 0); destruct (Z.eqb_spec (y mod 100) 0);
    destruct (Z.eqb_spec (y mod 400) 0); simpl; lia.
Qed.

Lemma days_in_year_bounds y : 365 <= days_in_year y <= 366.
Proof. unfold days_in_year. destruct (is_leap y); lia. Qed.

Lemma days_before_year_mono y k :
  0 <= k -> days_before_year y + 365 * k <= days_before_year (y + k).
Proof.
  intros Hk. pattern k. apply natlike_ind; cbv beta; [rewrite !Z.add_0_r; lia | | exact Hk].
  intros j Hj IH. replace (y + Z.succ j) with ((y + j) + 1) by lia.
  rewrite days_before_year_succ. pose proof (days_in_year_bounds (y + j)). lia.
Qed.

Lemma days_before_year_1 : days_before_year 1 = 0.
Proof. reflexivity. Qed.

Lemma days_before_year_nonneg y : 1 <= y -> 0 <= days_before_year y.
Proof.
  intros Hy. pose proof (days_before_year_mono 1 (y - 1) ltac:(lia)).
  replace (1 + (y - 1)) with y in * by ring. rewrite days_before_year_1 in *. lia.
Qed.

(** An ordinal falls in one year only. *)
Lemma year_unique y r y' r' :
  0 <= r < days_in_year y -> 0 <= r' < days_in_year y' ->
  days_before_year y + r = days_before_year y' + r' -> y = y'.
Proof.
  intros Hr Hr' Heq.
  assert (Hlt : forall a b ra rb, 0 <= ra < days_in_year a -> 0 <= rb ->
            a < b -> days_before_year a + ra < days_before_year b + rb).
  { intros a b ra rb Hra Hrb Hab.
    pose proof (days_before_year_mono (a + 1) (b - (a + 1)) ltac:(lia)) as Hm.
    replace (a + 1 + (b - (a + 1))) with b in Hm by ring.
    rewrite days_before_year_succ in Hm. lia. }
  destruct (Z.lt_trichotomy y y') as [H|[H|H]]; [| exact H |].
  - specialize (Hlt y y' r r' Hr ltac:(lia) H). lia.
  - specialize (Hlt y' y r' r Hr' ltac:(lia) H). lia.
Qed.

(** ** The finite checks *)

(** Inside a 400-year cycle, [n100 = b], [n4 = c] and [n1 = e] name the
    year [100 b + 4 c + e + 1] of the cycle.  When [n1 = 4] or [n100 = 4]
    the ordinal is the last day of the leap year before it; otherwise the
    flag [_ord2ymd] computes is that year's leap flag and
    [36524 b + 1461 c + 365 e] days of the cycle precede it. *)
Definition cycle_year_ok (b c e : Z) : bool :=
  let k := 100 * b + 4 * c + e in
  let off := 36524 * b + 1461 * c + 365 * e in
  if (e =? 4) || (b =? 4) then
    implb (implb (b =? 4) ((c =? 0) && (e =? 0)) && implb (e =? 4) (c <=? 23))
          (is_leap k && (days_before_year k + 366 =? off + 1))
  else Bool.eqb (is_leap (k + 1)) ((e =? 3) && (negb (c =? 24) || (b =? 3)))
       && (days_before_year (k + 1) =? off).

Lemma cycle_year_check :
  forallb (fun b => forallb (fun c => forallb (cycle_year_ok b c) (zrange 0 5))
                            (zrange 0 25))
          (zrange 0 5) = true.
Proof. vm_compute. reflexivity. Qed.

Lemma cycle_year b c e :
  0 <= b <= 4 -> 0 <= c <= 24 -> 0 <= e <= 4 -> cycle_year_ok b c e = true.
Proof.
  intros Hb Hc He.
  apply (forallb_zrange _ 0 5 e); [| simpl; lia].
  apply (forallb_zrange (fun c => forallb (cycle_year_ok b c) (zrange 0 5)) 0 25 c); [| simpl; lia].
  apply (forallb_zrange _ 0 5 b cycle_year_check). simpl; lia.
Qed.

(** Day [r] of a year has a month of 1..12 and a day inside it, and the
    days before it are [r]. *)
Definition md_ok (leap : bool) (r : Z) : bool :=
  let '(m, d) := ord2md leap r in
  (1 <=? m) && (m <=? 12) && (1 <=? d) && (d <=? dim_leap leap m)
  && (dbm_leap leap m + d =? r + 1).

Lemma md_check : forallb (md_ok false) (zrange 0 365) && forallb (md_ok true) (zrange 0 366) = true.
Proof. vm_compute. reflexivity. Qed.

(** Every day of every month is found again from its position in the year. *)
Definition md_inv_ok (leap : bool) (m d : Z) : bool :=
  implb (d <=? dim_leap leap m)
        (let '(m', d') := ord2md leap (dbm_leap leap m + d - 1) in (m' =? m) && (d' =? d)).

Lemma md_inv_check leap :
  forallb (fun m => forallb (md_inv_ok leap m) (zrange 1 31)) (zrange 1 12) = true.
Proof. destruct leap; vm_compute; reflexivity. Qed.

Lemma md_sound (leap : bool) (r : Z) :
  0 <= r < (if leap then 366 else 365) ->
  let '(m, d) := ord2md leap r in
  1 <= m <= 12 /\ 1 <= d <= dim_leap leap m /\ dbm_leap leap m + d = r + 1.
Proof.
  intros Hr. pose proof md_check as H. apply andb_true_iff in H as [Hf Ht].
  assert (Hok : md_ok leap r = true)
    by (destruct leap; [apply (forallb_zrange _ 0 366 r Ht) | apply (forallb_zrange _ 0 365 r Hf)];
        simpl; lia).
  unfold md_ok in Hok. destruct (ord2md leap r) as [m d].
  repeat rewrite andb_true_iff in Hok. rewrite !Z.leb_le, Z.eqb_eq in Hok. lia.
Qed.

(** The month tables: 28 to 31 days a month, and the months of a year
    fit in it. *)
Lemma month_tables_bounds leap m :
  1 <= m <= 12 ->
  28 <= dim_leap leap m <= 31
  /\ 0 <= dbm_leap leap m /\ dbm_leap leap m + dim_leap leap m <= (if leap then 366 else 365).
Proof.
  intros Hm.
  assert (H : forallb (fun m => (28 <=? dim_leap leap m) && (dim_leap leap m <=? 31)
                                && (0 <=? dbm_leap leap m)
                                && (dbm_leap leap m + dim_leap leap m <=? if leap then 366 else 365))
                      (zrange 1 12) = true)
    by (destruct leap; vm_compute; reflexivity).
  pose proof (forallb_zrange _ 1 12 m H ltac:(simpl; lia)) as Hb. cbv beta in Hb.
  rewrite !andb_true_iff, !Z.leb_le in Hb. tauto.
Qed.

Lemma md_complete leap m d :
  1 <= m <= 12 -> 1 <= d <= dim_leap leap m -> ord2md leap (dbm_leap leap m + d - 1) = (m, d).
Proof.
  intros Hm Hd. pose proof (month_tables_bounds leap m Hm) as Hdim.
  assert (Hok : md_inv_ok leap m d = true).
  { apply (forallb_zrange (md_inv_ok leap m) 1 31 d); [| simpl; lia].
    apply (forallb_zrange (fun m => forallb (md_inv_ok leap m) (zrange 1 31)) 1 12 m); [| simpl; lia].
    apply md_inv_check. }
  unfold md_inv_ok in Hok. rewrite (proj2 (Z.leb_le _ _) (proj2 Hd)) in Hok. simpl in Hok.
  destruct (ord2md leap _) as [m' d']. apply andb_true_iff in Hok as [H1 H2].
  apply Z.eqb_eq in H1, H2. congruence.
Qed.

(** ** The year of an ordinal *)

(** [ord2ymd] splits an ordinal into a year [y] and a day [r] of that year,
    and reads month and day from [r] alone. *)
Lemma ord2ymd_year n0 :
  1 <= n0 ->
  exists y r, 1 <= y /\ 0 <= r < days_in_year y /\ n0 = days_before_year y + r + 1
              /\ ord2ymd n0 = (y, fst (ord2md (is_leap y) r), snd (ord2md (is_leap y) r)).
Proof.
  intros Hn. unfold ord2ymd, DI400Y, DI100Y, DI4Y. cbv zeta.
  set (n := n0 - 1). assert (Hn0 : n = n0 - 1) by reflexivity.
  div_facts n 146097. set (a := n / 146097) in *. set (r1 := n mod 146097) in *.
  div_facts r1 36524. set (b := r1 / 36524) in *. set (r2 := r1 mod 36524) in *.
  div_facts r2 1461. set (c := r2 / 1461) in *. set (r3 := r2 mod 1461) in *.
  div_facts r3 365. set (e := r3 / 365) in *. set (r := r3 mod 365) in *.
  assert (Ha : 0 <= a) by lia.
  pose proof (cycle_year b c e ltac:(lia) ltac:(lia) ltac:(lia)) as Hy.
  unfold cycle_year_ok in Hy. cbv zeta in Hy.
  destruct ((e =? 4) || (b =? 4)) eqn:Hov.
  - (* the last day of the leap year before *)
    assert (Hpre : implb (b =? 4) ((c =? 0) && (e =? 0)) && implb (e =? 4) (c <=? 23) = true).
    { apply andb_true_iff; split; apply Bool.implb_true_iff; intros Hx; apply Z.eqb_eq in Hx;
        [apply andb_true_iff; split; apply Z.eqb_eq | apply Z.leb_le]; lia. }
    rewrite Hpre in Hy. cbn [implb] in Hy.
    apply andb_true_iff in Hy as [Hleap Hdby]. apply Z.eqb_eq in Hdby.
    assert (Hr0 : r = 0) by (apply orb_true_iff in Hov as [Hx|Hx]; apply Z.eqb_eq in Hx; lia).
    exists (100 * b + 4 * c + e + 400 * a), 365.
    rewrite is_leap_add400, days_before_year_add400, Hleap. unfold days_in_year, DI400Y.
    rewrite is_leap_add400, Hleap.
    split; [apply orb_true_iff in Hov as [Hx|Hx]; apply Z.eqb_eq in Hx; lia|].
    split; [lia|]. split; [lia|].
    f_equal. f_equal. lia.
  - (* an ordinary day of the year [100 b + 4 c + e + 1] of the cycle *)
    apply andb_true_iff in Hy as [Hleap Hdby]. apply Bool.eqb_prop in Hleap.
    apply Z.eqb_eq in Hdby.
    apply orb_false_iff in Hov as [He4 Hb4]. apply Z.eqb_neq in He4, Hb4.
    exists (a * 400 + 1 + b * 100 + c * 4 + e), r.
    replace (a * 400 + 1 + b * 100 + c * 4 + e) with ((100 * b + 4 * c + e + 1) + 400 * a) by ring.
    unfold days_in_year, DI400Y. rewrite !is_leap_add400, days_before_year_add400, Hleap, Hdby. unfold DI400Y.
    split; [lia|]. split; [destruct ((e =? 3) && _); lia|]. split; [lia|].
    replace (100 * b + 4 * c + e + 1 + 400 * a) with (a * 400 + 1 + b * 100 + c * 4 + e) by ring.
    unfold ord2md. destruct (_ >? r); reflexivity.
Qed.

(** ** The two conversions are inverse *)

Lemma valid_ymd_iff y m d :
  valid_ymd y m d = true <->
  MINYEAR <= y <= MAXYEAR /\ 1 <= m <= 12 /\ 1 <= d <= days_in_month y m.
Proof. unfold valid_ymd. rewrite !andb_true_iff, !Z.leb_le. tauto. Qed.

Lemma days_before_year_10000 : days_before_year 10000 = MAXORDINAL.
Proof. reflexivity. Qed.

(** What [ord2ymd] returns for a positive ordinal: a date of a positive
    year whose month and day are in range and whose ordinal is the input. *)
Lemma ord2ymd_spec n0 :
  1 <= n0 ->
  exists y m d, ord2ymd n0 = (y, m, d) /\ 1 <= y /\ 1 <= m <= 12
                /\ 1 <= d <= days_in_month y m /\ ymd2ord y m d = n0
                /\ n0 = days_before_year y + (days_before_month y m + d - 1) + 1.
Proof.
  intros Hn. destruct (ord2ymd_year n0 Hn) as (y & r & Hy & Hr & Hn0 & Heq).
  pose proof (md_sound (is_leap y) r) as Hmd. unfold days_in_year in Hr.
  destruct (ord2md (is_leap y) r) as [m d]. specialize (Hmd Hr).
  exists y, m, d. rewrite days_in_month_leap. unfold ymd2ord. rewrite days_before_month_leap.
  repeat split; auto; lia.
Qed.

Lemma ymd2ord_bounds y m d :
  valid_ymd y m d = true ->
  0 <= days_before_month y m + d - 1 < days_in_year y
  /\ 1 <= ymd2ord y m d <= MAXORDINAL.
Proof.
  rewrite valid_ymd_iff. unfold MINYEAR, MAXYEAR. intros (Hy & Hm & Hd).
  rewrite days_in_month_leap in Hd. unfold ymd2ord. rewrite days_before_month_leap.
  pose proof (month_tables_bounds (is_leap y) m Hm) as Hb.
  pose proof (days_before_year_nonneg y ltac:(lia)).
  pose proof (days_before_year_mono (y + 1) (9999 - y) ltac:(lia)) as Hmono.
  replace (y + 1 + (9999 - y)) with 10000 in Hmono by ring.
  rewrite days_before_year_succ, days_before_year_10000 in Hmono.
  unfold days_in_year in *. destruct (is_leap y); lia.
Qed.

(** Every ordinal of [1, MAXORDINAL] becomes a valid date: [_ord2ymd]
    returns a year of 1..9999, a month of 1..12 and a day inside that
    month. *)
Lemma ord2ymd_valid n :
  1 <= n <= MAXORDINAL -> let '(y, m, d) := ord2ymd n in valid_ymd y m d = true.
Proof.
  intros Hn. destruct (ord2ymd_spec n ltac:(lia)) as (y & m & d & -> & Hy & Hm & Hd & _ & Hn0).
  apply valid_ymd_iff. unfold MINYEAR, MAXYEAR. repeat split; try lia.
  destruct (Z.le_gt_cases y 9999) as [|Hbig]; [assumption|].
  pose proof (days_before_year_mono 10000 (y - 10000) ltac:(lia)) as Hmono.
  replace (10000 + (y - 10000)) with y in Hmono by ring.
  rewrite days_before_year_10000 in Hmono.
  pose proof (month_tables_bounds (is_leap y) m Hm).
  rewrite days_before_month_leap in Hn0. lia.
Qed.

(** [_ymd2ord] undoes [_ord2ymd]: the date of a positive ordinal has
    that ordinal. *)
Lemma ymd2ord_ord2ymd n :
  1 <= n -> let '(y, m, d) := ord2ymd n in ymd2ord y m d = n.
Proof.
  intros Hn. destruct (ord2ymd_spec n Hn) as (y & m & d & -> & _ & _ & _ & Hord & _). exact Hord.
Qed.

(** [_ord2ymd] undoes [_ymd2ord]: a valid date of years 1..9999 is
    found again from its ordinal. *)
Lemma ord2ymd_ymd2ord y m d :
  valid_ymd y m d = true -> ord2ymd (ymd2ord y m d) = (y, m, d).
Proof.
  intros Hv. destruct (ymd2ord_bounds y m d Hv) as [Hr Hrange].
  destruct (ord2ymd_year (ymd2ord y m d) ltac:(lia)) as (y' & r' & _ & Hr' & Hn & Heq).
  assert (Hyy : y = y').
  { apply (year_unique y (days_before_month y m + d - 1) y' r' Hr Hr').
    unfold ymd2ord in Hn. lia. }
  subst y'. assert (r' = days_before_month y m + d - 1) by (unfold ymd2ord in Hn; lia). subst r'.
  apply valid_ymd_iff in Hv as (_ & Hm & Hd). rewrite days_in_month_leap in Hd.
  rewrite Heq, days_before_month_leap, md_complete by assumption. reflexivity.
Qed.
