(* ===== verification/FormatProofs.v ===== *)
(** * What the printed numbers and dates denote

    [dec_Z] ([str(n)]) computes its digits with a fuel of
    [S (Z.to_nat (Z.log2 n))]; the lemmas here show that this fuel
    covers every digit, so that reading the digits back gives [n].  With the calendar round trip of [CalendarProofs] it
    follows that [strftime('%Y-%m-%d')] is injective on the days of the
    [datetime] range: a date string names one day.  [format_2f] is shown
    to print its argument rounded to the nearest cent. *)

From Stdlib Require Import List ZArith QArith Qround Qabs Qfield Lia Lqa Bool String Ascii.
From S2P Require Import Prelude PyRuntime Calendar CalendarProofs.
Import ListNotations.
Local Open Scope Z_scope.

(** ** Reading decimal digits *)

(** The value of a string of decimal digits, read left to right from [v]. *)
Fixpoint dec_value (s : string) (v : Z) : Z :=
  match s with
  | EmptyString => v
  | String c s' => dec_value s' (10 * v + (Z.of_nat (nat_of_ascii c) - 48))
  end.

Lemma digit_char_value d : 0 <= d < 10 -> Z.of_nat (nat_of_ascii (digit_char d)) - 48 = d.
Proof. intros Hd. unfold digit_char. rewrite nat_ascii_embedding by lia. lia. Qed.

Lemma digit_char_inj d d' : 0 <= d < 10 -> 0 <= d' < 10 -> digit_char d = digit_char d' -> d = d'.
Proof.
  intros Hd Hd' E. rewrite <- (digit_char_value d Hd), <- (digit_char_value d' Hd'), E. reflexivity.
Qed.

(** ** Readers of decimal digits

    A reader consumes a digit character by multiplying the value read so
    far by ten and adding the digit.  [dec_digits] prepends the digits of
    [n] to [acc] whenever its fuel is at least the number of digits: any
    such reader shifts the value read so far by some power of ten and adds
    [n]. *)

Section DigitReader.
Variable X : Type.
Variable R : string -> Z -> X.
Hypothesis R_digit : forall d s v, 0 <= d < 10 -> R (String (digit_char d) s) v = R s (10 * v + d).

Lemma dec_digits_read fuel : forall n acc v,
  0 <= n < 10 ^ Z.of_nat fuel ->
  exists k, 0 <= k /\ R (dec_digits fuel n acc) v = R acc (v * 10 ^ k + n).
Proof.
  induction fuel as [|f IH]; intros n acc v Hn.
  - exists 0. cbn [Z.of_nat] in Hn. rewrite Z.pow_0_r in Hn.
    replace n with 0 by lia. split; [lia|]. cbn [dec_digits]. f_equal. ring.
  - rewrite Nat2Z.inj_succ, Z.pow_succ_r in Hn by lia. cbn [dec_digits].
    div_facts n 10.
    destruct (Z.eqb_spec (n / 10) 0) as [Hq0|Hq0].
    + exists 1. split; [lia|]. rewrite R_digit by lia. f_equal. lia.
    + assert (Hq : 0 <= n / 10 < 10 ^ Z.of_nat f) by lia.
      destruct (IH (n / 10) (String (digit_char (n mod 10)) acc) v Hq) as (k & Hk & ->).
      exists (k + 1). split; [lia|]. rewrite R_digit by lia.
      rewrite Z.pow_add_r, Z.pow_1_r by lia. f_equal. lia.
Qed.
End DigitReader.

Lemma dec_digits_value fuel n acc v :
  0 <= n < 10 ^ Z.of_nat fuel ->
  exists k, 0 <= k /\ dec_value (dec_digits fuel n acc) v = dec_value acc (v * 10 ^ k + n).
Proof.
  apply dec_digits_read. intros d s' w Hd. cbn [dec_value]. now rewrite digit_char_value.
Qed.

(** The fuel [dec_Z] gives is at least the number of digits. *)
Lemma dec_fuel_enough n :
  0 <= n -> n < 10 ^ Z.of_nat (S (Z.to_nat (Z.log2 n))).
Proof.
  intros Hn. rewrite Nat2Z.inj_succ, Z2Nat.id by apply Z.log2_nonneg.
  destruct (Z.eq_dec n 0) as [->|Hn0]; [reflexivity|].
  pose proof (Z.log2_spec n ltac:(lia)) as [_ Hlt].
  eapply Z.lt_le_trans; [exact Hlt|].
  apply Z.pow_le_mono_l. lia.
Qed.

(** A two-digit field reads back as its value. *)
Lemma pad2_value n : 0 <= n < 100 -> dec_value (pad2 n) 0 = n.
Proof.
  intros Hn. unfold pad2. div_facts n 10. cbn [dec_value].
  assert (0 <= n / 10 < 10) by (split; [apply Z.div_pos | apply Z.div_lt_upper_bound]; lia).
  rewrite !digit_char_value by lia. lia.
Qed.

Lemma pad2_inj n n' : 0 <= n < 100 -> 0 <= n' < 100 -> pad2 n = pad2 n' -> n = n'.
Proof. intros Hn Hn' E. rewrite <- (pad2_value n Hn), <- (pad2_value n' Hn'), E. reflexivity. Qed.

(** ** Strings *)

Lemma string_length_append (a b : string) : String.length (a ++ b) = (String.length a + String.length b)%nat.
Proof. induction a as [|c a IH]; simpl; [reflexivity | now rewrite IH]. Qed.

(** Two concatenations with suffixes of the same length have equal parts. *)
Lemma append_inv_r (a b s1 s2 : string) :
  String.length s1 = String.length s2 -> (a ++ s1 = b ++ s2)%string -> a = b /\ s1 = s2.
Proof.
  revert b. induction a as [|c a IH]; intros [|c' b] Hl E; simpl in E.
  - auto.
  - subst s1. simpl in Hl. rewrite string_length_append in Hl. lia.
  - subst s2. simpl in Hl. rewrite string_length_append in Hl. lia.
  - inversion E as [[Hc E']]. destruct (IH b Hl E') as [-> ->]. auto.
Qed.

(** ** [str(n)] and [strftime('%Y-%m-%d')] *)

(** [str(n)] of a non-negative integer reads back as [n]. *)
Lemma dec_Z_value n : 0 <= n -> dec_value (dec_Z n) 0 = n.
Proof.
  intros Hn. unfold dec_Z. replace (n <? 0) with false by (symmetry; apply Z.ltb_ge; lia).
  destruct (dec_digits_value _ n EmptyString 0 (conj Hn (dec_fuel_enough n Hn))) as (k & _ & ->).
  simpl. ring.
Qed.

Lemma strftime_ymd_fields y m d y' m' d' :
  (dec_Z y ++ "-" ++ pad2 m ++ "-" ++ pad2 d = dec_Z y' ++ "-" ++ pad2 m' ++ "-" ++ pad2 d')%string ->
  dec_Z y = dec_Z y' /\ pad2 m = pad2 m' /\ pad2 d = pad2 d'.
Proof.
  intros E.
  apply append_inv_r in E as [Ey E]; [| unfold pad2; reflexivity].
  apply (append_inv_r "-" "-") in E as [_ E]; [| unfold pad2; reflexivity].
  apply append_inv_r in E as [Em E]; [| unfold pad2; reflexivity].
  apply (append_inv_r "-" "-") in E as [_ Ed]; [| unfold pad2; reflexivity].
  auto.
Qed.

(** C31: the date strings the program sends to [yf.download] and writes to
    the ledger name one day each: two [datetime]s of the supported range
    with the same [strftime('%Y-%m-%d')] fall on the same day. *)
Theorem strftime_ymd_injective t t' :
  (1 <= dt_ordinal t <= MAXORDINAL) -> (1 <= dt_ordinal t' <= MAXORDINAL) ->
  strftime_ymd t = strftime_ymd t' -> dt_ordinal t = dt_ordinal t'.
Proof.
  intros Ht Ht' E. pose proof (ord2ymd_valid _ Ht) as Hv. pose proof (ord2ymd_valid _ Ht') as Hv'.
  pose proof (ymd2ord_ord2ymd _ (proj1 Ht)) as Ho. pose proof (ymd2ord_ord2ymd _ (proj1 Ht')) as Ho'.
  unfold strftime_ymd in E.
  destruct (ord2ymd (dt_ordinal t)) as [[y m] d], (ord2ymd (dt_ordinal t')) as [[y' m'] d'].
  apply strftime_ymd_fields in E as (Ey & Em & Ed).
  apply valid_ymd_iff in Hv as (Hy & Hm & Hd), Hv' as (Hy' & Hm' & Hd').
  unfold MINYEAR, MAXYEAR in *. rewrite days_in_month_leap in Hd, Hd'.
  pose proof (month_tables_bounds (is_leap y) m Hm). pose proof (month_tables_bounds (is_leap y') m' Hm').
  assert (y = y') by (rewrite <- (dec_Z_value y), <- (dec_Z_value y'), Ey by lia; reflexivity).
  assert (m = m') by (apply pad2_inj; [lia | lia | exact Em]).
  assert (d = d') by (apply pad2_inj; [lia | lia | exact Ed]).
  subst. lia.
Qed.

(** ** [f"{x:.2f}"] *)

Definition is_digit (c : ascii) : bool := (48 <=? nat_of_ascii c)%nat && (nat_of_ascii c <=? 57)%nat.

Definition digit_val (c : ascii) : Z := Z.of_nat (nat_of_ascii c) - 48.

(** Reads the leading decimal digits of [s] onto [v]; returns the value
    and the rest of the string. *)
Fixpoint read_digits (s : string) (v : Z) : Z * string :=
  match s with
  | String c s' => if is_digit c then read_digits s' (10 * v + digit_val c) else (v, s)
  | EmptyString => (v, EmptyString)
  end.

(** The value of a fixed-point text [-ddd.dd] or [ddd.dd]. *)
Definition read_2f (s : string) : option Q :=
  let '(neg, s1) := match s with
                    | String c s' => if Ascii.eqb c "-"%char then (true, s') else (false, s)
                    | EmptyString => (false, s)
                    end in
  match read_digits s1 0 with
  | (ip, String c (String d1 (String d2 EmptyString))) =>
      if Ascii.eqb c "."%char && is_digit d1 && is_digit d2 then
        let v := (inject_Z ip + inject_Z (10 * digit_val d1 + digit_val d2) / 100)%Q in
        Some (if neg then (- v)%Q else v)
      else None
  | _ => None
  end.

Lemma is_digit_char d : 0 <= d < 10 -> is_digit (digit_char d) = true.
Proof.
  intros Hd. unfold is_digit, digit_char. rewrite nat_ascii_embedding by lia.
  apply andb_true_iff; split; apply Nat.leb_le; lia.
Qed.

Lemma read_digits_digit d s v :
  0 <= d < 10 -> read_digits (String (digit_char d) s) v = read_digits s (10 * v + d).
Proof.
  intros Hd. cbn [read_digits]. rewrite is_digit_char by exact Hd.
  unfold digit_val. now rewrite digit_char_value.
Qed.

Lemma read_digits_dot t v : read_digits (String "."%char t) v = (v, String "."%char t).
Proof. reflexivity. Qed.

Lemma dec_digits_app fuel n acc t :
  (dec_digits fuel n acc ++ t)%string = dec_digits fuel n (acc ++ t)%string.
Proof.
  revert n acc. induction fuel as [|f IH]; intros n acc; [reflexivity|].
  cbn [dec_digits]. destruct (n / 10 =? 0); [reflexivity|]. apply IH.
Qed.

(** The digits [dec_digits] prints start with a digit. *)
Lemma dec_digits_head fuel n acc :
  (1 <= fuel)%nat -> exists c s, dec_digits fuel n acc = String c s /\ is_digit c = true.
Proof.
  revert n acc. induction fuel as [|f IH]; intros n acc Hf; [lia|].
  assert (Hdig : is_digit (digit_char (n mod 10)) = true) by (apply is_digit_char, Z.mod_pos_bound; lia).
  cbn [dec_digits]. destruct (n / 10 =? 0); [eauto|].
  destruct f as [|f']; [cbn [dec_digits]; eauto | apply IH; lia].
Qed.

(** A non-negative integer part, a dot and two digits read back as their
    value. *)
Lemma read_2f_unsigned q r :
  0 <= q -> 0 <= r < 100 ->
  read_2f (dec_Z q ++ "." ++ pad2 r)%string = Some (inject_Z q + inject_Z r / 100)%Q
  /\ read_2f ("-" ++ dec_Z q ++ "." ++ pad2 r)%string = Some (- (inject_Z q + inject_Z r / 100))%Q.
Proof.
  intros Hq Hr.
  unfold dec_Z. replace (q <? 0) with false by (symmetry; apply Z.ltb_ge; lia).
  rewrite dec_digits_app. set (fuel := S (Z.to_nat (Z.log2 q))).
  assert (Hdig : 0 <= r / 10 < 10 /\ 0 <= r mod 10 < 10)
    by (split; [split; [apply Z.div_pos | apply Z.div_lt_upper_bound] | apply Z.mod_pos_bound]; lia).
  assert (Hread : read_digits (dec_digits fuel q ("" ++ "." ++ pad2 r)) 0 = (q, ("." ++ pad2 r)%string)).
  { destruct (dec_digits_read _ read_digits read_digits_digit fuel q ("" ++ "." ++ pad2 r)%string 0
                (conj Hq (dec_fuel_enough q Hq))) as (k & _ & ->).
    cbn [append]. rewrite read_digits_dot. reflexivity. }
  assert (Htail : forall (neg : bool),
    (match read_digits (dec_digits fuel q ("" ++ "." ++ pad2 r)) 0 with
     | (ip, String c (String d1 (String d2 EmptyString))) =>
         if Ascii.eqb c "."%char && is_digit d1 && is_digit d2 then
           let v := (inject_Z ip + inject_Z (10 * digit_val d1 + digit_val d2) / 100)%Q in
           Some (if neg then (- v)%Q else v)
         else None
     | _ => None
     end) = Some (if neg then (- (inject_Z q + inject_Z r / 100))%Q else (inject_Z q + inject_Z r / 100)%Q)).
  { intros neg. rewrite Hread. unfold pad2. cbn [append].
    rewrite !is_digit_char by lia. cbn [Ascii.eqb andb]. unfold digit_val.
    rewrite !digit_char_value by lia. replace (10 * (r / 10) + r mod 10) with r by (div_facts r 10; lia).
    reflexivity. }
  split.
  - destruct (dec_digits_head fuel q ("" ++ "." ++ pad2 r)%string ltac:(unfold fuel; lia))
      as (c & s' & Hs & Hc).
    unfold read_2f. rewrite Hs.
    replace (Ascii.eqb c "-"%char) with false
      by (symmetry; destruct (Ascii.eqb_spec c "-"%char) as [->|]; [discriminate Hc | reflexivity]).
    rewrite <- Hs. exact (Htail false).
  - unfold read_2f. cbn [append]. exact (Htail true).
Qed.

(** Rounding half to even moves a non-negative value by at most one half. *)
Lemma round_half_even_bounds q :
  (0 <= q)%Q -> (0 <= round_half_even q)%Z /\ (Qabs (inject_Z (round_half_even q) - q) <= 1 # 2)%Q.
Proof.
  intros Hq. unfold round_half_even.
  pose proof (Qfloor_le q) as Hle. pose proof (Qlt_floor q) as Hlt.
  pose proof (Qfloor_resp_le 0 q Hq) as H0. replace (Qfloor 0) with 0%Z in H0 by reflexivity.
  rewrite inject_Z_plus in Hlt. change (inject_Z 1) with 1%Q in Hlt.
  destruct (Qlt_le_dec (q - inject_Z (Qfloor q)) (1 # 2)) as [Hh|Hh].
  - split; [lia|]. apply Qabs_Qle_condition. split; lra.
  - destruct (Qeq_bool (q - inject_Z (Qfloor q)) (1 # 2)) eqn:E.
    + apply Qeq_bool_iff in E. destruct (Z.even (Qfloor q)).
      * split; [lia|]. apply Qabs_Qle_condition. split; lra.
      * split; [lia|]. rewrite inject_Z_plus. change (inject_Z 1) with 1%Q. apply Qabs_Qle_condition. split; lra.
    + split; [lia|]. rewrite inject_Z_plus. change (inject_Z 1) with 1%Q.
      apply Qeq_bool_neq in E. apply Qabs_Qle_condition. split; lra.
Qed.

(** C35: [f"{x:.2f}"] prints [x] rounded to the cent: the printed text
    reads back as a value within half a cent of [x], whatever the sign of
    [x]. *)
Theorem format_2f_rounding x :
  exists v, read_2f (format_2f x) = Some v /\ (Qabs (v - x) <= 1 # 200)%Q.
Proof.
  set (n := round_half_even (Qabs x * 100)).
  assert (Hx : (0 <= Qabs x * 100)%Q) by (apply Qmult_le_0_compat; [apply Qabs_nonneg | discriminate]).
  destruct (round_half_even_bounds _ Hx) as [Hn Hb]. fold n in Hn, Hb.
  assert (Hq : 0 <= n / 100) by (apply Z.div_pos; lia).
  assert (Hr : 0 <= n mod 100 < 100) by (apply Z.mod_pos_bound; lia).
  destruct (read_2f_unsigned (n / 100) (n mod 100) Hq Hr) as [Hpos Hneg].
  assert (Hval : (inject_Z (n / 100) + inject_Z (n mod 100) / 100 == inject_Z n * (1 # 100))%Q).
  { rewrite (Z.div_mod n 100) at 3 by lia. rewrite inject_Z_plus, inject_Z_mult. field. }
  apply Qabs_Qle_condition in Hb.
  unfold format_2f. fold n. destruct (Qlt_le_dec x 0) as [Hlt|Hge].
  - exists (- (inject_Z (n / 100) + inject_Z (n mod 100) / 100))%Q. split; [exact Hneg|].
    rewrite Qabs_neg in Hb by lra. apply Qabs_Qle_condition. rewrite Hval. split; lra.
  - exists (inject_Z (n / 100) + inject_Z (n mod 100) / 100)%Q. split; [exact Hpos|].
    rewrite Qabs_pos in Hb by exact Hge. apply Qabs_Qle_condition. rewrite Hval. split; lra.
Qed.

Lemma format_2f_rounding_witness :
  exists v, read_2f (format_2f (1 # 8)) = Some v /\ (Qabs (v - (1 # 8)) <= 1 # 200)%Q.
Proof. apply format_2f_rounding. Defined.

(** C32: [strftime('%Y-%m-%d')] of a [datetime] in range prints the
    year, the two-digit month and the two-digit day of a valid date whose
    ordinal is the [datetime]'s: the start and end dates the program sends
    to [yf.download] are well-formed calendar dates. *)
Theorem strftime_ymd_valid t :
  1 <= dt_ordinal t <= MAXORDINAL ->
  exists y m d, valid_ymd y m d = true /\ ymd2ord y m d = dt_ordinal t
                /\ strftime_ymd t = (dec_Z y ++ "-" ++ pad2 m ++ "-" ++ pad2 d)%string.
Proof.
  intros Ht. pose proof (ord2ymd_valid _ Ht) as Hv. pose proof (ymd2ord_ord2ymd _ (proj1 Ht)) as Ho.
  unfold strftime_ymd. destruct (ord2ymd (dt_ordinal t)) as [[y m] d].
  exists y, m, d. auto.
Qed.

(** C33: a valid date printed through its ordinal comes back as itself:
    [strftime('%Y-%m-%d')] of the [datetime] of year [y], month [m] and
    day [d] prints [y], [m] and [d]. *)
Theorem strftime_ymd_ymd2ord y m d u :
  valid_ymd y m d = true ->
  strftime_ymd (mk_datetime (ymd2ord y m d) u) = (dec_Z y ++ "-" ++ pad2 m ++ "-" ++ pad2 d)%string.
Proof. intros Hv. unfold strftime_ymd. simpl dt_ordinal. rewrite ord2ymd_ymd2ord by exact Hv. reflexivity. Qed.

Lemma strftime_ymd_valid_witness :
  exists y m d, valid_ymd y m d = true /\ ymd2ord y m d = 738946
                /\ strftime_ymd (mk_datetime 738946 0) = (dec_Z y ++ "-" ++ pad2 m ++ "-" ++ pad2 d)%string.
Proof. apply (strftime_ymd_valid (mk_datetime 738946 0)). unfold MAXORDINAL; simpl; lia. Defined.

Lemma strftime_ymd_ymd2ord_witness :
  strftime_ymd (mk_datetime (ymd2ord 2024 2 29) 0) = (dec_Z 2024 ++ "-" ++ pad2 2 ++ "-" ++ pad2 29)%string.
Proof. apply strftime_ymd_ymd2ord. reflexivity. Defined.

Lemma strftime_ymd_injective_witness :
  dt_ordinal (mk_datetime 738946 0) = dt_ordinal (mk_datetime 738946 86399999999).
Proof.
  apply strftime_ymd_injective; [unfold MAXORDINAL; simpl; lia | unfold MAXORDINAL; simpl; lia |].
  reflexivity.
Defined.
