(* ===== verification/Companies.v ===== *)
(** * The company table ([COMPANIES], lines 13-29)

    [COMPANIES] is a Python dict literal from display names to NSE ticker
    symbols.  The order of its keys matters to the program
    ([list(COMPANIES.keys())[0]] is the default selection of the company
    combobox), so the dict is an association list in insertion order.
    [COMPANIES.get(name)] is [dict_get]: the value of the key, or [None]. *)

From Stdlib Require Import List String Bool.
From S2P Require Import Prelude.
Import ListNotations.
Local Open Scope string_scope.

Definition COMPANIES : list (string * string) := [
  ("Tata Consultancy Services", "TCS.NS");
  ("Reliance Industries", "RELIANCE.NS");
  ("Infosys", "INFY.NS");
  ("HDFC Bank", "HDFCBANK.NS");
  ("ICICI Bank", "ICICIBANK.NS");
  ("State Bank of India", "SBIN.NS");
  ("Larsen & Toubro", "LT.NS");
  ("Mahindra & Mahindra", "M&M.NS");
  ("Bharti Airtel", "BHARTIARTL.NS");
  ("Hindustan Unilever", "HINDUNILVR.NS");
  ("Asian Paints", "ASIANPAINT.NS");
  ("Maruti Suzuki", "MARUTI.NS");
  ("Wipro", "WIPRO.NS");
  ("Sun Pharmaceuticals", "SUNPHARMA.NS");
  ("Tata Motors", "TATAMOTORS.NS")
].

(** [d.get(k)] on a dict given by its items in insertion order. *)
Fixpoint dict_get (d : list (string * string)) (k : string) : option string :=
  match d with
  | [] => None
  | (k', v) :: d' => if String.eqb k k' then Some v else dict_get d' k
  end.

(** [list(d.keys())]. *)
Definition dict_keys (d : list (string * string)) : list string := map fst d.

Lemma dict_get_In d k v : dict_get d k = Some v -> In (k, v) d.
Proof.
  induction d as [|[k' v'] d IH]; simpl; [discriminate|].
  destruct (String.eqb_spec k k') as [->|_]; [intros H; inversion H; auto | auto].
Qed.

Lemma dict_get_None d k : dict_get d k = None <-> ~ In k (dict_keys d).
Proof.
  induction d as [|[k' v'] d IH]; simpl; [tauto|].
  destruct (String.eqb_spec k k') as [->|Hne]; split; intros H.
  - discriminate.
  - exfalso; auto.
  - intros [H'|H']; [congruence | apply IH in H; auto].
  - apply IH. auto.
Qed.

Lemma dict_get_NoDup d k v :
  NoDup (dict_keys d) -> In (k, v) d -> dict_get d k = Some v.
Proof.
  induction d as [|[k' v'] d IH]; simpl; [tauto|].
  intros Hnd Hin. inversion Hnd as [|? ? Hnotin Hnd']; subst.
  destruct (String.eqb_spec k k') as [->|Hne]; destruct Hin as [Heq|Hin].
  - now inversion Heq.
  - exfalso. apply Hnotin. now apply (in_map fst) in Hin.
  - congruence.
  - auto.
Qed.

Lemma COMPANIES_keys_NoDup : NoDup (dict_keys COMPANIES).
Proof. apply (nodupb_NoDup String.eqb String.eqb_eq). vm_compute. reflexivity. Qed.

Lemma COMPANIES_tickers_NoDup : NoDup (map snd COMPANIES).
Proof. apply (nodupb_NoDup String.eqb String.eqb_eq). vm_compute. reflexivity. Qed.

(** [COMPANIES.get(name)] returns a ticker exactly for the fifteen listed
    company names, and then the ticker listed beside the name. *)
Lemma COMPANIES_get_spec name ticker :
  dict_get COMPANIES name = Some ticker <-> In (name, ticker) COMPANIES.
Proof.
  split; [apply dict_get_In | apply dict_get_NoDup, COMPANIES_keys_NoDup].
Qed.

Lemma COMPANIES_tickers_nonempty name t : In (name, t) COMPANIES -> t <> EmptyString.
Proof. simpl. intros H. repeat (destruct H as [H|H]; [inversion H; discriminate|]). destruct H. Qed.

Lemma NoDup_map_snd_inj (d : list (string * string)) a b t :
  NoDup (map snd d) -> In (a, t) d -> In (b, t) d -> a = b.
Proof.
  induction d as [|[k v] d IH]; simpl; [tauto|].
  intros Hnd Ha Hb. inversion Hnd as [|? ? Hnotin Hnd']; subst.
  destruct Ha as [Ha|Ha]; destruct Hb as [Hb|Hb].
  - inversion Ha; inversion Hb; congruence.
  - inversion Ha; subst. exfalso. apply Hnotin, (in_map snd _ _ Hb).
  - inversion Hb; subst. exfalso. apply Hnotin, (in_map snd _ _ Ha).
  - eauto.
Qed.

(** The ticker determines the company: two names that [COMPANIES.get]
    maps to the same ticker are the same name. *)
Lemma COMPANIES_get_injective a b t :
  dict_get COMPANIES a = Some t -> dict_get COMPANIES b = Some t -> a = b.
Proof.
  intros Ha Hb. apply dict_get_In in Ha, Hb.
  exact (NoDup_map_snd_inj _ _ _ _ COMPANIES_tickers_NoDup Ha Hb).
Qed.
