(* ===== verification/DateRange.v ===== *)
(** * The date range of a request ([get_start_date], lines 37-48, and the
      first two lines of [plot_stock_data], lines 66-68)

    [get_start_date(duration)] reads the clock, subtracts 365, 730 or 1825
    days for the three labels the duration combobox offers, raises
    [ValueError] for any other label (the combobox is editable, so the user
    can type one), and formats the start date as [YYYY-MM-DD].
    [plot_stock_data] computes the end date from its own, earlier, call to
    [datetime.today()]: [plot_date_range] is those two lines, and its theorem
    shows how the two clock readings shape the window. *)

From Stdlib Require Import List ZArith Lia String Ascii Bool.
From S2P Require Import Prelude PyRuntime Calendar.
Import ListNotations.
Local Open Scope string_scope.

Definition dq : string := String (ascii_of_nat 34) EmptyString.

(** [ValueError('Unsupported duration. Use "1 year", "2 years", or "5 years".')] *)
Definition unsupported_duration : exn :=
  ValueError ("Unsupported duration. Use " ++ dq ++ "1 year" ++ dq ++ ", " ++ dq ++ "2 years"
              ++ dq ++ ", or " ++ dq ++ "5 years" ++ dq ++ ".").

Section WithClock.
Context {S : Type} `{Clock S}.

Definition get_start_date (duration : string) : PyM S string :=
  today_ <- today ;;
  if String.eqb duration "1 year" then
    start_date <- lift (add_days today_ (- 365)) ;; ret (strftime_ymd start_date)
  else if String.eqb duration "2 years" then
    start_date <- lift (add_days today_ (- (2 * 365))) ;; ret (strftime_ymd start_date)
  else if String.eqb duration "5 years" then
    start_date <- lift (add_days today_ (- (5 * 365))) ;; ret (strftime_ymd start_date)
  else raise unsupported_duration.

(** [end_date = datetime.today().strftime('%Y-%m-%d')]
    [start_date = get_start_date(duration)] *)
Definition plot_date_range (duration : string) : PyM S (string * string) :=
  now_ <- today ;;
  let end_date := strftime_ymd now_ in
  start_date <- get_start_date duration ;;
  ret (start_date, end_date).
End WithClock.

(** The window length the spec gives each label (section 4.1). *)
Definition duration_days (duration : string) : option Z :=
  if String.eqb duration "1 year" then Some 365%Z
  else if String.eqb duration "2 years" then Some 730%Z
  else if String.eqb duration "5 years" then Some 1825%Z
  else None.

Section Theorems.
Context {S : Type} `{Clock S}.

(** Every branch of [get_start_date] at once: the clock is read, then the
    label selects the number of days, the subtraction may overflow, and an
    unknown label raises. *)
Lemma get_start_date_eq d s :
  get_start_date d s =
    (match duration_days d with
     | Some k => match add_days (clock_now s) (- k) with
                 | Ok t => Ok (strftime_ymd t)
                 | Raise e => Raise e
                 end
     | None => Raise unsupported_duration
     end, clock_tick s).
Proof.
  unfold get_start_date, duration_days, today, bind, lift, ret, raise.
  destruct (String.eqb d "1 year"); [|destruct (String.eqb d "2 years");
    [|destruct (String.eqb d "5 years")]];
    cbn -[add_days strftime_ymd]; try reflexivity;
    match goal with |- context [add_days ?t ?k] => destruct (add_days t k); reflexivity end.
Qed.

(** A known label gives the date that many days before the clock reading. *)
Lemma get_start_date_days_before d k s :
  duration_days d = Some k ->
  (k + 1 <= dt_ordinal (clock_now s) <= MAXORDINAL)%Z ->
  get_start_date d s =
    (Ok (strftime_ymd (mk_datetime (dt_ordinal (clock_now s) - k) (dt_usec (clock_now s)))),
     clock_tick s).
Proof.
  intros Hd Hr. rewrite get_start_date_eq, Hd.
  assert (0 < k)%Z by (unfold duration_days in Hd;
    repeat destruct (String.eqb _ _); inversion Hd; lia).
  rewrite add_days_ok by lia. reflexivity.
Qed.

(** C16: for the labels "1 year", "2 years" and "5 years", [get_start_date]
    reads the clock once and returns the date 365, 730 or 1825 days before
    the reading, formatted [YYYY-MM-DD], provided that date is not before
    0001-01-01. *)
Theorem get_start_date_ok d k s :
  duration_days d = Some k ->
  (k + 1 <= dt_ordinal (clock_now s) <= MAXORDINAL)%Z ->
  get_start_date d s =
    (Ok (strftime_ymd (mk_datetime (dt_ordinal (clock_now s) - k) (dt_usec (clock_now s)))),
     clock_tick s).
Proof. intros; eapply get_start_date_days_before; eauto. Qed.

(** C17: any other duration label raises [ValueError('Unsupported duration.
    ...')]; the clock has been read before the label is examined. *)
Theorem get_start_date_invalid d s :
  duration_days d = None ->
  get_start_date d s = (Raise unsupported_duration, clock_tick s).
Proof. intros Hd. rewrite get_start_date_eq, Hd. reflexivity. Qed.

(** C11: the window [plot_stock_data] requests spans the label's number of
    days minus the days the clock advanced between its two readings: the
    end date comes from the first reading, the start date from the second,
    so a request that straddles midnight asks for one day less. *)
Theorem plot_date_range_span d k s :
  duration_days d = Some k ->
  (k + 1 <= dt_ordinal (clock_now (clock_tick s)) <= MAXORDINAL)%Z ->
  exists t_start t_end,
    plot_date_range d s = (Ok (strftime_ymd t_start, strftime_ymd t_end),
                           clock_tick (clock_tick s))
    /\ (dt_ordinal t_end - dt_ordinal t_start
        = k - (dt_ordinal (clock_now (clock_tick s)) - dt_ordinal (clock_now s)))%Z.
Proof.
  intros Hd Hr. unfold plot_date_range.
  rewrite (bind_Ok today _ s (clock_now s) (clock_tick s)) by reflexivity.
  rewrite (bind_Ok _ _ _ _ _ (get_start_date_days_before d k (clock_tick s) Hd Hr)).
  eexists; eexists; split; [reflexivity|]. simpl. lia.
Qed.

(** [plot_date_range] reads the clock twice, whatever the label. *)
Lemma plot_date_range_state d s :
  snd (plot_date_range d s) = clock_tick (clock_tick s).
Proof.
  unfold plot_date_range.
  rewrite (bind_Ok today _ s (clock_now s) (clock_tick s)) by reflexivity.
  unfold bind at 1. rewrite get_start_date_eq.
  destruct (duration_days d); [destruct (add_days _ _)|]; reflexivity.
Qed.

(** The two dates in full: the start date is [k] days before the second
    reading, the end date is the first reading. *)
Lemma plot_date_range_exact d k s :
  duration_days d = Some k ->
  (k + 1 <= dt_ordinal (clock_now (clock_tick s)) <= MAXORDINAL)%Z ->
  plot_date_range d s =
    (Ok (strftime_ymd (mk_datetime (dt_ordinal (clock_now (clock_tick s)) - k)
                                   (dt_usec (clock_now (clock_tick s)))),
         strftime_ymd (clock_now s)), clock_tick (clock_tick s)).
Proof.
  intros Hd Hr. unfold plot_date_range.
  rewrite (bind_Ok today _ s (clock_now s) (clock_tick s)) by reflexivity.
  rewrite (bind_Ok _ _ _ _ _ (get_start_date_days_before d k (clock_tick s) Hd Hr)). reflexivity.
Qed.

(** With a known label and a second reading far enough from day 1, both
    dates are computed. *)
Lemma plot_date_range_Ok d k s :
  duration_days d = Some k ->
  (k + 1 <= dt_ordinal (clock_now (clock_tick s)) <= MAXORDINAL)%Z ->
  exists sd ed, plot_date_range d s = (Ok (sd, ed), clock_tick (clock_tick s)).
Proof.
  intros Hd Hr. eexists; eexists. exact (plot_date_range_exact d k s Hd Hr).
Qed.

Lemma plot_date_range_preserves (P : S -> Prop) d :
  (forall s, P s -> P (clock_tick s)) -> preserves P (plot_date_range d).
Proof. intros Hc s Hs. rewrite plot_date_range_state. auto. Qed.
End Theorems.

Definition same_day_clock : nat -> datetime := fun _ => mk_datetime 738946 0.

(** 2024-03-01 23:59:59.999999, then 2024-03-02 00:00:00. *)
Definition midnight_clock : nat -> datetime :=
  fun n => match n with O => mk_datetime 738946 86399999999 | _ => mk_datetime 738947 0 end.

Lemma get_start_date_ok_witness :
  get_start_date "1 year" same_day_clock =
    (Ok "2023-03-02", clock_tick same_day_clock).
Proof.
  rewrite (get_start_date_ok "1 year" 365); [reflexivity | reflexivity | unfold MAXORDINAL; simpl; lia].
Defined.

Lemma get_start_date_invalid_witness :
  get_start_date "3 years" same_day_clock = (Raise unsupported_duration, clock_tick same_day_clock).
Proof. apply get_start_date_invalid. reflexivity. Defined.

Lemma plot_date_range_span_witness :
  exists t_start t_end,
    plot_date_range "1 year" midnight_clock =
      (Ok (strftime_ymd t_start, strftime_ymd t_end), clock_tick (clock_tick midnight_clock))
    /\ (dt_ordinal t_end - dt_ordinal t_start = 364)%Z.
Proof.
  destruct (plot_date_range_span "1 year" 365 midnight_clock) as (ts & te & Hrun & Hspan);
    [reflexivity | unfold MAXORDINAL; simpl; lia |].
  exists ts, te. split; [exact Hrun | rewrite Hspan; reflexivity].
Defined.
