(* ===== verification/Features.v ===== *)
(** * Moving averages and row truncation (lines 79-84 of [plot_stock_data])

    [yf.download] returns a DataFrame indexed by trading date with the
    columns Open, High, Low, Close and Volume; a missing quote is NaN.  A row
    is a [bar]: the ordinal of its index date and one [option Q] per column,
    [None] standing for NaN (prices are exact rationals here, not binary
    floats).

    - [rolling_mean w c] is [c.rolling(window=w).mean()]: with pandas'
      default [min_periods = w], position [i] holds the mean of the [w]
      values ending at [i] when all of them are present, and NaN otherwise
      (in particular for the first [w - 1] positions);
    - [add_moving_averages] assigns the columns [MA50] and [MA200];
    - [dropna] is [data.dropna(inplace=True)]: a row with a NaN in any
      column is removed;
    - [enrich] is the whole block of lines 80-84. *)

From Stdlib Require Import List ZArith QArith Qfield Lqa Lia Bool Sorted.
From S2P Require Import Prelude PyRuntime.
Import ListNotations.

Record bar : Type := mk_bar {
  bar_date : Z;           (** the index timestamp, as its ordinal *)
  Open : option Q;
  High : option Q;
  Low : option Q;
  Close : option Q;
  Volume : option Q
}.

Record erow : Type := mk_erow {
  er_bar : bar;
  MA50 : option Q;
  MA200 : option Q
}.

(** The mean of one full window, NaN when a value of the window is NaN. *)
Definition window_mean (w : nat) (ys : list (option Q)) : option Q :=
  match all_some ys with
  | Some qs => Some (qsum qs / inject_Z (Z.of_nat w))
  | None => None
  end.

(** Position [i] of [c.rolling(window=w).mean()]. *)
Definition rolling_at (w : nat) (c : list (option Q)) (i : nat) : option Q :=
  if i + 1 <? w then None
  else window_mean w (firstn w (skipn (i + 1 - w) c)).

Definition rolling_mean (w : nat) (c : list (option Q)) : list (option Q) :=
  map (rolling_at w c) (seq 0 (length c)).

(** [data['MA50'] = data['Close'].rolling(window=50).mean()]
    [data['MA200'] = data['Close'].rolling(window=200).mean()] *)
Definition add_moving_averages (data : list bar) : list erow :=
  let close := map Close data in
  map (fun '(b, (m50, m200)) => mk_erow b m50 m200)
      (combine data (combine (rolling_mean 50 close) (rolling_mean 200 close))).

Definition row_complete (r : erow) : bool :=
  let b := er_bar r in
  notna (Open b) && notna (High b) && notna (Low b) && notna (Close b)
  && notna (Volume b) && notna (MA50 r) && notna (MA200 r).

(** [data.dropna(inplace=True)] *)
Definition dropna (rows : list erow) : list erow := filter row_complete rows.

Definition enrich (data : list bar) : list erow := dropna (add_moving_averages data).

(** A bar with every column present. *)
Definition bar_complete (b : bar) : bool :=
  notna (Open b) && notna (High b) && notna (Low b) && notna (Close b) && notna (Volume b).

(** ** The shape of the enriched frame *)

Lemma rolling_mean_length w c : length (rolling_mean w c) = length c.
Proof. unfold rolling_mean. now rewrite length_map, length_seq. Qed.

Lemma add_moving_averages_eq data d :
  add_moving_averages data =
    map (fun i => mk_erow (nth i data d) (rolling_at 50 (map Close data) i)
                          (rolling_at 200 (map Close data) i))
        (seq 0 (length data)).
Proof.
  unfold add_moving_averages, rolling_mean. rewrite length_map, combine_map_map_seq.
  rewrite (combine_nth_seq data _ d 0), map_map. apply map_ext. intros i.
  now rewrite Nat.sub_0_r.
Qed.

(** A full window of present values has their mean. *)
Lemma rolling_at_full w cs i :
  (0 < w)%nat -> (w <= i + 1)%nat ->
  rolling_at w (map Some cs) i = Some (qsum (firstn w (skipn (i + 1 - w) cs)) / inject_Z (Z.of_nat w)).
Proof.
  intros Hw Hi. unfold rolling_at, window_mean.
  replace (i + 1 <? w)%nat with false by (symmetry; apply Nat.ltb_ge; lia).
  now rewrite skipn_map, firstn_map, all_some_map_Some.
Qed.

Lemma rolling_at_short w c i : (i + 1 < w)%nat -> rolling_at w c i = None.
Proof. intros Hi. unfold rolling_at. now replace (i + 1 <? w)%nat with true by (symmetry; apply Nat.ltb_lt; lia). Qed.

(** A window value, when present, is the mean of [w] closes of the series. *)
Lemma rolling_at_Some w c i m :
  (0 < w)%nat -> (i < length c)%nat -> rolling_at w c i = Some m ->
  exists qs, m = qsum qs / inject_Z (Z.of_nat w) /\ length qs = w
             /\ forall q, In q qs -> In (Some q) c.
Proof.
  intros Hw Hi. unfold rolling_at, window_mean.
  destruct (i + 1 <? w)%nat eqn:Hlt; [discriminate|]. apply Nat.ltb_ge in Hlt.
  destruct (all_some _) as [qs|] eqn:Hs; [|discriminate]. intros Hm; inversion Hm; subst.
  apply all_some_Some in Hs. exists qs. split; [reflexivity|split].
  - rewrite <- (length_map Some qs), <- Hs, firstn_length_le; [reflexivity|].
    rewrite length_skipn. lia.
  - intros q Hq. apply (in_map Some) in Hq. rewrite <- Hs in Hq. exact (in_firstn_skipn _ _ _ _ Hq).
Qed.

(** When every column of every bar is present, exactly the rows from the
    200th on survive [dropna]: a row keeps its MA200 only from there. *)
Lemma row_complete_index data cs d i :
  map Close data = map Some cs ->
  (forall b, In b data -> bar_complete b = true) ->
  (i < length data)%nat ->
  row_complete (mk_erow (nth i data d) (rolling_at 50 (map Close data) i)
                        (rolling_at 200 (map Close data) i)) = (199 <=? i)%nat.
Proof.
  intros Hc Hall Hi. pose proof (Hall _ (nth_In data d Hi)) as Hb.
  unfold bar_complete in Hb. unfold row_complete. cbn [er_bar MA50 MA200].
  rewrite Hb, !andb_true_l.
  destruct (Nat.leb_spec 199 i) as [Hge|Hlt].
  - rewrite Hc, !rolling_at_full by lia. reflexivity.
  - rewrite (rolling_at_short 200) by lia. apply andb_false_r.
Qed.

(** The rows [enrich] keeps on a complete series, and their averages. *)
Lemma enrich_rows data cs d :
  map Close data = map Some cs ->
  (forall b, In b data -> bar_complete b = true) ->
  enrich data =
    map (fun i => mk_erow (nth i data d)
                          (Some (qsum (firstn 50 (skipn (i - 49) cs)) / inject_Z 50))
                          (Some (qsum (firstn 200 (skipn (i - 199) cs)) / inject_Z 200)))
        (seq 199 (length data - 199)).
Proof.
  intros Hc Hall. unfold enrich, dropna.
  rewrite (add_moving_averages_eq data d), filter_map_comm.
  rewrite (filter_ext_in _ (fun i => 199 <=? i)%nat), filter_seq_ge.
  - apply map_ext_in. intros i Hi. apply in_seq in Hi. rewrite Hc.
    rewrite !rolling_at_full by lia.
    replace (i + 1 - 50)%nat with (i - 49)%nat by lia.
    replace (i + 1 - 200)%nat with (i - 199)%nat by lia. reflexivity.
  - intros i Hi. apply in_seq in Hi. apply (row_complete_index data cs); auto. lia.
Qed.

(** C5: on a series whose bars have every column present, [enrich] keeps the
    rows from index 199 on, and the row at index [i] carries the mean of the
    50 closes and the mean of the 200 closes that end at [i]. *)
Theorem enrich_spec data cs d :
  map Close data = map Some cs ->
  (forall b, In b data -> bar_complete b = true) ->
  enrich data =
    map (fun i => mk_erow (nth i data d)
                          (Some (qsum (firstn 50 (skipn (i - 49) cs)) / inject_Z 50))
                          (Some (qsum (firstn 200 (skipn (i - 199) cs)) / inject_Z 200)))
        (seq 199 (length data - 199)).
Proof. intros; eapply enrich_rows; eauto. Qed.

(** C6: on such a series of [N] bars, [enrich] yields exactly [N - 199] rows,
    none when [N < 200]. *)
Theorem enrich_length data cs :
  map Close data = map Some cs ->
  (forall b, In b data -> bar_complete b = true) ->
  length (enrich data) = (length data - 199)%nat.
Proof.
  intros Hc Hall. destruct data as [|b0 data'].
  - reflexivity.
  - rewrite (enrich_rows _ cs b0 Hc Hall), length_map, length_seq. reflexivity.
Qed.

Lemma enrich_short_nil data :
  (length data < 200)%nat -> enrich data = [].
Proof.
  intros Hn. destruct data as [|b0 data']; [reflexivity|].
  unfold enrich, dropna. rewrite (add_moving_averages_eq _ b0), filter_map_comm.
  rewrite filter_none; [reflexivity|]. intros i Hi. apply in_seq in Hi.
  unfold row_complete. cbn [er_bar MA50 MA200].
  rewrite (rolling_at_short 200) by (cbn [length] in *; lia).
  apply andb_false_r.
Qed.

(** C20: whatever the values, a series of fewer than 200 bars leaves no row
    after [dropna]: every MA200 is NaN. *)
Theorem enrich_short data :
  (length data < 200)%nat -> enrich data = [].
Proof. apply enrich_short_nil. Qed.

(** ** Bounds *)

Lemma rolling_at_bounds w c i m lo hi :
  (0 < w)%nat -> (i < length c)%nat ->
  (forall q, In (Some q) c -> lo <= q <= hi) ->
  rolling_at w c i = Some m -> lo <= m <= hi.
Proof.
  intros Hw Hi Hb Hm. destruct (rolling_at_Some w c i m Hw Hi Hm) as (qs & -> & Hlen & Hin).
  apply qmean_bounds.
  - unfold Qlt; simpl. lia.
  - unfold qlen. now rewrite Hlen.
  - intros q Hq. apply Hb, Hin, Hq.
Qed.

Lemma In_add_moving_averages data r :
  In r (add_moving_averages data) ->
  exists i, (i < length data)%nat /\ MA50 r = rolling_at 50 (map Close data) i
            /\ MA200 r = rolling_at 200 (map Close data) i.
Proof.
  destruct data as [|b0 data']; [intros []|].
  rewrite (add_moving_averages_eq _ b0). intros Hr. apply in_map_iff in Hr.
  destruct Hr as (i & <- & Hi). apply in_seq in Hi. exists i. split; [lia | split; reflexivity].
Qed.

(** C21: every row that survives [enrich] has both averages present, and each
    lies between the lowest and the highest close of the fetched series. *)
Theorem enrich_ma_bounds data lo hi r :
  (forall b q, In b data -> Close b = Some q -> lo <= q <= hi) ->
  In r (enrich data) ->
  exists m50 m200, MA50 r = Some m50 /\ MA200 r = Some m200
                   /\ lo <= m50 <= hi /\ lo <= m200 <= hi.
Proof.
  intros Hb Hr. unfold enrich, dropna in Hr. apply filter_In in Hr as [Hr Hc].
  destruct (In_add_moving_averages _ _ Hr) as (i & Hi & H50 & H200).
  unfold row_complete in Hc. rewrite !andb_true_iff in Hc.
  destruct Hc as [[_ H50s] H200s].
  destruct (MA50 r) as [m50|] eqn:E50; [|discriminate].
  destruct (MA200 r) as [m200|] eqn:E200; [|discriminate].
  assert (Hc : forall q, In (Some q) (map Close data) -> lo <= q <= hi).
  { intros q Hq. apply in_map_iff in Hq as (b & Hbq & Hb'). exact (Hb b q Hb' Hbq). }
  assert (Hi' : (i < length (map Close data))%nat) by (rewrite length_map; exact Hi).
  pose proof (rolling_at_bounds 50 _ i m50 lo hi ltac:(lia) Hi' Hc (eq_sym H50)).
  pose proof (rolling_at_bounds 200 _ i m200 lo hi ltac:(lia) Hi' Hc (eq_sym H200)).
  exists m50, m200. tauto.
Qed.

(** ** A synthetic series (spec, section 8): [n] trading days whose close
    rises by 1.0 a day, every column present. *)

Definition linear_bar (i : nat) : bar :=
  let q := inject_Z (Z.of_nat i + 1) in
  mk_bar (738000 + Z.of_nat i) (Some q) (Some q) (Some q) (Some q) (Some 1000).

Definition linear_series (n : nat) : list bar := map linear_bar (seq 0 n).

Definition linear_closes (n : nat) : list Q :=
  map (fun i => inject_Z (Z.of_nat i + 1)) (seq 0 n).

Lemma linear_series_length n : length (linear_series n) = n.
Proof. unfold linear_series. now rewrite length_map, length_seq. Qed.

Lemma linear_series_closes n : map Close (linear_series n) = map Some (linear_closes n).
Proof. unfold linear_series, linear_closes. now rewrite !map_map. Qed.

Lemma linear_series_complete n b : In b (linear_series n) -> bar_complete b = true.
Proof. unfold linear_series. intros Hb. apply in_map_iff in Hb as (i & <- & _). reflexivity. Qed.

Lemma linear_series_close_bounds n b q :
  In b (linear_series n) -> Close b = Some q -> 1 <= q <= inject_Z (Z.of_nat n).
Proof.
  unfold linear_series. intros Hb Hq. apply in_map_iff in Hb as (i & <- & Hi).
  apply in_seq in Hi. inversion Hq; subst.
  unfold Qle; simpl; split; lia.
Qed.

Lemma enrich_spec_witness :
  enrich (linear_series 250) =
    map (fun i => mk_erow (nth i (linear_series 250) (linear_bar 0))
                          (Some (qsum (firstn 50 (skipn (i - 49) (linear_closes 250))) / inject_Z 50))
                          (Some (qsum (firstn 200 (skipn (i - 199) (linear_closes 250))) / inject_Z 200)))
        (seq 199 (length (linear_series 250) - 199)).
Proof.
  apply enrich_spec; [apply linear_series_closes | apply linear_series_complete].
Defined.

Lemma enrich_length_witness : length (enrich (linear_series 250)) = 51%nat.
Proof.
  rewrite (enrich_length _ (linear_closes 250));
    [rewrite linear_series_length; reflexivity
    | apply linear_series_closes | apply linear_series_complete].
Defined.

Lemma enrich_short_witness : enrich (linear_series 150) = [].
Proof. apply enrich_short. rewrite linear_series_length. lia. Defined.

Lemma enrich_ma_bounds_witness :
  exists m50 m200,
    MA50 (nth 0 (enrich (linear_series 250)) (mk_erow (linear_bar 0) None None)) = Some m50
    /\ MA200 (nth 0 (enrich (linear_series 250)) (mk_erow (linear_bar 0) None None)) = Some m200
    /\ 1 <= m50 <= inject_Z 250 /\ 1 <= m200 <= inject_Z 250.
Proof.
  apply (enrich_ma_bounds (linear_series 250)).
  - apply linear_series_close_bounds.
  - apply nth_In. vm_compute. lia.
Defined.
