(* ===== verification/Regression.v ===== *)
(** * The trend line ([model = LinearRegression(); model.fit(X, y)] and
      [model.predict], lines 54-61 of [predict_future_prices])

    scikit-learn's [LinearRegression] with its default [fit_intercept=True]
    centres [X] and [y] on their means and solves the centred least-squares
    problem with [scipy.linalg.lstsq], which returns the minimum-norm
    solution.  With the single feature used here (the date ordinal) this is
    - coefficient [Sxy / Sxx] when [Sxx <> 0], and [0] when every [x] is
      the same (the minimum-norm solution of [0 * c = 0]);
    - intercept [mean y - coef * mean x].
    [fit] raises [ValueError] on zero samples or on [X] and [y] of different
    lengths.  Arithmetic is exact over [Q] (not binary floats).

    The [Regressor] interface is what [Forecast] relies on: a fit that may
    fail and an affine predictor.  [ols_regressor] is the instance given by
    [fit] and [predict]; its laws are proved here. *)

From Stdlib Require Import String List ZArith QArith Qfield Lqa Lia Bool.
From S2P Require Import Prelude PyRuntime.
Import ListNotations.

Record linear_model : Type := mk_model {
  coef_ : Q;
  intercept_ : Q
}.

Definition too_few_samples : exn :=
  ValueError "Found array with 0 sample(s) (shape=(0, 1)) while a minimum of 1 is required by LinearRegression.".

Definition inconsistent_samples : exn :=
  ValueError "Found input variables with inconsistent numbers of samples".

Definition centred_sxx (pts : list (Q * Q)) (xbar : Q) : Q :=
  qsum (map (fun p => (fst p - xbar) * (fst p - xbar)) pts).

Definition centred_sxy (pts : list (Q * Q)) (xbar ybar : Q) : Q :=
  qsum (map (fun p => (fst p - xbar) * (snd p - ybar)) pts).

(** [LinearRegression().fit(X, y)] for one feature. *)
Definition fit (X y : list Q) : outcome linear_model :=
  if (length X =? 0)%nat then Raise too_few_samples
  else if negb (length X =? length y)%nat then Raise inconsistent_samples
  else
    let xbar := qmean X in
    let ybar := qmean y in
    let pts := combine X y in
    let sxx := centred_sxx pts xbar in
    let coef := if Qeq_bool sxx 0 then 0 else centred_sxy pts xbar ybar / sxx in
    Ok (mk_model coef (ybar - coef * xbar)).

(** [model.predict(X)] *)
Definition predict_one (m : linear_model) (x : Q) : Q := coef_ m * x + intercept_ m.

Definition predict (m : linear_model) (X : list Q) : list Q := map (predict_one m) X.

(** ** The abstract specification: a least-squares line *)

Definition sse (pts : list (Q * Q)) (a b : Q) : Q :=
  qsum (map (fun p => (snd p - (a * fst p + b)) * (snd p - (a * fst p + b))) pts).

Definition least_squares (X y : list Q) (m : linear_model) : Prop :=
  forall a b, sse (combine X y) (coef_ m) (intercept_ m) <= sse (combine X y) a b.

(** ** The interface the forecaster uses *)

Class Regressor (M : Type) : Type := {
  reg_fit : list Q -> list Q -> outcome M;
  reg_predict : M -> Q -> Q
}.

Class AffineRegressor (M : Type) `{Regressor M} : Type := {
  reg_slope : M -> Q;
  reg_affine : forall m x x', reg_predict m x' - reg_predict m x == reg_slope m * (x' - x)
}.

#[export] Instance ols_regressor : Regressor linear_model := {
  reg_fit := fit;
  reg_predict := predict_one
}.

(** ** The fitted line satisfies the normal equations *)

Definition residual (m : linear_model) (p : Q * Q) : Q := snd p - predict_one m (fst p).

Section NormalEquations.
Variable pts : list (Q * Q).
Hypothesis pts_nonempty : pts <> [].

Let xbar := qsum (map fst pts) / qlen pts.
Let ybar := qsum (map snd pts) / qlen pts.

(** Any slope [c] that solves [c * Sxx = Sxy], with the intercept that
    passes through the means, leaves residuals that sum to zero and are
    orthogonal to the abscissae. *)
Lemma centred_normal_equations c :
  c * centred_sxx pts xbar == centred_sxy pts xbar ybar ->
  let m := mk_model c (ybar - c * xbar) in
  qsum (map (residual m) pts) == 0 /\ qsum (map (fun p => fst p * residual m p) pts) == 0.
Proof.
  intros Hc m.
  assert (Hr : qsum (map (residual m) pts) == 0).
  { rewrite (qsum_map_ext _ (fun p => (snd p - ybar) + (- c) * (fst p - xbar)))
      by (intros; unfold residual, predict_one, m; simpl; ring).
    rewrite qsum_map_plus, qsum_map_scale.
    unfold xbar, ybar. rewrite !qsum_centred by exact pts_nonempty. ring. }
  split; [exact Hr|].
  rewrite (qsum_map_ext _ (fun p => (fst p - xbar) * residual m p + xbar * residual m p))
    by (intros; ring).
  rewrite qsum_map_plus, qsum_map_scale, Hr.
  rewrite (qsum_map_ext _ (fun p => (fst p - xbar) * (snd p - ybar)
                                    + (- c) * ((fst p - xbar) * (fst p - xbar))))
    by (intros; unfold residual, predict_one, m; simpl; ring).
  rewrite qsum_map_plus, qsum_map_scale.
  unfold centred_sxx, centred_sxy in Hc. rewrite <- Hc. ring.
Qed.

(** The slope [fit] chooses solves [c * Sxx = Sxy]: when [Sxx = 0] every
    abscissa is the mean, so [Sxy = 0] too. *)
Lemma fit_slope_solves :
  let sxx := centred_sxx pts xbar in
  (if Qeq_bool sxx 0 then 0 else centred_sxy pts xbar ybar / sxx) * sxx
    == centred_sxy pts xbar ybar.
Proof.
  intros sxx. destruct (Qeq_bool sxx 0) eqn:E.
  - apply Qeq_bool_iff in E. unfold centred_sxy.
    rewrite (qsum_map_ext _ (fun _ => 0)).
    + rewrite qsum_map_const. ring.
    + intros p Hp. rewrite (qsum_squares_zero (fun p => fst p - xbar) pts E p Hp). ring.
  - assert (~ sxx == 0) by (intros H; apply Qeq_bool_iff in H; congruence).
    field. exact H.
Qed.
End NormalEquations.

Lemma qmean_fst_combine (X y : list Q) :
  length X = length y -> qsum (map fst (combine X y)) / qlen (combine X y) = qmean X.
Proof.
  intros Hl. rewrite map_fst_combine by exact Hl. unfold qmean, qlen.
  rewrite length_combine, Hl, Nat.min_id. reflexivity.
Qed.

Lemma qmean_snd_combine (X y : list Q) :
  length X = length y -> qsum (map snd (combine X y)) / qlen (combine X y) = qmean y.
Proof.
  intros Hl. rewrite map_snd_combine by exact Hl. unfold qmean, qlen.
  rewrite length_combine, Hl, Nat.min_id. reflexivity.
Qed.

Lemma fit_Ok_inv X y m :
  fit X y = Ok m ->
  X <> [] /\ length X = length y /\
  let pts := combine X y in
  let xbar := qsum (map fst pts) / qlen pts in
  let ybar := qsum (map snd pts) / qlen pts in
  let sxx := centred_sxx pts xbar in
  m = mk_model (if Qeq_bool sxx 0 then 0 else centred_sxy pts xbar ybar / sxx)
               (ybar - (if Qeq_bool sxx 0 then 0 else centred_sxy pts xbar ybar / sxx) * xbar).
Proof.
  unfold fit. destruct (Nat.eqb_spec (length X) 0) as [H0|H0]; [discriminate|].
  destruct (Nat.eqb_spec (length X) (length y)) as [Hl|Hl]; [|discriminate].
  intros Hm. inversion Hm; subst. split; [intros ->; simpl in H0; lia|]. split; [exact Hl|].
  cbv zeta. rewrite (qmean_fst_combine X y Hl), (qmean_snd_combine X y Hl). reflexivity.
Qed.

Lemma combine_nonempty (X y : list Q) :
  X <> [] -> length X = length y -> combine X y <> [].
Proof. destruct X, y; simpl; congruence. Qed.

Lemma fit_Ok_exists X y :
  X <> [] -> length X = length y -> exists m, fit X y = Ok m.
Proof.
  intros Hne Hl. unfold fit.
  destruct (Nat.eqb_spec (length X) 0) as [H0|_];
    [destruct X; [congruence | discriminate] |].
  rewrite (proj2 (Nat.eqb_eq _ _) Hl). simpl. eexists; reflexivity.
Qed.

(** The residuals of the fitted line sum to zero and are orthogonal to the abscissae. *)
Lemma fit_residuals_orthogonal X y m :
  fit X y = Ok m ->
  qsum (map (residual m) (combine X y)) == 0
  /\ qsum (map (fun p => fst p * residual m p) (combine X y)) == 0.
Proof.
  intros Hfit. destruct (fit_Ok_inv X y m Hfit) as (Hne & Hl & Hm). cbv zeta in Hm. subst m.
  apply centred_normal_equations; [apply combine_nonempty; assumption |].
  apply fit_slope_solves.
Qed.

(** C7: the line [fit] returns satisfies the normal equations of least
    squares: its residuals sum to zero and are orthogonal to the date
    ordinals. *)
Theorem fit_normal_equations X y m :
  fit X y = Ok m ->
  qsum (map (residual m) (combine X y)) == 0
  /\ qsum (map (fun p => fst p * residual m p) (combine X y)) == 0.
Proof. intros; eapply fit_residuals_orthogonal; eauto. Qed.

(** The sum of squared errors of any line, against the fitted one. *)
Lemma sse_decomp pts c d a b :
  sse pts a b ==
    sse pts c d
    + qsum (map (fun p => ((a - c) * fst p + (b - d)) * ((a - c) * fst p + (b - d))) pts)
    - 2 * (a - c) * qsum (map (fun p => fst p * residual (mk_model c d) p) pts)
    - 2 * (b - d) * qsum (map (residual (mk_model c d)) pts).
Proof.
  unfold sse, residual, predict_one; simpl.
  induction pts as [|p pts IH]; simpl; [ring | rewrite IH; ring].
Qed.

(** No line has a smaller sum of squared errors than the fitted one. *)
Lemma fit_minimises_sse X y m :
  fit X y = Ok m -> least_squares X y m.
Proof.
  intros Hfit a b. destruct (fit_residuals_orthogonal X y m Hfit) as [Hr Hxr].
  destruct m as [c d]. rewrite (sse_decomp _ c d a b), Hr, Hxr.
  assert (0 <= qsum (map (fun p => ((a - c) * fst p + (b - d)) * ((a - c) * fst p + (b - d)))
                       (combine X y)))
    by (apply qsum_map_nonneg; intros; apply qsq_nonneg).
  simpl. lra.
Qed.

(** C3: [fit] implements its abstract specification: no line
    has a smaller sum of squared errors on the points than the fitted one. *)
Theorem fit_least_squares X y m :
  fit X y = Ok m -> least_squares X y m.
Proof. intros; eapply fit_minimises_sse; eauto. Qed.

Lemma combine_map_self (X : list Q) (f : Q -> Q) :
  combine X (map f X) = map (fun x => (x, f x)) X.
Proof. induction X as [|x X IH]; simpl; [|rewrite IH]; reflexivity. Qed.

Lemma sse_nonneg pts a b : 0 <= sse pts a b.
Proof. apply qsum_map_nonneg. intros; apply qsq_nonneg. Qed.

(** C8: on points that lie on a line [y = a x + b] and have two different
    abscissae, [fit] returns exactly that line. *)
Theorem fit_recovers_line X a b x1 x2 :
  In x1 X -> In x2 X -> ~ x1 == x2 ->
  exists m, fit X (map (fun x => a * x + b) X) = Ok m /\ coef_ m == a /\ intercept_ m == b.
Proof.
  intros H1 H2 Hne.
  destruct (fit_Ok_exists X (map (fun x => a * x + b) X)) as [m Hfit];
    [destruct X; [destruct H1 | discriminate] | now rewrite length_map |].
  exists m. split; [exact Hfit|].
  pose proof (fit_minimises_sse _ _ m Hfit a b) as Hls.
  assert (Hzero : sse (combine X (map (fun x => a * x + b) X)) a b == 0).
  { unfold sse. rewrite combine_map_self, map_map.
    rewrite (qsum_map_ext _ (fun _ => 0)) by (intros; simpl; ring).
    rewrite qsum_map_const. ring. }
  pose proof (sse_nonneg (combine X (map (fun x => a * x + b) X)) (coef_ m) (intercept_ m)).
  assert (H0 : sse (combine X (map (fun x => a * x + b) X)) (coef_ m) (intercept_ m) == 0)
    by (unfold least_squares in Hls; lra).
  unfold sse in H0. rewrite combine_map_self, map_map in H0.
  assert (Hres : forall x, In x X -> a * x + b - (coef_ m * x + intercept_ m) == 0)
    by (intros x Hx; exact (qsum_squares_zero _ X H0 x Hx)).
  pose proof (Hres x1 H1) as E1. pose proof (Hres x2 H2) as E2.
  assert (Hc : (coef_ m - a) * (x1 - x2) == 0) by lra.
  apply Qmult_integral in Hc as [Hc|Hc]; [|exfalso; apply Hne; lra].
  assert (Ha : coef_ m == a) by lra. split; [exact Ha|].
  rewrite Ha in E1. lra.
Qed.

(** C18: [fit] needs no second point: it raises [ValueError] on no sample at
    all, and on a single sample it returns the horizontal line through it
    (slope 0), where the spec asks for an InsufficientData error. *)
Theorem fit_small_samples y0 x0 :
  fit [] [] = Raise too_few_samples
  /\ exists m, fit [x0] [y0] = Ok m /\ coef_ m == 0 /\ intercept_ m == y0.
Proof.
  split; [reflexivity|].
  destruct (fit_Ok_exists [x0] [y0]) as [m Hfit]; [discriminate | reflexivity |].
  exists m. split; [exact Hfit|].
  destruct (fit_Ok_inv _ _ _ Hfit) as (_ & _ & Hm). cbv zeta in Hm. subst m.
  unfold qlen, centred_sxx, centred_sxy; simpl.
  match goal with |- context [Qeq_bool ?s 0] => destruct (Qeq_bool s 0) eqn:E end.
  - simpl. split; [reflexivity | field].
  - exfalso. assert (Hs : forall q : Q, (q - (q + 0) / inject_Z 1) * (q - (q + 0) / inject_Z 1) + 0 == 0)
      by (intros; field). rewrite (proj2 (Qeq_bool_iff _ _) (Hs x0)) in E. discriminate.
Qed.

#[export] Instance ols_affine : AffineRegressor linear_model := {
  reg_slope := coef_;
  reg_affine := fun m x x' => ltac:(simpl; unfold predict_one; ring)
}.

(** ** Witnesses on three points *)

Definition sample_X : list Q := [1; 2; 3].
Definition sample_y : list Q := [2; 3; 5].

Definition fitted (X y : list Q) : linear_model :=
  match fit X y with Ok m => m | Raise _ => mk_model 0 0 end.

Lemma fit_sample_Ok : fit sample_X sample_y = Ok (fitted sample_X sample_y).
Proof. vm_compute. reflexivity. Qed.

Lemma fit_normal_equations_witness :
  qsum (map (residual (fitted sample_X sample_y)) (combine sample_X sample_y)) == 0
  /\ qsum (map (fun p => fst p * residual (fitted sample_X sample_y) p)
               (combine sample_X sample_y)) == 0.
Proof. apply fit_normal_equations. vm_compute. reflexivity. Defined.

Lemma fit_least_squares_witness : least_squares sample_X sample_y (fitted sample_X sample_y).
Proof. apply fit_least_squares. vm_compute. reflexivity. Defined.

Lemma fit_recovers_line_witness :
  exists m, fit sample_X (map (fun x => 1 * x + 0) sample_X) = Ok m
            /\ coef_ m == 1 /\ intercept_ m == 0.
Proof.
  apply (fit_recovers_line sample_X 1 0 1 3); [simpl; auto | simpl; auto | discriminate].
Defined.

Lemma fit_small_samples_witness :
  fit [] [] = Raise too_few_samples
  /\ exists m, fit [738946] [1500] = Ok m /\ coef_ m == 0 /\ intercept_ m == 1500.
Proof. apply fit_small_samples. Defined.
