(* ===== verification/Forecast.v ===== *)
(** * The forecast ([predict_future_prices], lines 50-63)

    [predict_future_prices(data, days=30)] encodes each date of the enriched
    frame as its ordinal, fits a trend line of the close on the ordinal,
    then builds [future_dates = [datetime.today() + timedelta(days=i) for i
    in range(1, days + 1)]] -- one clock reading per element -- and predicts
    the close at each of their ordinals.

    The file is written against the [Regressor] interface of [Regression]:
    the theorems about dates hold for any regressor, those about prices for
    any [AffineRegressor]; [ols_regressor] is the one the program uses. *)

From Stdlib Require Import String List ZArith QArith Qfield Lqa Lia Bool Sorted.
From S2P Require Import Prelude PyRuntime Calendar Features Regression.
Import ListNotations.

Definition input_contains_nan : exn := ValueError "Input y contains NaN.".

(** [data['Close'].values], which [fit] rejects when it holds a NaN. *)
Definition close_values (data : list erow) : outcome (list Q) :=
  match all_some (map (fun r => Close (er_bar r)) data) with
  | Some ys => Ok ys
  | None => Raise input_contains_nan
  end.

(** [data['Date'].map(datetime.toordinal)] *)
Definition date_ordinals (data : list erow) : list Q :=
  map (fun r => inject_Z (bar_date (er_bar r))) data.

Section Forecast.
Context {St : Type} `{Clock St} {M : Type} `{Regressor M}.

(** [datetime.today() + timedelta(days=i)] *)
Definition future_date (i : nat) : PyM St datetime :=
  t <- today ;; lift (add_days t (Z.of_nat i)).

Definition predict_future_prices (data : list erow) (days : nat)
  : PyM St (list datetime * list Q) :=
  let X := date_ordinals data in
  y <- lift (close_values data) ;;
  model <- lift (reg_fit X y) ;;
  future_dates <- map_py future_date (seq 1 days) ;;
  let future_dates_ordinal := map (fun d => inject_Z (dt_ordinal d)) future_dates in
  let future_prices := map (reg_predict model) future_dates_ordinal in
  ret (future_dates, future_prices).

(** The [j]-th clock reading from state [s]. *)
Definition reading (s : St) (j : nat) : datetime := clock_now (Nat.iter j clock_tick s).
End Forecast.

Section Theorems.
Context {St : Type} `{Clock St} {M : Type} `{Regressor M}.

(** The comprehension reads the clock once per element: element [j]
    (0-based) is the [j]-th reading moved [k + j] days ahead. *)
Lemma future_dates_run k n (s : St) :
  (forall j, (j < n)%nat ->
     (1 <= dt_ordinal (reading s j) + Z.of_nat (k + j) <= MAXORDINAL)%Z) ->
  map_py future_date (seq k n) s =
    (Ok (map (fun j => mk_datetime (dt_ordinal (reading s j) + Z.of_nat (k + j))
                                   (dt_usec (reading s j))) (seq 0 n)),
     Nat.iter n clock_tick s).
Proof.
  revert k s; induction n as [|n IH]; intros k s Hv; [reflexivity|].
  cbn [map_py seq].
  assert (Hd : future_date k s =
               (Ok (mk_datetime (dt_ordinal (reading s 0) + Z.of_nat (k + 0))
                                (dt_usec (reading s 0))), clock_tick s)).
  { unfold future_date, bind, today, lift. rewrite add_days_ok.
    - rewrite Nat.add_0_r. reflexivity.
    - pose proof (Hv 0%nat ltac:(lia)) as Hv0. rewrite Nat.add_0_r in Hv0. exact Hv0. }
  rewrite (bind_Ok _ _ _ _ _ Hd).
  assert (Hv' : forall j, (j < n)%nat ->
    (1 <= dt_ordinal (reading (clock_tick s) j) + Z.of_nat (Datatypes.S k + j) <= MAXORDINAL)%Z).
  { intros j Hj. unfold reading. rewrite iter_succ_r.
    replace (Datatypes.S k + j)%nat with (k + Datatypes.S j)%nat by lia.
    apply (Hv (Datatypes.S j)). lia. }
  rewrite (bind_Ok _ _ _ _ _ (IH (Datatypes.S k) (clock_tick s) Hv')).
  unfold ret. rewrite iter_succ_r. cbn [seq map]. rewrite <- seq_shift, map_map.
  do 3 f_equal. apply map_ext. intros j. unfold reading. rewrite iter_succ_r.
  replace (Datatypes.S k + j)%nat with (k + Datatypes.S j)%nat by lia. reflexivity.
Qed.

Definition forecast_dates (s : St) (days : nat) : list datetime :=
  map (fun j => mk_datetime (dt_ordinal (reading s j) + Z.of_nat (1 + j)) (dt_usec (reading s j)))
      (seq 0 days).

Definition readings_valid (s : St) (days : nat) : Prop :=
  forall j, (j < days)%nat ->
    (1 <= dt_ordinal (reading s j) + Z.of_nat (1 + j) <= MAXORDINAL)%Z.

(** A successful forecast: one date per clock reading and its prediction. *)
Lemma predict_future_prices_run data days y m (s : St) :
  close_values data = Ok y ->
  reg_fit (date_ordinals data) y = Ok m ->
  readings_valid s days ->
  predict_future_prices data days s =
    (Ok (forecast_dates s days,
         map (reg_predict m) (map (fun d => inject_Z (dt_ordinal d)) (forecast_dates s days))),
     Nat.iter days clock_tick s).
Proof.
  intros Hy Hm Hv. unfold predict_future_prices.
  rewrite (bind_Ok (lift (close_values data)) _ s y s) by (unfold lift; now rewrite Hy).
  rewrite (bind_Ok (lift (reg_fit _ y)) _ s m s) by (unfold lift; now rewrite Hm).
  rewrite (bind_Ok _ _ _ _ _ (future_dates_run 1 days s Hv)). reflexivity.
Qed.

(** C4: when the closes are present and the fit succeeds, the forecast
    reads the clock [days] times, returns one date per reading -- reading
    [j] moved [j + 1] days ahead -- and the fitted prediction at each
    date's ordinal. *)
Theorem predict_future_prices_ok data days y m (s : St) :
  close_values data = Ok y ->
  reg_fit (date_ordinals data) y = Ok m ->
  readings_valid s days ->
  predict_future_prices data days s =
    (Ok (forecast_dates s days,
         map (reg_predict m) (map (fun d => inject_Z (dt_ordinal d)) (forecast_dates s days))),
     Nat.iter days clock_tick s).
Proof. intros; eapply predict_future_prices_run; eauto. Qed.

Lemma forecast_dates_length s days : length (forecast_dates s days) = days.
Proof. unfold forecast_dates. now rewrite length_map, length_seq. Qed.

(** The dates [forecast_dates] lists are increasing when the readings
    are; neighbours are one day apart plus the clock's advance. *)
Lemma forecast_dates_sorted (s : St) days :
  (forall j, (Datatypes.S j < days)%nat ->
     (dt_ordinal (reading s j) <= dt_ordinal (reading s (Datatypes.S j)))%Z) ->
  Sorted (fun d1 d2 => dt_ordinal d1 < dt_ordinal d2)%Z (forecast_dates s days)
  /\ forall j, (Datatypes.S j < days)%nat ->
       (dt_ordinal (nth (Datatypes.S j) (forecast_dates s days) (mk_datetime 0 0))
        - dt_ordinal (nth j (forecast_dates s days) (mk_datetime 0 0))
        = 1 + (dt_ordinal (reading s (Datatypes.S j)) - dt_ordinal (reading s j)))%Z.
Proof.
  intros Hmono. split.
  - apply Sorted_map_seq. intros i _ Hi. cbn [dt_ordinal].
    pose proof (Hmono i ltac:(lia)). lia.
  - intros j Hj. unfold forecast_dates. rewrite !nth_map_seq by lia.
    cbn [dt_ordinal]. lia.
Qed.

(** A comprehension that returns had every [add_days] in range. *)
Lemma future_dates_Ok_valid k n (s s' : St) ds :
  map_py future_date (seq k n) s = (Ok ds, s') ->
  forall j, (j < n)%nat -> (1 <= dt_ordinal (reading s j) + Z.of_nat (k + j) <= MAXORDINAL)%Z.
Proof.
  revert k s s' ds; induction n as [|n IH]; intros k s s' ds Hrun j Hj; [lia|].
  cbn [seq map_py] in Hrun. apply bind_Ok_inv in Hrun as (d & s1 & Hd & Hrun).
  apply bind_Ok_inv in Hrun as (ds' & s2 & Hrest & _).
  unfold future_date, bind, today, lift in Hd.
  destruct (add_days (clock_now s) (Z.of_nat k)) as [d'|e] eqn:E; [|discriminate].
  destruct j as [|j].
  - unfold reading. change (Nat.iter 0 clock_tick s) with s. rewrite Nat.add_0_r.
    unfold add_days in E. destruct (_ && _) eqn:B; [|discriminate].
    apply andb_true_iff in B as [E1 E2]. apply Z.leb_le in E1, E2. lia.
  - inversion Hd; subst. unfold reading. rewrite <- iter_succ_r.
    replace (k + Datatypes.S j)%nat with (Datatypes.S k + j)%nat by lia.
    apply (IH (Datatypes.S k) _ _ _ Hrest). lia.
Qed.

(** The dates of a successful forecast are those of the comprehension run
    from the state the forecast starts in. *)
Lemma predict_future_prices_dates data days (s s' : St) dates prices :
  predict_future_prices data days s = (Ok (dates, prices), s') ->
  map_py future_date (seq 1 days) s = (Ok dates, s').
Proof.
  unfold predict_future_prices, bind, lift, ret.
  destruct (close_values data) as [y|e]; [|discriminate].
  destruct (reg_fit (date_ordinals data) y) as [m|e]; [|discriminate].
  destruct (map_py future_date (seq 1 days) s) as [[ds|e] s'']; [|discriminate].
  intros Heq. inversion Heq; subst. reflexivity.
Qed.

(** A forecast that returns lists exactly the dates of [forecast_dates]. *)
Lemma predict_future_prices_Ok_dates data days (s s' : St) dates prices :
  predict_future_prices data days s = (Ok (dates, prices), s') -> dates = forecast_dates s days.
Proof.
  intros Hp. apply predict_future_prices_dates in Hp.
  pose proof (future_dates_run 1 days s (future_dates_Ok_valid 1 days s s' dates Hp)) as Hrun.
  rewrite Hp in Hrun. inversion Hrun. reflexivity.
Qed.

(** C22: with a clock that never goes back, the dates a successful
    [predict_future_prices] returns are strictly increasing; two neighbours
    are one day apart plus the days the clock advanced between their
    readings (so a midnight during the comprehension skips a day). *)
Theorem forecast_dates_increasing data days (s s' : St) dates prices :
  predict_future_prices data days s = (Ok (dates, prices), s') ->
  (forall j, (Datatypes.S j < days)%nat ->
     (dt_ordinal (reading s j) <= dt_ordinal (reading s (Datatypes.S j)))%Z) ->
  Sorted (fun d1 d2 => dt_ordinal d1 < dt_ordinal d2)%Z dates
  /\ forall j, (Datatypes.S j < days)%nat ->
       (dt_ordinal (nth (Datatypes.S j) dates (mk_datetime 0 0))
        - dt_ordinal (nth j dates (mk_datetime 0 0))
        = 1 + (dt_ordinal (reading s (Datatypes.S j)) - dt_ordinal (reading s j)))%Z.
Proof.
  intros Hp Hmono. rewrite (predict_future_prices_Ok_dates data days s s' dates prices Hp).
  exact (forecast_dates_sorted s days Hmono).
Qed.

(** C10: the forecast horizon is anchored to the clock, not to the data: two
    successful forecasts started from the same state return the same dates
    whatever series they fit, however stale its last date. *)
Theorem forecast_dates_independent_of_data data1 data2 days (s s1 s2 : St) d1 p1 d2 p2 :
  predict_future_prices data1 days s = (Ok (d1, p1), s1) ->
  predict_future_prices data2 days s = (Ok (d2, p2), s2) ->
  d1 = d2.
Proof.
  intros H1 H2. apply predict_future_prices_dates in H1, H2. congruence.
Qed.

(** A NaN close aborts the forecast before the clock is read. *)
Lemma predict_future_prices_nan data days (s : St) :
  close_values data = Raise input_contains_nan ->
  predict_future_prices data days s = (Raise input_contains_nan, s).
Proof. intros Hc. unfold predict_future_prices, bind, lift. now rewrite Hc. Qed.
End Theorems.

Section AffineForecast.
Context {St : Type} `{Clock St} {M : Type} `{Regressor M} `{!AffineRegressor M}.

(** C9: when every clock reading of the forecast falls on the same day [D],
    the forecast dates are [D+1 .. D+days], one day apart, and consecutive
    predicted prices differ by exactly the fitted slope. *)
Theorem forecast_same_day data days y m (s : St) D :
  close_values data = Ok y ->
  reg_fit (date_ordinals data) y = Ok m ->
  (forall j, (j < days)%nat -> dt_ordinal (reading s j) = D) ->
  (0 <= D /\ D + Z.of_nat days <= MAXORDINAL)%Z ->
  exists dates prices,
    predict_future_prices data days s = (Ok (dates, prices), Nat.iter days clock_tick s)
    /\ map dt_ordinal dates = map (fun i => D + Z.of_nat i)%Z (seq 1 days)
    /\ length prices = days
    /\ forall j, (Datatypes.S j < days)%nat ->
         nth (Datatypes.S j) prices 0 - nth j prices 0 == reg_slope m.
Proof.
  intros Hy Hm HD Hr.
  assert (Hv : readings_valid s days) by (intros j Hj; rewrite (HD j Hj); lia).
  eexists; eexists; split; [exact (predict_future_prices_run data days y m s Hy Hm Hv)|].
  assert (Hord : map dt_ordinal (forecast_dates s days) = map (fun i => D + Z.of_nat i)%Z (seq 1 days)).
  { unfold forecast_dates. rewrite map_map, <- seq_shift, map_map.
    apply map_ext_in. intros j Hj. apply in_seq in Hj. cbn [dt_ordinal].
    rewrite (HD j) by lia. lia. }
  split; [exact Hord|]. split; [now rewrite !length_map, forecast_dates_length|].
  intros j Hj.
  assert (Hp : map (reg_predict m) (map (fun d => inject_Z (dt_ordinal d)) (forecast_dates s days))
               = map (fun i => reg_predict m (inject_Z (D + Z.of_nat (Datatypes.S i)))) (seq 0 days)).
  { rewrite <- (map_map dt_ordinal inject_Z), Hord, <- seq_shift, !map_map. reflexivity. }
  rewrite Hp, !nth_map_seq by lia. rewrite reg_affine.
  assert (E : inject_Z (D + Z.of_nat (Datatypes.S (Datatypes.S j)))
              - inject_Z (D + Z.of_nat (Datatypes.S j)) == 1)
    by (unfold Qeq, Qminus, Qplus, Qopp, inject_Z; simpl; lia).
  rewrite E. ring.
Qed.
End AffineForecast.

(** C19: with the program's regressor, an empty enriched frame (every row
    dropped) makes the forecast raise [ValueError] from [fit], before the
    clock is read: the spec's InsufficientData case is an uncaught
    exception. *)
Theorem predict_future_prices_empty {St} `{Clock St} days (s : St) :
  @predict_future_prices St _ linear_model _ [] days s = (Raise too_few_samples, s).
Proof. reflexivity. Qed.

(** ** Witnesses: the scenario of section 8 of the spec, forecast on
    2024-03-01 from 250 synthetic bars whose close rises by 1.0 a day. *)

Definition scenario_rows : list erow := enrich (linear_series 250).
Definition scenario_clock : nat -> datetime := stopped_clock (mk_datetime 738946 0).

Definition scenario_y : list Q :=
  match close_values scenario_rows with Ok y => y | Raise _ => [] end.
Definition scenario_model : linear_model := fitted (date_ordinals scenario_rows) scenario_y.

Lemma scenario_reading j : reading scenario_clock j = mk_datetime 738946 0.
Proof. unfold reading, scenario_clock. rewrite stopped_clock_iter. reflexivity. Qed.

Lemma scenario_close_values : close_values scenario_rows = Ok scenario_y.
Proof. vm_compute. reflexivity. Qed.

Lemma scenario_fit : reg_fit (date_ordinals scenario_rows) scenario_y = Ok scenario_model.
Proof. vm_compute. reflexivity. Qed.

Lemma scenario_valid : readings_valid scenario_clock 30.
Proof. intros j Hj. rewrite scenario_reading. cbn [dt_ordinal]. unfold MAXORDINAL. lia. Qed.

Lemma predict_future_prices_ok_witness :
  predict_future_prices scenario_rows 30 scenario_clock =
    (Ok (forecast_dates scenario_clock 30,
         map (reg_predict scenario_model)
             (map (fun d => inject_Z (dt_ordinal d)) (forecast_dates scenario_clock 30))),
     Nat.iter 30 clock_tick scenario_clock).
Proof.
  apply (predict_future_prices_ok _ _ scenario_y scenario_model);
    [exact scenario_close_values | exact scenario_fit | exact scenario_valid].
Defined.

Lemma forecast_dates_increasing_witness :
  Sorted (fun d1 d2 => dt_ordinal d1 < dt_ordinal d2)%Z (forecast_dates scenario_clock 30)
  /\ forall j, (Datatypes.S j < 30)%nat ->
       (dt_ordinal (nth (Datatypes.S j) (forecast_dates scenario_clock 30) (mk_datetime 0 0))
        - dt_ordinal (nth j (forecast_dates scenario_clock 30) (mk_datetime 0 0))
        = 1 + (dt_ordinal (reading scenario_clock (Datatypes.S j))
               - dt_ordinal (reading scenario_clock j)))%Z.
Proof.
  apply (forecast_dates_increasing scenario_rows 30 scenario_clock (Nat.iter 30 clock_tick scenario_clock)
           (forecast_dates scenario_clock 30)
           (map (reg_predict scenario_model)
                (map (fun d => inject_Z (dt_ordinal d)) (forecast_dates scenario_clock 30)))).
  - exact (predict_future_prices_run scenario_rows 30 scenario_y scenario_model scenario_clock
             scenario_close_values scenario_fit scenario_valid).
  - intros j _. rewrite !scenario_reading. lia.
Defined.

Lemma forecast_same_day_witness :
  exists dates prices,
    predict_future_prices scenario_rows 30 scenario_clock =
      (Ok (dates, prices), Nat.iter 30 clock_tick scenario_clock)
    /\ map dt_ordinal dates = map (fun i => 738946 + Z.of_nat i)%Z (seq 1 30)
    /\ length prices = 30%nat
    /\ forall j, (Datatypes.S j < 30)%nat ->
         nth (Datatypes.S j) prices 0 - nth j prices 0 == reg_slope scenario_model.
Proof.
  apply (forecast_same_day scenario_rows 30 scenario_y scenario_model scenario_clock 738946);
    [exact scenario_close_values | exact scenario_fit
    | intros j _; rewrite scenario_reading; reflexivity | unfold MAXORDINAL; lia].
Defined.

(** The slope the scenario recovers is exactly 1.0 per day. *)
Example scenario_slope : coef_ scenario_model == 1.
Proof. vm_compute. reflexivity. Qed.

Definition run_dates (r : outcome (list datetime * list Q) * (nat -> datetime)) : list datetime :=
  match fst r with Ok (d, _) => d | Raise _ => [] end.
Definition run_prices (r : outcome (list datetime * list Q) * (nat -> datetime)) : list Q :=
  match fst r with Ok (_, p) => p | Raise _ => [] end.

Definition stale_rows : list erow := enrich (linear_series 210).

Lemma forecast_dates_independent_of_data_witness :
  run_dates (predict_future_prices scenario_rows 30 scenario_clock)
  = run_dates (predict_future_prices stale_rows 30 scenario_clock).
Proof.
  apply (forecast_dates_independent_of_data scenario_rows stale_rows 30 scenario_clock
           (snd (predict_future_prices scenario_rows 30 scenario_clock))
           (snd (predict_future_prices stale_rows 30 scenario_clock))
           _ (run_prices (predict_future_prices scenario_rows 30 scenario_clock))
           _ (run_prices (predict_future_prices stale_rows 30 scenario_clock)));
    vm_compute; reflexivity.
Defined.

(** ** State effects of the forecast *)

Section Effects.
Context {St : Type} `{Clock St} {M : Type} `{Regressor M}.

Lemma preserves_today (P : St -> Prop) :
  (forall s, P s -> P (clock_tick s)) -> preserves P today.
Proof. intros Hc s Hs. apply Hc, Hs. Qed.

(** The forecast changes nothing but the clock. *)
Lemma predict_future_prices_preserves (P : St -> Prop) data days :
  (forall s, P s -> P (clock_tick s)) -> preserves P (predict_future_prices data days).
Proof.
  intros Hc. unfold predict_future_prices.
  apply preserves_bind; [apply preserves_lift | intros y].
  apply preserves_bind; [apply preserves_lift | intros m].
  apply preserves_bind; [|intros ds; apply preserves_ret].
  apply preserves_map_py. intros i. unfold future_date.
  apply preserves_bind; [apply preserves_today, Hc | intros t; apply preserves_lift].
Qed.

(** A successful forecast has one date and one price per day. *)
Lemma predict_future_prices_lengths data days (s s' : St) dates prices :
  predict_future_prices data days s = (Ok (dates, prices), s') ->
  List.length dates = days /\ List.length prices = days.
Proof.
  intros Hrun. pose proof (predict_future_prices_dates _ _ _ _ _ _ Hrun) as Hd.
  apply map_py_length in Hd. rewrite length_seq in Hd.
  unfold predict_future_prices, bind, lift, ret in Hrun.
  destruct (close_values data) as [y|e]; [|discriminate].
  destruct (reg_fit (date_ordinals data) y) as [m|e]; [|discriminate].
  destruct (map_py future_date (seq 1 days) s) as [[ds|e] s'']; [|discriminate].
  inversion Hrun; subst. rewrite !length_map. auto.
Qed.
End Effects.

Lemma predict_future_prices_empty_witness :
  @predict_future_prices _ _ linear_model _ [] 30 scenario_clock = (Raise too_few_samples, scenario_clock).
Proof. apply predict_future_prices_empty. Defined.
