(* ===== verification/Ledger.v ===== *)
(** * The prediction ledger ([save_predictions], lines 114-139, and
      [display_previous_predictions], lines 141-163)

    The ledger is the file [predictions.csv] with the columns [Date],
    [Ticker] and [Predicted_Price].  [save_predictions] reads the whole file
    (or starts an empty frame when it does not exist), appends one row per
    forecast day and writes the whole file back.
    [display_previous_predictions] reads it again, keeps the rows of one
    ticker in file order and shows them in the label widget.

    The file and the label belong to the process state and are reached
    through the [LedgerStore] interface; [LedgerStoreLaws] are what the
    proofs need from it.  A table is the list of its rows: [to_csv] followed
    by [read_csv] gives back the same strings and, since pandas prints a
    float with the shortest repr that reads back to it, the same prices.
    The debug [print] calls write to the [Stdout] of the same state. *)

From Stdlib Require Import String List ZArith QArith Lia Bool Ascii.
From S2P Require Import Prelude PyRuntime Calendar.
Import ListNotations.
Local Open Scope string_scope.

Record prediction_row : Type := mk_row {
  Date : string;
  Ticker : string;
  Predicted_Price : Q
}.

Definition table : Type := list prediction_row.

Class LedgerStore (St : Type) : Type := {
  csv_read : St -> option table;           (** [pd.read_csv(PREDICTIONS_FILE)], [None]: not found *)
  csv_write : table -> St -> St;           (** [df.to_csv(PREDICTIONS_FILE, index=False)] *)
  label_get : St -> string;                (** the text of [prediction_label] *)
  label_set : string -> St -> St           (** [prediction_label.config(text=...)] *)
}.

(** The file and the label are unchanged by a write to stdout, and stdout
    by a write to the file or the label. *)
Class LedgerStoreLaws (St : Type) `{LedgerStore St} `{Stdout St} : Prop := {
  read_write : forall t s, csv_read (csv_write t s) = Some t;
  read_label : forall l s, csv_read (label_set l s) = csv_read s;
  label_label : forall l s, label_get (label_set l s) = l;
  label_write : forall t s, label_get (csv_write t s) = label_get s;
  read_stdout : forall m s, csv_read (stdout_write m s) = csv_read s;
  label_stdout : forall m s, label_get (stdout_write m s) = label_get s;
  stdout_csv : forall t s, stdout_get (csv_write t s) = stdout_get s;
  stdout_label : forall l s, stdout_get (label_set l s) = stdout_get s
}.

(** Simplifies the observations of a state built by writes; the laws are
    rewritten with [rewrite] rather than [autorewrite] since the instance
    of the laws does not occur in their left-hand sides. *)
Ltac store_simpl :=
  cbn; repeat rewrite ?read_write, ?read_label, ?label_label, ?label_write, ?read_stdout,
    ?label_stdout, ?stdout_csv, ?stdout_label, ?stdout_write_get; cbn.

(** [PREDICTIONS_FILE = 'predictions.csv'] *)
Definition PREDICTIONS_FILE : string := "predictions.csv".

Definition all_arrays_same_length : exn := ValueError "All arrays must be of the same length".

Definition no_previous : string := "No previous predictions found.".

(** [pd.DataFrame({'Date': [...], 'Ticker': [ticker] * len(future_dates),
    'Predicted_Price': future_prices})] *)
Definition new_predictions (ticker : string) (future_dates : list datetime) (future_prices : list Q)
  : outcome table :=
  if (List.length future_dates =? List.length future_prices)%nat then
    Ok (map (fun '(d, p) => mk_row (strftime_ymd d) ticker p) (combine future_dates future_prices))
  else Raise all_arrays_same_length.

(** [predictions_df[predictions_df['Ticker'] == ticker]] *)
Definition rows_for (ticker : string) (df : table) : table :=
  filter (fun r => String.eqb (Ticker r) ticker) df.

(** [f"{row['Date']}: {row['Predicted_Price']:.2f} INR\n"] *)
Definition prediction_line (r : prediction_row) : string :=
  Date r ++ ": " ++ format_2f (Predicted_Price r) ++ " INR" ++ nl.

Definition previous_text (rows : table) : string :=
  fold_left (fun acc r => acc ++ prediction_line r) rows ("Previous Predictions:" ++ nl ++ nl).

Section Ledger.
Context {St : Type} {LS : LedgerStore St} {SO : Stdout St}.

(** Lines 119-139: load or create the frame, append, write back. *)
Definition append_predictions (ticker : string) (future_dates : list datetime)
           (future_prices : list Q) : PyM St unit :=
  file <- gets csv_read ;;
  predictions_df <- match file with
                    | Some df => print ("Loaded existing predictions from " ++ PREDICTIONS_FILE ++ ".") ;;;
                                 ret df
                    | None => print "Created new DataFrame for predictions." ;;; ret []
                    end ;;
  new <- lift (new_predictions ticker future_dates future_prices) ;;
  modify (csv_write (predictions_df ++ new)%list) ;;;
  print ("Saved predictions to " ++ PREDICTIONS_FILE ++ ".").

(** [if not future_dates or not future_prices: return], then the append. *)
Definition save_predictions (ticker : string) (future_dates : list datetime)
           (future_prices : list Q) : PyM St unit :=
  if negb (list_truth future_dates) then ret tt
  else
    prices_true <- lift (ndarray_truth future_prices) ;;
    if negb prices_true then ret tt
    else append_predictions ticker future_dates future_prices.

Definition display_previous_predictions (ticker : string) : PyM St unit :=
  file <- gets csv_read ;;
  match file with
  | None => modify (label_set no_previous) ;;; print ("File " ++ PREDICTIONS_FILE ++ " not found.")
  | Some predictions_df =>
      print ("Loaded predictions from " ++ PREDICTIONS_FILE ++ ".") ;;;
      print ("Filtering predictions for " ++ ticker ++ ".") ;;;
      let company_predictions := rows_for ticker predictions_df in
      match company_predictions with
      | [] => modify (label_set no_previous) ;;; print ("No predictions found for " ++ ticker ++ ".")
      | _ :: _ => modify (label_set (previous_text company_predictions))
      end
  end.
End Ledger.

(** The rows the ledger holds in a state; a missing file holds none. *)
Definition ledger {St} `{LedgerStore St} (s : St) : table :=
  match csv_read s with Some t => t | None => [] end.

Definition forecast_rows (ticker : string) (future_dates : list datetime) (future_prices : list Q)
  : table :=
  map (fun '(d, p) => mk_row (strftime_ymd d) ticker p) (combine future_dates future_prices).

Lemma rows_for_app ticker (t1 t2 : table) :
  rows_for ticker (t1 ++ t2)%list = (rows_for ticker t1 ++ rows_for ticker t2)%list.
Proof. apply filter_app. Qed.

Lemma rows_for_forecast ticker ticker' ds ps :
  rows_for ticker' (forecast_rows ticker ds ps) =
    if String.eqb ticker ticker' then forecast_rows ticker ds ps else [].
Proof.
  unfold rows_for, forecast_rows. rewrite filter_map_comm. cbn.
  destruct (String.eqb_spec ticker ticker') as [->|Hne].
  - rewrite filter_every; [reflexivity|]. intros [d p] _. apply String.eqb_refl.
  - rewrite filter_none; [reflexivity|]. intros [d p] _. simpl. now apply String.eqb_neq.
Qed.

Section LedgerTheorems.
Context {St : Type} {LS : LedgerStore St} {SO : Stdout St} {LL : LedgerStoreLaws St}
        {SL : StdoutLaws St}.

(** The append path in full: it returns, the file holds the old rows
    followed by the new ones, the label is untouched and two lines are
    printed, the first saying whether the file existed. *)
Lemma append_predictions_ok ticker ds ps (s : St) :
  List.length ds = List.length ps ->
  fst (append_predictions ticker ds ps s) = Ok tt
  /\ ledger (snd (append_predictions ticker ds ps s)) = (ledger s ++ forecast_rows ticker ds ps)%list
  /\ label_get (snd (append_predictions ticker ds ps s)) = label_get s
  /\ stdout_get (snd (append_predictions ticker ds ps s)) =
       (stdout_get s ++ [match csv_read s with
                         | Some _ => "Loaded existing predictions from predictions.csv."
                         | None => "Created new DataFrame for predictions."
                         end; "Saved predictions to predictions.csv."])%list.
Proof.
  intros Hl. unfold append_predictions, bind, gets, lift, modify, print, ret, new_predictions, ledger.
  rewrite (proj2 (Nat.eqb_eq _ _) Hl).
  destruct (csv_read s) eqn:E; store_simpl; rewrite ?E, <- ?app_assoc; repeat split; reflexivity.
Qed.

(** A price array of two or more elements makes the guard raise. *)
Lemma save_predictions_raise ticker ds ps (s : St) :
  ds <> [] -> (2 <= List.length ps)%nat ->
  save_predictions ticker ds ps s = (Raise ndarray_ambiguous, s).
Proof.
  intros Hds Hps. unfold save_predictions.
  destruct ds as [|d ds]; [congruence|]. cbn [list_truth negb].
  destruct ps as [|p1 [|p2 ps]]; cbn [List.length] in Hps; try lia. reflexivity.
Qed.

(** C2: [save_predictions] never writes a forecast of two or more days:
    [not future_prices] on a NumPy array of more than one element raises
    [ValueError], so the ledger file and the label are left as they were
    and the exception escapes to the caller. *)
Theorem save_predictions_ambiguous ticker ds ps (s : St) :
  ds <> [] -> (2 <= List.length ps)%nat ->
  save_predictions ticker ds ps s = (Raise ndarray_ambiguous, s).
Proof. intros; eapply save_predictions_raise; eauto. Qed.

(** The rows of a ticker after an append. *)
Lemma rows_for_after_append ticker ticker' ds ps (s : St) :
  List.length ds = List.length ps ->
  rows_for ticker' (ledger (snd (append_predictions ticker ds ps s))) =
    (rows_for ticker' (ledger s)
     ++ if String.eqb ticker ticker' then forecast_rows ticker ds ps else [])%list.
Proof.
  intros Hl. destruct (append_predictions_ok ticker ds ps s Hl) as (_ & -> & _).
  rewrite rows_for_app, rows_for_forecast. reflexivity.
Qed.

(** C12: appending a forecast for [ticker] (the body of [save_predictions]
    after its guard) leaves, for [ticker], the rows it had followed by one
    row per forecast day in order, dated [YYYY-MM-DD]; the rows of every
    other ticker are unchanged.  A missing file counts as an empty one. *)
Theorem append_then_query ticker ticker' ds ps (s : St) :
  List.length ds = List.length ps ->
  rows_for ticker' (ledger (snd (append_predictions ticker ds ps s))) =
    (rows_for ticker' (ledger s)
     ++ if String.eqb ticker ticker' then forecast_rows ticker ds ps else [])%list.
Proof. intros; eapply rows_for_after_append; eauto. Qed.

(** C13: there is no deduplication: appending the same forecast twice adds
    its rows twice to the rows of the ticker. *)
Theorem append_twice ticker ds ps (s : St) :
  List.length ds = List.length ps ->
  List.length (rows_for ticker
    (ledger (snd (append_predictions ticker ds ps (snd (append_predictions ticker ds ps s))))))
  = (List.length (rows_for ticker (ledger s)) + 2 * List.length ds)%nat.
Proof.
  intros Hl. rewrite rows_for_after_append, rows_for_after_append, String.eqb_refl by exact Hl.
  unfold forecast_rows. rewrite !length_app, length_map, length_combine, Hl. lia.
Qed.

(** C14: the ledger only grows: whatever it is called with, and whether it
    returns or raises, [save_predictions] leaves the rows already stored
    as a prefix of the new content. *)
Theorem save_predictions_append_only ticker ds ps (s : St) :
  exists extra, ledger (snd (save_predictions ticker ds ps s)) = (ledger s ++ extra)%list.
Proof.
  unfold save_predictions.
  destruct (negb (list_truth ds)); [exists []; now rewrite app_nil_r|].
  unfold bind at 1, lift. destruct (ndarray_truth ps) as [b|e]; [|exists []; now rewrite app_nil_r].
  destruct (negb b); [exists []; now rewrite app_nil_r|].
  unfold append_predictions, bind, gets, lift, modify, print, ret, ledger.
  destruct (new_predictions ticker ds ps) as [t|e];
    [exists t | exists []]; destruct (csv_read s) eqn:E; store_simpl; rewrite ?E, ?app_nil_r; reflexivity.
Qed.

(** C23: [display_previous_predictions] returns normally; it shows "No
    previous predictions found." when the file does not exist or holds no
    row for the ticker, and otherwise the rows of the ticker in file order,
    one ["date: price INR"] line each; the file is not changed; and it
    prints "File predictions.csv not found." when the file is missing, and
    otherwise "Loaded predictions from predictions.csv." and "Filtering
    predictions for <ticker>.", followed by "No predictions found for
    <ticker>." when no row matches. *)
Theorem display_previous_predictions_spec ticker (s : St) :
  fst (display_previous_predictions ticker s) = Ok tt
  /\ label_get (snd (display_previous_predictions ticker s)) =
       match rows_for ticker (ledger s) with [] => no_previous | rows => previous_text rows end
  /\ csv_read (snd (display_previous_predictions ticker s)) = csv_read s
  /\ stdout_get (snd (display_previous_predictions ticker s)) =
       (stdout_get s ++
        match csv_read s with
        | None => ["File predictions.csv not found."]
        | Some df => ["Loaded predictions from predictions.csv.";
                      ("Filtering predictions for " ++ ticker ++ ".")%string]
                     ++ match rows_for ticker df with
                        | [] => [("No predictions found for " ++ ticker ++ ".")%string]
                        | _ => []
                        end
        end)%list.
Proof.
  unfold display_previous_predictions, bind, gets, modify, print, ledger.
  destruct (csv_read s) as [df|] eqn:E; [destruct (rows_for ticker df) eqn:R|];
    store_simpl; rewrite ?E, ?R, <- ?app_assoc; repeat split; reflexivity.
Qed.
End LedgerTheorems.

(** ** A concrete store: the file content, the label text and stdout *)

Record file_and_label : Type := mk_fl {
  fl_file : option table;
  fl_label : string;
  fl_stdout : list string
}.

#[export] Instance file_and_label_store : LedgerStore file_and_label := {
  csv_read := fl_file;
  csv_write := fun t s => mk_fl (Some t) (fl_label s) (fl_stdout s);
  label_get := fl_label;
  label_set := fun l s => mk_fl (fl_file s) l (fl_stdout s)
}.

#[export] Instance file_and_label_stdout : Stdout file_and_label := {
  stdout_get := fl_stdout;
  stdout_write := fun m s => mk_fl (fl_file s) (fl_label s) (fl_stdout s ++ [m])%list
}.

#[export] Instance file_and_label_stdout_laws : StdoutLaws file_and_label.
Proof. split; reflexivity. Qed.

#[export] Instance file_and_label_laws : LedgerStoreLaws file_and_label.
Proof. split; reflexivity. Qed.

Definition two_days : list datetime := [mk_datetime 738947 0; mk_datetime 738948 0].
Definition two_prices : list Q := [101; 102].
Definition infy_row : prediction_row := mk_row "2024-02-01" "INFY.NS" 1500.
Definition first_run : file_and_label := mk_fl None "" [].
Definition later_run : file_and_label := mk_fl (Some [infy_row]) "" [].

Lemma save_predictions_ambiguous_witness :
  save_predictions "TCS.NS" two_days two_prices first_run = (Raise ndarray_ambiguous, first_run).
Proof. apply save_predictions_ambiguous; [discriminate | simpl; lia]. Defined.

Lemma append_then_query_witness :
  rows_for "TCS.NS" (ledger (snd (append_predictions "TCS.NS" two_days two_prices later_run))) =
    (rows_for "TCS.NS" (ledger later_run)
     ++ if String.eqb "TCS.NS" "TCS.NS" then forecast_rows "TCS.NS" two_days two_prices else [])%list.
Proof. apply append_then_query. reflexivity. Defined.

Lemma append_twice_witness :
  List.length (rows_for "TCS.NS"
    (ledger (snd (append_predictions "TCS.NS" two_days two_prices
                    (snd (append_predictions "TCS.NS" two_days two_prices later_run))))))
  = (List.length (rows_for "TCS.NS" (ledger later_run)) + 2 * List.length two_days)%nat.
Proof. apply append_twice. reflexivity. Defined.

Example append_then_display :
  fl_label (snd (display_previous_predictions "TCS.NS"
                   (snd (append_predictions "TCS.NS" two_days two_prices later_run))))
  = ("Previous Predictions:" ++ nl ++ nl
     ++ "2024-03-02: 101.00 INR" ++ nl ++ "2024-03-03: 102.00 INR" ++ nl)%string.
Proof. vm_compute. reflexivity. Qed.

Lemma save_predictions_append_only_witness :
  exists extra, ledger (snd (save_predictions "TCS.NS" two_days two_prices later_run))
                = (ledger later_run ++ extra)%list.
Proof. apply save_predictions_append_only. Defined.

Lemma display_previous_predictions_spec_witness :
  fst (display_previous_predictions "TCS.NS" later_run) = Ok tt
  /\ label_get (snd (display_previous_predictions "TCS.NS" later_run)) = no_previous
  /\ csv_read (snd (display_previous_predictions "TCS.NS" later_run)) = csv_read later_run
  /\ stdout_get (snd (display_previous_predictions "TCS.NS" later_run)) =
       ["Loaded predictions from predictions.csv."; "Filtering predictions for TCS.NS.";
        "No predictions found for TCS.NS."].
Proof. exact (display_previous_predictions_spec "TCS.NS" later_run). Defined.

