(* ===== verification/App.v ===== *)
(** * The application ([plot_stock_data], lines 65-112, [on_plot_button_click],
      lines 165-206, and the Tk window of lines 208-239)

    The process state is a [world]: the clock read by [datetime.today()],
    the market that [yf.download] queries, the file [predictions.csv], the
    text of [prediction_label], the texts of the two comboboxes, the
    figures pyplot keeps open, the global [global_ax] and the lines printed
    to stdout.  The world is an instance of the [Clock] interface of
    [Calendar], of the [LedgerStore] interface of [Ledger] and of the
    [Stdout] interface of [PyRuntime], so the components run on it
    unchanged.

    A figure records what was drawn on its axes: the series, its moving
    averages, once the forecast returns the predicted line, and the x range
    a zoom set.  Of the Tk widgets only their effect is kept: which figure
    the canvas in [plot_frame] shows, with the [SpanSelector] whose
    callback [onselect] zooms through [global_ax].  The event loop is the
    relation [step]: a combobox selection changes its text, a click runs
    the callback, a span selection on a displayed canvas runs [onselect],
    and an exception a callback raises is reported by Tk and the loop goes
    on with the state the callback reached. *)

From Stdlib Require Import String List ZArith QArith Lia Bool Ascii.
From S2P Require Import Prelude PyRuntime Calendar Companies DateRange Features Regression Forecast Ledger.
Import ListNotations.
Local Open Scope string_scope.

Record figure : Type := mk_figure {
  fig_ticker : string;
  fig_duration : string;
  fig_rows : list erow;                               (** Close, MA50 and MA200 lines *)
  fig_forecast : option (list datetime * list Q);     (** the 'Predicted Prices' line *)
  fig_xlim : option (Q * Q)                           (** the x range set by [set_xlim], if any *)
}.

Record world : Type := mk_world {
  w_clock : nat -> datetime;
  w_market : string -> string -> string -> list bar;  (** [yf.download(ticker, start, end)] *)
  w_file : option table;                              (** [predictions.csv] *)
  w_label : string;                                   (** [prediction_label] *)
  w_company : string;                                 (** [company_combobox.get()] *)
  w_duration : string;                                (** [duration_combobox.get()] *)
  w_figures : list figure;                            (** figures open in pyplot *)
  w_global_ax : option nat;                           (** [global_ax], as a figure index *)
  w_canvas : option nat;                              (** the figure shown in [plot_frame] *)
  w_stdout : list string                              (** the lines [print] wrote *)
}.

Definition set_clock (c : nat -> datetime) (w : world) : world :=
  mk_world c (w_market w) (w_file w) (w_label w) (w_company w) (w_duration w) (w_figures w) (w_global_ax w)
           (w_canvas w) (w_stdout w).
Definition set_file (f : table) (w : world) : world :=
  mk_world (w_clock w) (w_market w) (Some f) (w_label w) (w_company w) (w_duration w) (w_figures w)
           (w_global_ax w) (w_canvas w) (w_stdout w).
Definition set_label (l : string) (w : world) : world :=
  mk_world (w_clock w) (w_market w) (w_file w) l (w_company w) (w_duration w) (w_figures w) (w_global_ax w)
           (w_canvas w) (w_stdout w).
Definition set_company (c : string) (w : world) : world :=
  mk_world (w_clock w) (w_market w) (w_file w) (w_label w) c (w_duration w) (w_figures w) (w_global_ax w)
           (w_canvas w) (w_stdout w).
Definition set_duration (d : string) (w : world) : world :=
  mk_world (w_clock w) (w_market w) (w_file w) (w_label w) (w_company w) d (w_figures w) (w_global_ax w)
           (w_canvas w) (w_stdout w).
Definition set_figures (fs : list figure) (ax : option nat) (w : world) : world :=
  mk_world (w_clock w) (w_market w) (w_file w) (w_label w) (w_company w) (w_duration w) fs ax (w_canvas w)
           (w_stdout w).
Definition set_canvas (c : option nat) (w : world) : world :=
  mk_world (w_clock w) (w_market w) (w_file w) (w_label w) (w_company w) (w_duration w) (w_figures w)
           (w_global_ax w) c (w_stdout w).
Definition add_stdout (m : string) (w : world) : world :=
  mk_world (w_clock w) (w_market w) (w_file w) (w_label w) (w_company w) (w_duration w) (w_figures w)
           (w_global_ax w) (w_canvas w) (w_stdout w ++ [m])%list.

#[export] Instance world_clock : Clock world := {
  clock_now := fun w => w_clock w O;
  clock_tick := fun w => set_clock (fun n => w_clock w (Datatypes.S n)) w
}.

#[export] Instance world_store : LedgerStore world := {
  csv_read := w_file;
  csv_write := set_file;
  label_get := w_label;
  label_set := set_label
}.

#[export] Instance world_stdout : Stdout world := {
  stdout_get := w_stdout;
  stdout_write := add_stdout
}.

#[export] Instance world_stdout_laws : StdoutLaws world.
Proof. split; reflexivity. Qed.

#[export] Instance world_store_laws : LedgerStoreLaws world.
Proof. split; reflexivity. Qed.

(** A print does not change what the market returns. *)
Ltac market_after_print :=
  repeat match goal with |- context [w_market (stdout_write ?m ?v)] =>
    change (w_market (stdout_write m v)) with (w_market v) end.

(** ** [plot_stock_data] *)

(** [fig, ax = plt.subplots(...)]; [global_ax = ax]; the three [ax.plot]
    calls of the series.  Returns the index of the new figure. *)
Definition new_figure (ticker duration : string) (rows : list erow) : PyM world nat :=
  fun w =>
    let idx := List.length (w_figures w) in
    (Ok idx, set_figures (w_figures w ++ [mk_figure ticker duration rows None None])%list (Some idx) w).

(** A method call on the axes of figure [idx]. *)
Definition update_figure (idx : nat) (g : figure -> figure) (fs : list figure) : list figure :=
  map (fun '(i, f) => if (i =? idx)%nat then g f else f) (combine (seq 0 (List.length fs)) fs).

(** [ax.plot(future_dates, future_prices, ...)] on the axes of figure [idx]. *)
Definition plot_forecast (idx : nat) (dates : list datetime) (prices : list Q) : PyM world unit :=
  modify (fun w =>
    set_figures (update_figure idx (fun f => mk_figure (fig_ticker f) (fig_duration f) (fig_rows f)
                                                       (Some (dates, prices)) (fig_xlim f))
                               (w_figures w))
                (w_global_ax w) w).

Definition plot_stock_data (ticker duration : string)
  : PyM world (option (nat * list datetime * list Q)) :=
  '(start_date, end_date) <- plot_date_range duration ;;
  print ("Fetching data for " ++ ticker ++ " from " ++ start_date ++ " to " ++ end_date ++ "...") ;;;
  data <- gets (fun w => w_market w ticker start_date end_date) ;;
  if negb (list_truth data) then
    print ("No data available for " ++ ticker ++ " from " ++ start_date ++ " to " ++ end_date ++ ".") ;;;
    ret None
  else
    let rows := enrich data in
    fig <- new_figure ticker duration rows ;;
    '(future_dates, future_prices) <- @predict_future_prices world _ linear_model _ rows 30 ;;
    plot_forecast fig future_dates future_prices ;;;
    ret (Some (fig, future_dates, future_prices)).

(** ** [on_plot_button_click] *)

(** [f"{date.strftime('%Y-%m-%d')}: {price:.2f} INR\n"] for each forecast day. *)
Definition prediction_text (dates : list datetime) (prices : list Q) : string :=
  fold_left (fun acc '(d, p) => acc ++ strftime_ymd d ++ ": " ++ format_2f p ++ " INR" ++ nl)
            (combine dates prices)
            ("Predicted Prices for Next 30 Days:" ++ nl ++ nl).

Definition str_truth (s : string) : bool := negb (String.eqb s "").

(** Lines 173-192: the widgets of [plot_frame] are destroyed, and the
    canvas of the new figure, its toolbar and a [SpanSelector] on
    [global_ax] calling [onselect] take their place. *)
Definition show_canvas (fig : nat) : PyM world unit := modify (set_canvas (Some fig)).

(** [onselect(xmin, xmax)], lines 187-190: [global_ax.set_xlim(xmin, xmax)]
    on the axes [global_ax] designates when the callback runs, which need
    not be those of the figure on screen; [fig.canvas.draw_idle()] only
    schedules a redraw. *)
Definition onselect (xmin xmax : Q) : PyM world unit :=
  ax <- gets w_global_ax ;;
  match ax with
  | None => raise (AttributeError "'NoneType' object has no attribute 'set_xlim'")
  | Some i =>
      modify (fun w =>
        set_figures (update_figure i (fun f => mk_figure (fig_ticker f) (fig_duration f) (fig_rows f)
                                                         (fig_forecast f) (Some (xmin, xmax)))
                                   (w_figures w))
                    (w_global_ax w) w)
  end.

Definition on_plot_button_click : PyM world unit :=
  selected_company <- gets w_company ;;
  let ticker := dict_get COMPANIES selected_company in
  duration <- gets w_duration ;;
  match ticker with
  | Some t =>
      if str_truth t then
        r <- plot_stock_data t duration ;;
        match r with
        | None => ret tt
        | Some (fig, future_dates, future_prices) =>
            show_canvas fig ;;;
            modify (set_label (prediction_text future_dates future_prices)) ;;;
            save_predictions t future_dates future_prices ;;;
            display_previous_predictions t
        end
      else print "Invalid company selected."
  | None => print "Invalid company selected."
  end.

(** ** The window and its event loop *)

(** The comboboxes start on the first company and on "1 year"; the label
    is empty; no figure is open; nothing has been printed. *)
Definition initial_world (clock : nat -> datetime) (market : string -> string -> string -> list bar)
           (file : option table) : world :=
  mk_world clock market file "" (hd "" (dict_keys COMPANIES)) "1 year" [] None None [].

Inductive event : Type :=
| SelectCompany (name : string)
| SelectDuration (label : string)
| ClickPlot
| SelectSpan (xmin xmax : Q).

Definition step (w : world) (e : event) : world :=
  match e with
  | SelectCompany c => set_company c w
  | SelectDuration d => set_duration d w
  | ClickPlot => snd (on_plot_button_click w)
  | SelectSpan xmin xmax =>
      match w_canvas w with
      | Some _ => snd (onselect xmin xmax w)
      | None => w
      end
  end.

Inductive reachable (w0 : world) : world -> Prop :=
| reach_init : reachable w0 w0
| reach_step w e : reachable w0 w -> reachable w0 (step w e).

(** ** What a click can change *)

Lemma preserves_print (P : world -> Prop) m :
  (forall m w, P w -> P (stdout_write m w)) -> preserves P (print m).
Proof. intros Hs. apply preserves_modify, Hs. Qed.

Lemma plot_stock_data_preserves (P : world -> Prop) t d :
  (forall w, P w -> P (clock_tick w)) ->
  (forall m w, P w -> P (stdout_write m w)) ->
  (forall rows, preserves P (new_figure t d rows)) ->
  (forall i ds ps, preserves P (plot_forecast i ds ps)) ->
  preserves P (plot_stock_data t d).
Proof.
  intros Hc Hs Hnew Hplot. unfold plot_stock_data.
  apply preserves_bind; [apply plot_date_range_preserves, Hc|]. intros [sd ed].
  apply preserves_bind; [apply preserves_print, Hs|]. intros _.
  apply preserves_bind; [apply preserves_gets|]. intros data.
  destruct (negb (list_truth data));
    [apply preserves_bind; [apply preserves_print, Hs | intros; apply preserves_ret]|].
  apply preserves_bind; [apply Hnew|]. intros fig.
  apply preserves_bind; [apply predict_future_prices_preserves, Hc|]. intros [ds ps].
  apply preserves_bind; [apply Hplot | intros; apply preserves_ret].
Qed.

(** A plot that returns a figure carries a 30-day forecast. *)
Lemma plot_stock_data_Some t d w fig ds ps w' :
  plot_stock_data t d w = (Ok (Some (fig, ds, ps)), w') ->
  List.length ds = 30%nat /\ List.length ps = 30%nat.
Proof.
  unfold plot_stock_data. intros H.
  apply bind_Ok_inv in H as ([sd ed] & w1 & _ & H). cbv beta iota in H.
  apply bind_Ok_inv in H as (u0 & w1' & _ & H).
  apply bind_Ok_inv in H as (data & w2 & _ & H).
  destruct (negb (list_truth data)); [apply bind_Ok_inv in H as (? & ? & _ & H); discriminate|].
  apply bind_Ok_inv in H as (fig' & w3 & _ & H).
  apply bind_Ok_inv in H as ([ds' ps'] & w4 & H4 & H). cbv beta iota in H.
  apply bind_Ok_inv in H as (u & w5 & _ & H). inversion H; subst.
  exact (predict_future_prices_lengths _ _ _ _ _ _ H4).
Qed.

Lemma length_update_figure idx g (fs : list figure) :
  List.length (update_figure idx g fs) = List.length fs.
Proof. unfold update_figure. rewrite length_map, length_combine, length_seq. lia. Qed.

(** A plot that returns a figure leaves [global_ax] on it. *)
Lemma plot_stock_data_ax t d w fig ds ps w' :
  plot_stock_data t d w = (Ok (Some (fig, ds, ps)), w') ->
  w_global_ax w' = Some fig /\ (fig < List.length (w_figures w'))%nat.
Proof.
  unfold plot_stock_data. intros H.
  apply bind_Ok_inv in H as ([sd ed] & w1 & _ & H). cbv beta iota in H.
  apply bind_Ok_inv in H as (u0 & w1' & _ & H).
  apply bind_Ok_inv in H as (data & w2 & _ & H).
  destruct (negb (list_truth data)); [apply bind_Ok_inv in H as (? & ? & _ & H); discriminate|].
  apply bind_Ok_inv in H as (fig' & w3 & H3 & H).
  apply bind_Ok_inv in H as ([ds' ps'] & w4 & H4 & H). cbv beta iota in H.
  apply bind_Ok_inv in H as (u & w5 & H5 & H). inversion H; subst. clear H.
  unfold new_figure in H3. inversion H3; subst. clear H3.
  set (P := fun v : world => w_global_ax v = Some (List.length (w_figures w2))
                             /\ List.length (w_figures v) = Datatypes.S (List.length (w_figures w2))).
  assert (HP3 : P (set_figures (w_figures w2 ++ [mk_figure t d (enrich data) None None])%list
                               (Some (List.length (w_figures w2))) w2))
    by (split; [reflexivity | simpl; rewrite length_app; simpl; lia]).
  pose proof (predict_future_prices_preserves P (enrich data) 30 ltac:(intros v Hv; exact Hv) _ HP3)
    as HP4. rewrite H4 in HP4. simpl in HP4.
  unfold plot_forecast, modify in H5. inversion H5; subst. simpl.
  destruct HP4 as [Hax Hl]. rewrite Hax, length_update_figure, Hl. split; [reflexivity | lia].
Qed.

(** Every property that plotting and the invalid-company line preserve
    holds after a click, except that the label may show the 30 predicted
    prices: the callback never gets past [save_predictions], which raises
    on the 30-element price array, so [display_previous_predictions] never
    runs. *)
Lemma click_effect_gen (P : world -> Prop) w :
  (forall t d, preserves P (plot_stock_data t d)) ->
  (forall v, P v -> P (stdout_write "Invalid company selected." v)) ->
  P w ->
  exists w', P w' /\ (snd (on_plot_button_click w) = w'
                      \/ exists fig ds ps, w_global_ax w' = Some fig
                            /\ (fig < List.length (w_figures w'))%nat
                            /\ List.length ds = 30%nat /\ List.length ps = 30%nat
                            /\ snd (on_plot_button_click w) =
                                 set_label (prediction_text ds ps) (set_canvas (Some fig) w')).
Proof.
  intros Hp Hs Hw. unfold on_plot_button_click. cbn [bind gets].
  destruct (dict_get COMPANIES (w_company w)) as [t|]; [|eexists; split; [apply Hs, Hw | left; reflexivity]].
  destruct (str_truth t); [|eexists; split; [apply Hs, Hw | left; reflexivity]].
  pose proof (Hp t (w_duration w) w Hw) as Hpw.
  destruct (plot_stock_data t (w_duration w) w) as [[r|e] w1] eqn:E; simpl in Hpw;
    [rewrite (bind_Ok _ _ _ _ _ E) | rewrite (bind_Raise _ _ _ _ _ E); exists w1; auto].
  destruct r as [[[fig ds] ps]|]; [|exists w1; auto].
  destruct (plot_stock_data_Some _ _ _ _ _ _ _ E) as [Hds Hps].
  exists w1. split; [exact Hpw|]. right. exists fig, ds, ps.
  destruct (plot_stock_data_ax _ _ _ _ _ _ _ E) as [Hax Hlt]. split; [exact Hax|]. split; [exact Hlt|].
  split; [exact Hds|]. split; [exact Hps|].
  assert (Hne : ds <> []) by (intros ->; discriminate).
  assert (H2 : (2 <= List.length ps)%nat) by lia.
  unfold bind at 1, show_canvas, modify. unfold bind at 1.
  rewrite (bind_Raise _ _ _ _ _ (save_predictions_raise _ _ _ _ Hne H2)). reflexivity.
Qed.

Lemma click_effect (P : world -> Prop) w :
  (forall w, P w -> P (clock_tick w)) ->
  (forall m w, P w -> P (stdout_write m w)) ->
  (forall t d rows, preserves P (new_figure t d rows)) ->
  (forall i ds ps, preserves P (plot_forecast i ds ps)) ->
  P w ->
  exists w', P w' /\ (snd (on_plot_button_click w) = w'
                      \/ exists fig ds ps, w_global_ax w' = Some fig
                            /\ (fig < List.length (w_figures w'))%nat
                            /\ List.length ds = 30%nat /\ List.length ps = 30%nat
                            /\ snd (on_plot_button_click w) =
                                 set_label (prediction_text ds ps) (set_canvas (Some fig) w')).
Proof.
  intros Hc Hs Hnew Hplot. apply click_effect_gen; [|apply Hs].
  intros t d. apply plot_stock_data_preserves; auto.
Qed.

(** A span selection reaches [onselect] only when a canvas is on screen;
    it then changes at most the axes of one figure. *)
Lemma span_effect w xmin xmax :
  step w (SelectSpan xmin xmax) = w
  \/ exists fs, List.length fs = List.length (w_figures w)
                /\ step w (SelectSpan xmin xmax) = set_figures fs (w_global_ax w) w.
Proof.
  cbn [step]. destruct (w_canvas w); [|left; reflexivity].
  unfold onselect, bind, gets. destruct (w_global_ax w) eqn:E; [right | left; reflexivity].
  eexists; split; [apply length_update_figure | unfold modify; simpl; rewrite E; reflexivity].
Qed.

(** ** What a click prints *)

(** The lines the click callback can print: the request line and the
    "no data" line of [plot_stock_data], and the invalid-company line. *)
Definition click_line (l : string) : Prop :=
  l = "Invalid company selected."
  \/ exists t sd ed, l = ("Fetching data for " ++ t ++ " from " ++ sd ++ " to " ++ ed ++ "...")%string
                    \/ l = ("No data available for " ++ t ++ " from " ++ sd ++ " to " ++ ed ++ ".")%string.

Definition prints_click_lines (w : world) : Prop := Forall click_line (w_stdout w).

Lemma print_click_line m : click_line m -> preserves prints_click_lines (print m).
Proof.
  intros Hm v Hv. unfold prints_click_lines in *. simpl.
  apply Forall_app. split; [exact Hv | constructor; [exact Hm | constructor]].
Qed.

Lemma plot_stock_data_prints t d : preserves prints_click_lines (plot_stock_data t d).
Proof.
  unfold plot_stock_data.
  apply preserves_bind; [apply plot_date_range_preserves; intros v Hv; exact Hv|]. intros [sd ed].
  apply preserves_bind; [apply print_click_line; right; exists t, sd, ed; left; reflexivity|]. intros _.
  apply preserves_bind; [apply preserves_gets|]. intros data.
  destruct (negb (list_truth data)).
  - apply preserves_bind; [apply print_click_line; right; exists t, sd, ed; right; reflexivity|].
    intros _. apply preserves_ret.
  - apply preserves_bind; [intros v Hv; exact Hv|]. intros fig.
    apply preserves_bind; [apply predict_future_prices_preserves; intros v Hv; exact Hv|]. intros [ds ps].
    apply preserves_bind; [intros v Hv; exact Hv | intros; apply preserves_ret].
Qed.

(** ** Invariants of the event loop *)

Section Invariants.
Variables (clock : nat -> datetime) (market : string -> string -> string -> list bar)
          (file0 : option table).

(** C1: [predictions.csv] is never written: in every state the window can
    reach, whatever the user selects and clicks and whatever the market
    returns, the file holds what it held at start-up.  Every click that
    gets a forecast raises in [save_predictions] before writing. *)
Theorem ledger_never_written w :
  reachable (initial_world clock market file0) w -> w_file w = file0.
Proof.
  induction 1 as [|w e _ IH]; [reflexivity|].
  destruct e as [| | |xmin xmax]; [exact IH | exact IH | |
    destruct (span_effect w xmin xmax) as [-> | (fs & _ & ->)]; exact IH]. cbn [step].
  destruct (click_effect (fun v => w_file v = file0) w) as (w' & Hw' & [-> | (fig & ds & ps & _ & _ & _ & _ & ->)]);
    try (intros; intros v Hv; exact Hv); auto.
Qed.

(** C15: the label never shows previous predictions: it is empty or lists
    the 30 dates and prices of the last forecast, since the call to
    [display_previous_predictions] is never reached. *)
Theorem label_never_shows_previous w :
  reachable (initial_world clock market file0) w ->
  w_label w = "" \/ exists ds ps, List.length ds = 30%nat /\ List.length ps = 30%nat
                                 /\ w_label w = prediction_text ds ps.
Proof.
  induction 1 as [|w e _ IH]; [left; reflexivity|].
  destruct e as [| | |xmin xmax]; [exact IH | exact IH | |
    destruct (span_effect w xmin xmax) as [-> | (fs & _ & ->)]; exact IH]. cbn [step].
  destruct (click_effect (fun v => w_label v = "" \/ exists ds ps, List.length ds = 30%nat
                                     /\ List.length ps = 30%nat /\ w_label v = prediction_text ds ps) w)
    as (w' & Hw' & [-> | (fig & ds & ps & _ & _ & Hds & Hps & ->)]);
    try (intros; intros v Hv; exact Hv); auto.
  right. exists ds, ps. auto.
Qed.

Definition ax_on_newest (w : world) : Prop :=
  match w_global_ax w with
  | None => w_figures w = []
  | Some i => Datatypes.S i = List.length (w_figures w)
  end.

(** C24: [global_ax] always designates the axes of the most recent figure
    (or no figure has been drawn yet): the zoom callback of every earlier
    plot acts on the newest axes. *)
Theorem global_ax_newest w :
  reachable (initial_world clock market file0) w -> ax_on_newest w.
Proof.
  induction 1 as [|w e _ IH]; [reflexivity|].
  destruct e as [| | |xmin xmax]; [exact IH | exact IH | |
    destruct (span_effect w xmin xmax) as [-> | (fs & Hl & ->)];
    [exact IH | unfold ax_on_newest in *; simpl; rewrite Hl;
     destruct (w_global_ax w); [exact IH | apply length_zero_iff_nil; rewrite Hl, IH; reflexivity]]]. cbn [step].
  destruct (click_effect ax_on_newest w) as (w' & Hw' & [-> | (fig & ds & ps & _ & _ & _ & _ & ->)]);
    [intros v Hv; exact Hv | intros m v Hv; exact Hv | | | exact IH | exact Hw' | exact Hw'].
  - intros t d rows v Hv. unfold ax_on_newest, new_figure in *. simpl.
    rewrite length_app. simpl. lia.
  - intros i ds ps v Hv. unfold ax_on_newest, plot_forecast, modify in *. simpl.
    destruct (w_global_ax v); [rewrite length_update_figure; exact Hv | rewrite Hv; reflexivity].
Qed.

(** C25: figures are never closed: no event lowers the number of figures
    pyplot keeps open. *)
Theorem figures_never_closed w e :
  (List.length (w_figures w) <= List.length (w_figures (step w e)))%nat.
Proof.
  destruct e as [| | |xmin xmax]; [reflexivity | reflexivity | |
    destruct (span_effect w xmin xmax) as [-> | (fs & Hl & ->)]; simpl; lia]. cbn [step].
  destruct (click_effect (fun v => List.length (w_figures w) <= List.length (w_figures v))%nat w)
    as (w' & Hw' & [-> | (fig & ds & ps & _ & _ & _ & _ & ->)]);
    [intros v Hv; exact Hv | intros m v Hv; exact Hv | | | apply le_n | exact Hw' | exact Hw'].
  - intros t d rows v Hv. unfold new_figure; simpl. rewrite length_app. simpl. lia.
  - intros i ds ps v Hv. unfold plot_forecast, modify; simpl.
    rewrite length_update_figure. exact Hv.
Qed.
(** The figure on screen is an open figure and no newer than the one
    [global_ax] designates. *)
Definition canvas_ok (w : world) : Prop :=
  match w_canvas w with
  | None => True
  | Some c => exists g, w_global_ax w = Some g /\ (c <= g < List.length (w_figures w))%nat
  end.

(** C30: in every reachable state the canvas on screen shows an open
    figure no newer than [global_ax]: they differ exactly when a later
    click created a figure and raised before it reached the canvas code. *)
Theorem canvas_not_after_global_ax w :
  reachable (initial_world clock market file0) w -> canvas_ok w.
Proof.
  induction 1 as [|w e _ IH]; [exact I|].
  destruct e as [| | |xmin xmax]; [exact IH | exact IH | |
    destruct (span_effect w xmin xmax) as [-> | (fs & Hl & ->)];
    [exact IH | unfold canvas_ok in *; simpl; rewrite Hl; exact IH]]. cbn [step].
  destruct (click_effect canvas_ok w) as (w' & Hw' & [-> | (fig & ds & ps & Hax & Hlt & _ & _ & ->)]);
    [intros v Hv; exact Hv | intros m v Hv; exact Hv | | | exact IH | exact Hw' | ].
  - intros t d rows v Hv. unfold canvas_ok, new_figure in *. simpl.
    destruct (w_canvas v) as [c|]; [|exact I]. destruct Hv as (g & Hg & Hcg).
    exists (List.length (w_figures v)). rewrite length_app. simpl. split; [reflexivity | lia].
  - intros i ds ps v Hv. unfold canvas_ok, plot_forecast, modify in *. simpl.
    rewrite length_update_figure. exact Hv.
  - unfold canvas_ok. simpl. exists fig. split; [exact Hax | lia].
Qed.

(** C26: stdout shows that the ledger is never reached: in every reachable
    state, every line printed is a request line or a "no data" line of
    [plot_stock_data] or "Invalid company selected."; in particular
    "Saved predictions to predictions.csv." and "Filtering predictions for
    <ticker>." never appear, since [save_predictions] raises before its
    first print and [display_previous_predictions] never runs. *)
Theorem stdout_only_click_lines w :
  reachable (initial_world clock market file0) w ->
  Forall click_line (w_stdout w)
  /\ ~ In ("Saved predictions to " ++ PREDICTIONS_FILE ++ ".") (w_stdout w)
  /\ forall t, ~ In ("Filtering predictions for " ++ t ++ ".") (w_stdout w).
Proof.
  intros Hr. assert (Hw : prints_click_lines w).
  { induction Hr as [|w e _ IH]; [constructor|].
    destruct e as [| | |xmin xmax]; [exact IH | exact IH | |
      destruct (span_effect w xmin xmax) as [-> | (fs & _ & ->)]; exact IH]. cbn [step].
    destruct (click_effect_gen prints_click_lines w plot_stock_data_prints) as (w' & Hw' & [-> | (fig & ds & ps & _ & _ & _ & _ & ->)]);
      [intros v Hv; apply (print_click_line _ (or_introl eq_refl) v Hv) | exact IH | exact Hw' | exact Hw']. }
  split; [exact Hw|]. unfold prints_click_lines in Hw. rewrite Forall_forall in Hw.
  split; [|intros t]; intros Hin; destruct (Hw _ Hin) as [H | (t' & sd & ed & [H | H])];
    cbn in H; discriminate.
Qed.
End Invariants.

(** ** A session: 2024-03-01, a market that returns 250 rising bars, a
    ledger that already holds one row; the user picks Infosys and clicks. *)

Definition session_world : world :=
  initial_world (stopped_clock (mk_datetime 738946 0)) (fun _ _ _ => linear_series 250)
                (Some [infy_row]).

Definition session_after_click : world :=
  step (step session_world (SelectCompany "Infosys")) ClickPlot.

Lemma session_reachable : reachable session_world session_after_click.
Proof. apply reach_step, reach_step, reach_init. Qed.

Lemma ledger_never_written_witness : w_file session_after_click = Some [infy_row].
Proof.
  apply (ledger_never_written (stopped_clock (mk_datetime 738946 0)) (fun _ _ _ => linear_series 250)).
  apply reach_step, reach_step, reach_init.
Defined.

Lemma label_never_shows_previous_witness :
  w_label session_after_click = "" \/
  exists ds ps, List.length ds = 30%nat /\ List.length ps = 30%nat
                /\ w_label session_after_click = prediction_text ds ps.
Proof.
  apply (label_never_shows_previous (stopped_clock (mk_datetime 738946 0))
           (fun _ _ _ => linear_series 250) (Some [infy_row])).
  apply reach_step, reach_step, reach_init.
Defined.

Lemma stdout_only_click_lines_witness :
  Forall click_line (w_stdout session_after_click)
  /\ ~ In ("Saved predictions to " ++ PREDICTIONS_FILE ++ ".") (w_stdout session_after_click)
  /\ forall t, ~ In ("Filtering predictions for " ++ t ++ ".") (w_stdout session_after_click).
Proof.
  apply (stdout_only_click_lines (stopped_clock (mk_datetime 738946 0))
           (fun _ _ _ => linear_series 250) (Some [infy_row])).
  apply reach_step, reach_step, reach_init.
Defined.

Lemma global_ax_newest_witness : ax_on_newest session_after_click.
Proof.
  apply (global_ax_newest (stopped_clock (mk_datetime 738946 0))
           (fun _ _ _ => linear_series 250) (Some [infy_row])).
  apply reach_step, reach_step, reach_init.
Defined.

(** The click itself: it draws one figure with its forecast, shows the 30
    predicted prices, and raises the NumPy [ValueError] in
    [save_predictions]. *)
Example session_click_raises :
  fst (on_plot_button_click (set_company "Infosys" session_world)) = Raise ndarray_ambiguous
  /\ List.length (w_figures session_after_click) = 1%nat.
Proof. vm_compute. split; reflexivity. Qed.

Lemma figures_never_closed_witness :
  (List.length (w_figures session_world) <= List.length (w_figures (step session_world ClickPlot)))%nat.
Proof. apply figures_never_closed. Defined.

(** ** The zoom callback and [global_ax] *)

(** The x range of figure [i], if it is open. *)
Definition fig_xlim_of (i : nat) (w : world) : option (option (Q * Q)) :=
  option_map fig_xlim (nth_error (w_figures w) i).

Lemma nth_error_combine_seq {A} (fs : list A) k i :
  nth_error (combine (seq k (List.length fs)) fs) i = option_map (fun f => (k + i, f)%nat) (nth_error fs i).
Proof.
  revert k i. induction fs as [|f fs IH]; intros k [|i]; simpl; try reflexivity.
  - now rewrite Nat.add_0_r.
  - rewrite IH. destruct (nth_error fs i); simpl; [now rewrite Nat.add_succ_r | reflexivity].
Qed.

Lemma nth_error_update_figure idx g fs i :
  nth_error (update_figure idx g fs) i =
    if (i =? idx)%nat then option_map g (nth_error fs i) else nth_error fs i.
Proof.
  unfold update_figure. rewrite nth_error_map, nth_error_combine_seq.
  destruct (nth_error fs i); simpl; [|destruct (i =? idx)%nat; reflexivity].
  destruct (i =? idx)%nat; reflexivity.
Qed.

Lemma span_select_effect w xmin xmax c g :
  w_canvas w = Some c -> w_global_ax w = Some g -> (g < List.length (w_figures w))%nat ->
  fig_xlim_of g (step w (SelectSpan xmin xmax)) = Some (Some (xmin, xmax))
  /\ forall i, i <> g -> fig_xlim_of i (step w (SelectSpan xmin xmax)) = fig_xlim_of i w.
Proof.
  intros Hc Hg Hlt. cbn [step]. rewrite Hc. unfold onselect, bind, gets. rewrite Hg.
  unfold modify, fig_xlim_of. simpl. split.
  - rewrite nth_error_update_figure, Nat.eqb_refl.
    destruct (nth_error (w_figures w) g) eqn:E; [reflexivity|].
    apply nth_error_None in E. lia.
  - intros i Hi. rewrite nth_error_update_figure. apply Nat.eqb_neq in Hi. now rewrite Hi.
Qed.

Definition run (w : world) (es : list event) : world := fold_left step es w.

Lemma reachable_run w0 w es : reachable w0 w -> reachable w0 (run w es).
Proof.
  revert w. induction es as [|e es IH]; intros w Hw; [exact Hw|]. apply IH. constructor. exact Hw.
Qed.

(** Infosys has 250 bars of history; Wipro, as the market answers here,
    only 150, fewer than the 200 that [dropna] needs. *)
Definition two_company_market : string -> string -> string -> list bar :=
  fun t _ _ => if String.eqb t "INFY.NS" then linear_series 250 else linear_series 150.

Definition zoom_world0 : world :=
  initial_world (stopped_clock (mk_datetime 738946 0)) two_company_market None.

Definition zoom_session : list event :=
  [SelectCompany "Infosys"; ClickPlot; SelectCompany "Wipro"; ClickPlot].

(** C29: a span selection on the canvas runs [onselect], which sets the x
    range of the figure [global_ax] designates and of no other figure,
    whichever figure is on screen. *)
Theorem span_select_spec w xmin xmax c g :
  w_canvas w = Some c -> w_global_ax w = Some g -> (g < List.length (w_figures w))%nat ->
  fig_xlim_of g (step w (SelectSpan xmin xmax)) = Some (Some (xmin, xmax))
  /\ forall i, i <> g -> fig_xlim_of i (step w (SelectSpan xmin xmax)) = fig_xlim_of i w.
Proof. intros; eapply span_select_effect; eauto. Qed.

Lemma canvas_not_after_global_ax_witness : canvas_ok (run zoom_world0 zoom_session).
Proof.
  apply (canvas_not_after_global_ax (stopped_clock (mk_datetime 738946 0)) two_company_market None).
  apply reachable_run, reach_init.
Defined.

(** Two open figures, the first on screen, [global_ax] on the second. *)
Definition split_world : world :=
  set_canvas (Some 0%nat)
    (set_figures [mk_figure "INFY.NS" "1 year" [] None None; mk_figure "WIPRO.NS" "1 year" [] None None]
                 (Some 1%nat) session_world).

Lemma span_select_spec_witness :
  fig_xlim_of 1 (step split_world (SelectSpan 738900 738946)) = Some (Some (738900, 738946))
  /\ forall i, i <> 1%nat ->
       fig_xlim_of i (step split_world (SelectSpan 738900 738946)) = fig_xlim_of i split_world.
Proof. apply (span_select_spec _ _ _ 0 1); [reflexivity | reflexivity | simpl; lia]. Defined.

(** ** Errors do not stop the drawing *)

(** The line [plot_stock_data] prints before the download: the ticker,
    the start date [k] days before the second clock reading and the end
    date of the first. *)
Definition fetch_line (t : string) (k : Z) (w : world) : string :=
  "Fetching data for " ++ t ++ " from "
  ++ strftime_ymd (mk_datetime (dt_ordinal (w_clock w 1) - k) (dt_usec (w_clock w 1)))
  ++ " to " ++ strftime_ymd (w_clock w 0) ++ "...".

(** With a known duration label, a clock inside the [datetime] range and a
    market that returns bars, [plot_stock_data] opens exactly one figure
    and prints exactly the request line, whether the forecast then succeeds
    or raises. *)
Lemma plot_stock_data_adds_figure t d k w :
  duration_days d = Some k -> (k + 1 <= dt_ordinal (w_clock w 1) <= MAXORDINAL)%Z ->
  (forall a b c, w_market w a b c <> []) ->
  List.length (w_figures (snd (plot_stock_data t d w))) = Datatypes.S (List.length (w_figures w))
  /\ w_stdout (snd (plot_stock_data t d w)) = (w_stdout w ++ [fetch_line t k w])%list.
Proof.
  intros Hd Hr Hm.
  set (P := fun v : world => List.length (w_figures v) = Datatypes.S (List.length (w_figures w))
                             /\ w_stdout v = (w_stdout w ++ [fetch_line t k w])%list).
  change (P (snd (plot_stock_data t d w))). unfold plot_stock_data.
  change (k + 1 <= dt_ordinal (clock_now (clock_tick w)) <= MAXORDINAL)%Z in Hr.
  rewrite (bind_Ok _ _ _ _ _ (plot_date_range_exact d k w Hd Hr)). cbv beta iota.
  rewrite (bind_Ok _ _ _ _ _ (eq_refl : print _ _ = _)).
  rewrite (bind_Ok _ _ _ _ _ (eq_refl : gets _ _ = _)). market_after_print.
  destruct (w_market (clock_tick (clock_tick w)) t _ _) as [|b bs] eqn:Ed;
    [exfalso; exact (Hm _ _ _ Ed)|].
  cbn [list_truth negb]. rewrite (bind_Ok _ _ _ _ _ (eq_refl : new_figure _ _ _ _ = _)).
  unfold bind at 1.
  match goal with |- context [predict_future_prices ?rows 30 ?w3] =>
    assert (HP3 : P w3) by (split; [simpl; rewrite length_app; simpl; lia | reflexivity]);
    pose proof (predict_future_prices_preserves P rows 30 ltac:(intros v Hv; exact Hv) w3 HP3) as HP4;
    destruct (predict_future_prices rows 30 w3) as [[[ds ps]|e] w4] eqn:E end.
  - unfold plot_forecast, modify, bind. cbn [snd]. unfold P. simpl. rewrite length_update_figure. exact HP4.
  - exact HP4.
Qed.

(** With a market that answers with fewer than 200 bars, [plot_stock_data]
    opens a figure and moves [global_ax] to it, then raises in [fit]: every
    MA200 is NaN, [dropna] leaves no row, and scikit-learn rejects zero
    samples.  The canvas is not touched. *)
Lemma plot_stock_data_short t d k w :
  duration_days d = Some k -> (k + 1 <= dt_ordinal (w_clock w 1) <= MAXORDINAL)%Z ->
  (forall sd ed, w_market w t sd ed <> [] /\ (List.length (w_market w t sd ed) < 200)%nat) ->
  exists w', plot_stock_data t d w = (Raise too_few_samples, w')
             /\ (exists f, w_figures w' = (w_figures w ++ [f])%list)
             /\ w_global_ax w' = Some (List.length (w_figures w))
             /\ w_canvas w' = w_canvas w.
Proof.
  intros Hd Hr Hm. unfold plot_stock_data.
  change (k + 1 <= dt_ordinal (clock_now (clock_tick w)) <= MAXORDINAL)%Z in Hr.
  rewrite (bind_Ok _ _ _ _ _ (plot_date_range_exact d k w Hd Hr)). cbv beta iota.
  rewrite (bind_Ok _ _ _ _ _ (eq_refl : print _ _ = _)).
  rewrite (bind_Ok _ _ _ _ _ (eq_refl : gets _ _ = _)). market_after_print.
  change (w_market (clock_tick (clock_tick w))) with (w_market w).
  match goal with |- context [w_market w t ?sd ?ed] =>
    destruct (Hm sd ed) as [Hne Hlt];
    destruct (w_market w t sd ed) as [|b bs] eqn:Ed; [contradiction|] end.
  cbn [list_truth negb]. rewrite (bind_Ok _ _ _ _ _ (eq_refl : new_figure _ _ _ _ = _)).
  rewrite (enrich_short_nil (b :: bs) Hlt).
  eexists. split; [reflexivity|]. split; [eexists; reflexivity | split; reflexivity].
Qed.

(** Every ticker of the table passes [if ticker:]. *)
Lemma str_truth_listed name t : dict_get COMPANIES name = Some t -> str_truth t = true.
Proof.
  intros Et. unfold str_truth. apply dict_get_In, COMPANIES_tickers_nonempty in Et.
  destruct (String.eqb_spec t ""); [contradiction | reflexivity].
Qed.

(** C28: the zoom can act on a figure that is not on screen.  From any
    state showing figure [c], a click for a listed company whose market
    answers with fewer than 200 bars opens a new figure and moves
    [global_ax] to it, then raises in [fit] before it reaches the canvas
    code: the canvas still shows [c], and a span selection on it sets the x
    range of the hidden new figure and leaves that of [c] as it was. *)
Theorem zoom_misses_displayed_figure w c k t xmin xmax :
  w_canvas w = Some c -> (c < List.length (w_figures w))%nat ->
  dict_get COMPANIES (w_company w) = Some t -> duration_days (w_duration w) = Some k ->
  (k + 1 <= dt_ordinal (w_clock w 1) <= MAXORDINAL)%Z ->
  (forall sd ed, w_market w t sd ed <> [] /\ (List.length (w_market w t sd ed) < 200)%nat) ->
  w_canvas (step w ClickPlot) = Some c
  /\ w_global_ax (step w ClickPlot) = Some (List.length (w_figures w))
  /\ fig_xlim_of (List.length (w_figures w)) (step (step w ClickPlot) (SelectSpan xmin xmax))
     = Some (Some (xmin, xmax))
  /\ fig_xlim_of c (step (step w ClickPlot) (SelectSpan xmin xmax)) = fig_xlim_of c w.
Proof.
  intros Hc Hlt Et Hd Hr Hm.
  destruct (plot_stock_data_short t (w_duration w) k w Hd Hr Hm) as (w' & Hrun & (f & Hf) & Hax & Hcv).
  assert (Hstep : step w ClickPlot = w').
  { cbn [step]. unfold on_plot_button_click. cbn [bind gets]. rewrite Et, (str_truth_listed _ _ Et).
    rewrite (bind_Raise _ _ _ _ _ Hrun). reflexivity. }
  rewrite Hstep. rewrite <- Hcv in Hc.
  assert (Hl : (List.length (w_figures w) < List.length (w_figures w'))%nat)
    by (rewrite Hf, length_app; simpl; lia).
  destruct (span_select_effect w' xmin xmax c _ Hc Hax Hl) as [H1 Hother].
  split; [exact Hc|]. split; [exact Hax|]. split; [exact H1|].
  rewrite Hother by lia. unfold fig_xlim_of. rewrite Hf, nth_error_app1 by lia. reflexivity.
Qed.

(** Infosys drawn and on screen; the user then picks Wipro, whose 150 bars
    are too few for the 200-day average. *)
Definition wipro_over_infosys : world :=
  set_canvas (Some 0%nat)
    (set_figures [mk_figure "INFY.NS" "1 year" [] None None] (Some 0%nat)
                 (set_company "Wipro" zoom_world0)).

Lemma zoom_misses_displayed_figure_witness :
  w_canvas (step wipro_over_infosys ClickPlot) = Some 0%nat
  /\ w_global_ax (step wipro_over_infosys ClickPlot) = Some 1%nat
  /\ fig_xlim_of 1 (step (step wipro_over_infosys ClickPlot) (SelectSpan 738900 738946))
     = Some (Some (738900, 738946))
  /\ fig_xlim_of 0 (step (step wipro_over_infosys ClickPlot) (SelectSpan 738900 738946))
     = fig_xlim_of 0 wipro_over_infosys.
Proof.
  refine (zoom_misses_displayed_figure wipro_over_infosys 0 365 "WIPRO.NS" 738900 738946
            eq_refl _ eq_refl eq_refl _ _).
  - simpl. lia.
  - unfold MAXORDINAL. simpl. lia.
  - intros sd ed. change (w_market wipro_over_infosys "WIPRO.NS" sd ed) with (linear_series 150).
    rewrite linear_series_length. split; [unfold linear_series; simpl; discriminate | lia].
Defined.

(** C34: an exception in the callback does not stop the drawing: from any
    state whose company selection is a listed company, whose duration is a
    known label, whose clock is inside the [datetime] range and whose
    market returns bars, a click opens exactly one new figure and prints
    exactly one line, "Fetching data for <ticker> from <start> to <end>...",
    with the start date [k] days before the second clock reading and the
    end date of the first, although it then raises in
    [predict_future_prices] or in [save_predictions]. *)
Theorem click_draws_one_figure w k t :
  dict_get COMPANIES (w_company w) = Some t -> duration_days (w_duration w) = Some k ->
  (k + 1 <= dt_ordinal (w_clock w 1) <= MAXORDINAL)%Z -> (forall a b c, w_market w a b c <> []) ->
  List.length (w_figures (step w ClickPlot)) = Datatypes.S (List.length (w_figures w))
  /\ w_stdout (step w ClickPlot) =
       (w_stdout w ++ [("Fetching data for " ++ t ++ " from "
          ++ strftime_ymd (mk_datetime (dt_ordinal (w_clock w 1) - k) (dt_usec (w_clock w 1)))
          ++ " to " ++ strftime_ymd (w_clock w 0) ++ "...")%string])%list.
Proof.
  intros Et Hd Hr Hm.
  set (Q := fun v : world => List.length (w_figures v) = Datatypes.S (List.length (w_figures w))
                             /\ w_stdout v = (w_stdout w ++ [fetch_line t k w])%list).
  change (Q (step w ClickPlot)). cbn [step]. unfold on_plot_button_click. cbn [bind gets]. rewrite Et.
  rewrite (str_truth_listed _ _ Et).
  pose proof (plot_stock_data_adds_figure t (w_duration w) k w Hd Hr Hm) as Hp.
  destruct (plot_stock_data t (w_duration w) w) as [[r|e] w1] eqn:E; simpl in Hp;
    [rewrite (bind_Ok _ _ _ _ _ E) | rewrite (bind_Raise _ _ _ _ _ E); exact Hp].
  destruct r as [[[fig ds] ps]|]; [|exact Hp].
  destruct (plot_stock_data_Some _ _ _ _ _ _ _ E) as [Hds Hps].
  assert (Hne : ds <> []) by (intros ->; discriminate).
  assert (H2 : (2 <= List.length ps)%nat) by lia.
  unfold bind at 1, show_canvas, modify. unfold bind at 1.
  rewrite (bind_Raise _ _ _ _ _ (save_predictions_raise _ _ _ _ Hne H2)). exact Hp.
Qed.

Lemma click_draws_one_figure_witness :
  List.length (w_figures (step (set_company "Infosys" session_world) ClickPlot))
  = Datatypes.S (List.length (w_figures (set_company "Infosys" session_world)))
  /\ w_stdout (step (set_company "Infosys" session_world) ClickPlot) =
       ["Fetching data for INFY.NS from 2023-03-02 to 2024-03-01..."].
Proof.
  refine (click_draws_one_figure (set_company "Infosys" session_world) 365 "INFY.NS" eq_refl eq_refl _ _).
  - unfold MAXORDINAL. simpl. lia.
  - intros a b c. unfold linear_series. simpl. discriminate.
Defined.

(** ** A name the table does not list *)

(** C27: the company combobox is editable, so its text can be any string;
    a click whose text is not a key of [COMPANIES] prints "Invalid company
    selected." and changes nothing else: the clock is not read, nothing is
    downloaded or drawn, and the label and the file are untouched. *)
Theorem invalid_company_click w :
  ~ In (w_company w) (dict_keys COMPANIES) ->
  step w ClickPlot = add_stdout "Invalid company selected." w.
Proof.
  intros Hn. cbn [step]. unfold on_plot_button_click. cbn [bind gets].
  destruct (dict_get COMPANIES (w_company w)) as [t|] eqn:E; [|reflexivity].
  exfalso. apply dict_get_In, (in_map fst) in E. exact (Hn E).
Qed.

Lemma invalid_company_click_witness :
  step (set_company "Google" session_world) ClickPlot
  = add_stdout "Invalid company selected." (set_company "Google" session_world).
Proof.
  apply invalid_company_click. cbn. intros H.
  repeat (destruct H as [H|H]; [discriminate|]). exact H.
Defined.
