(* ===== verification/Liveness.v ===== *)
(** * The window keeps answering: a forecast can always be shown

    The callback raises on every click that reaches [save_predictions]
    (see [App.ledger_never_written]), and Tk goes on with the state the
    callback reached.  This file shows that the exception does not wedge
    the application: under an environment that keeps delivering usable
    data -- a market that returns at least 200 complete bars and a clock
    inside the [datetime] range -- every reachable state leads, by
    selecting a company and a duration and clicking, to a state whose label
    shows a 30-day forecast.

    The proof composes the components: [plot_date_range] succeeds on a
    known label, [enrich] keeps a non-empty frame whose closes are present,
    [fit] succeeds on it, the 30 clock readings of [predict_future_prices]
    stay in range, and [on_plot_button_click] writes the label before it
    raises in [save_predictions]. *)

From Stdlib Require Import String List ZArith QArith Lia Bool.
From S2P Require Import Prelude PyRuntime Calendar Companies DateRange Features Regression Forecast Ledger App.
Import ListNotations.
Local Open Scope string_scope.

(** ** The data side of a successful forecast *)

Lemma bar_complete_close b : bar_complete b = true -> exists c, Close b = Some c.
Proof.
  unfold bar_complete. rewrite !andb_true_iff. intros [[[[_ _] _] Hc] _].
  destruct (Close b) as [c|]; [eauto | discriminate].
Qed.

Lemma complete_closes data :
  (forall b, In b data -> bar_complete b = true) -> exists cs, map Close data = map Some cs.
Proof.
  induction data as [|b data IH]; intros Hall; [exists []; reflexivity|].
  destruct (bar_complete_close b (Hall b (or_introl eq_refl))) as [c Hc].
  destruct IH as [cs Hcs]; [intros b' Hb'; apply Hall; right; exact Hb'|].
  exists (c :: cs). simpl. now rewrite Hc, Hcs.
Qed.

(** A frame of at least 200 complete bars keeps at least one row. *)
Lemma enrich_nonempty data :
  (200 <= length data)%nat -> (forall b, In b data -> bar_complete b = true) -> enrich data <> [].
Proof.
  intros Hl Hall. destruct (complete_closes data Hall) as [cs Hcs].
  destruct data as [|b0 data']; [simpl in Hl; lia|].
  rewrite (enrich_rows _ cs b0 Hcs Hall). intros H.
  apply (f_equal (@length _)) in H. rewrite length_map, length_seq in H. simpl in H, Hl. lia.
Qed.

(** [dropna] leaves no NaN close, so [data['Close'].values] is read. *)
Lemma close_values_enrich data :
  exists ys, close_values (enrich data) = Ok ys /\ length ys = length (enrich data).
Proof.
  unfold close_values. destruct (all_some _) as [ys|] eqn:E.
  - exists ys. split; [reflexivity|]. apply all_some_Some in E.
    apply (f_equal (@length _)) in E. rewrite !length_map in E. lia.
  - exfalso. apply all_some_None, in_map_iff in E as (r & Hc & Hr).
    unfold enrich, dropna in Hr. apply filter_In in Hr as [_ Hr].
    unfold row_complete in Hr. rewrite !andb_true_iff in Hr. rewrite Hc in Hr. cbn [notna] in Hr. intuition discriminate.
Qed.

(** ** The clock of the world *)

Lemma world_iter_clock j (s : world) n : w_clock (Nat.iter j clock_tick s) n = w_clock s (j + n).
Proof.
  revert n. induction j as [|j IH]; intros n; [reflexivity|].
  change (w_clock (Nat.iter j clock_tick s) (Datatypes.S n) = w_clock s (Datatypes.S j + n)).
  rewrite IH. f_equal. lia.
Qed.

(** ** A plot that reaches its forecast *)

Lemma duration_days_pos d k : duration_days d = Some k -> (0 < k)%Z.
Proof. unfold duration_days. repeat destruct (String.eqb _ _); intros H; inversion H; lia. Qed.

Lemma plot_stock_data_forecasts t d k w :
  duration_days d = Some k ->
  (forall n, (k + 1 <= dt_ordinal (w_clock w n) <= MAXORDINAL - 31)%Z) ->
  (forall a b c, 200 <= length (w_market w a b c))%nat ->
  (forall a b c bar, In bar (w_market w a b c) -> bar_complete bar = true) ->
  exists fig ds ps w', plot_stock_data t d w = (Ok (Some (fig, ds, ps)), w')
                       /\ length ds = 30%nat /\ length ps = 30%nat.
Proof.
  intros Hd Hclock Hlong Hcomplete. unfold plot_stock_data.
  assert (Hr : (k + 1 <= dt_ordinal (clock_now (clock_tick w)) <= MAXORDINAL)%Z)
    by (pose proof (Hclock 1%nat); change (clock_now (clock_tick w)) with (w_clock w 1); lia).
  destruct (plot_date_range_Ok d k w Hd Hr) as (sd & ed & Hrun).
  rewrite (bind_Ok _ _ _ _ _ Hrun). cbv beta iota.
  rewrite (bind_Ok _ _ _ _ _ (eq_refl : print _ _ = _)).
  rewrite (bind_Ok _ _ _ _ _ (eq_refl : gets _ _ = _)). market_after_print.
  pose proof (Hlong t sd ed) as Hl. pose proof (Hcomplete t sd ed) as Hc.
  change (w_market (clock_tick (clock_tick w))) with (w_market w).
  destruct (w_market w t sd ed) as [|b bs] eqn:Ed; [simpl in Hl; lia|].
  cbn [list_truth negb]. rewrite (bind_Ok _ _ _ _ _ (eq_refl : new_figure _ _ _ _ = _)).
  destruct (close_values_enrich (b :: bs)) as (ys & Hys & Hlen).
  destruct (fit_Ok_exists (date_ordinals (enrich (b :: bs))) ys) as [m Hm];
    [ intros H; apply (f_equal (@length _)) in H; unfold date_ordinals in H; rewrite length_map in H;
      apply (enrich_nonempty (b :: bs) Hl Hc); destruct (enrich (b :: bs)); [reflexivity | discriminate]
    | unfold date_ordinals; rewrite length_map; exact (eq_sym Hlen) |].
  unfold bind at 1.
  match goal with |- context [predict_future_prices ?rows 30 ?w3] =>
    assert (Hv : readings_valid w3 30);
    [ intros j Hj; unfold reading; change (clock_now (Nat.iter j clock_tick w3)) with
        (w_clock (Nat.iter j clock_tick w3) 0); rewrite world_iter_clock;
      change (w_clock w3 (j + 0)) with (w_clock w (Datatypes.S (Datatypes.S (j + 0))));
      pose proof (Hclock (Datatypes.S (Datatypes.S (j + 0)))); pose proof (duration_days_pos d k Hd); lia
    | rewrite (@predict_future_prices_run world _ linear_model ols_regressor rows 30 ys m w3 Hys Hm Hv) ] end.
  cbv beta iota. unfold plot_forecast, modify, bind, ret.
  do 4 eexists. split; [reflexivity|]. rewrite !length_map, forecast_dates_length. split; reflexivity.
Qed.

(** ** Every reachable state can still show a forecast *)

Section Liveness.
Variables (clock : nat -> datetime) (market : string -> string -> string -> list bar)
          (file0 : option table).
Hypothesis clock_in_range : forall n, (366 <= dt_ordinal (clock n) <= MAXORDINAL - 31)%Z.
Hypothesis market_long : forall a b c, (200 <= length (market a b c))%nat.
Hypothesis market_complete : forall a b c bar, In bar (market a b c) -> bar_complete bar = true.

(** The environment the window runs in: the market is the one it started
    with, and the clock is the start-up clock, some readings later. *)
Definition env_ok (w : world) : Prop :=
  w_market w = market /\ exists m, forall n, w_clock w n = clock (m + n)%nat.

Lemma env_ok_reachable w : reachable (initial_world clock market file0) w -> env_ok w.
Proof.
  induction 1 as [|w e _ IH]; [split; [reflexivity | exists 0%nat; intros n; reflexivity]|].
  destruct e as [| | |xmin xmax]; [exact IH | exact IH | |
    destruct (span_effect w xmin xmax) as [-> | (fs & _ & ->)]; exact IH].
  cbn [step].
  destruct (click_effect env_ok w) as (w' & Hw' & [-> | (fig & ds & ps & _ & _ & _ & _ & ->)]).
  - intros v [Hm (m & Hc)]. split; [exact Hm|]. exists (Datatypes.S m). intros n.
    change (w_clock v (Datatypes.S n) = clock (Datatypes.S m + n)%nat). rewrite Hc. f_equal. lia.
  - intros msg v Hv. exact Hv.
  - intros t d rows v Hv. exact Hv.
  - intros i ds ps v Hv. exact Hv.
  - exact IH.
  - exact Hw'.
  - exact Hw'.
Qed.

(** C36: the exception in the callback never wedges the window: with a
    market that returns at least 200 complete bars and a clock inside the
    [datetime] range, from every reachable state, selecting Infosys,
    selecting "1 year" and clicking leads to a state whose label shows a
    30-day forecast. *)
Theorem forecast_always_reachable w :
  reachable (initial_world clock market file0) w ->
  exists ds ps, length ds = 30%nat /\ length ps = 30%nat
    /\ w_label (run w [SelectCompany "Infosys"; SelectDuration "1 year"; ClickPlot])
       = prediction_text ds ps.
Proof.
  intros Hw. destruct (env_ok_reachable w Hw) as [Hm (m & Hc)].
  set (w1 := set_duration "1 year" (set_company "Infosys" w)).
  change (run w [SelectCompany "Infosys"; SelectDuration "1 year"; ClickPlot]) with (step w1 ClickPlot).
  destruct (plot_stock_data_forecasts "INFY.NS" "1 year" 365 w1) as (fig & ds & ps & w' & Hrun & Hds & Hps).
  - reflexivity.
  - intros n. change (w_clock w1 n) with (w_clock w n). rewrite Hc.
    pose proof (clock_in_range (m + n)). lia.
  - intros a b c. change (w_market w1) with (w_market w). rewrite Hm. apply market_long.
  - intros a b c bar. change (w_market w1) with (w_market w). rewrite Hm. apply market_complete.
  - exists ds, ps. split; [exact Hds|]. split; [exact Hps|].
    cbn [step]. unfold on_plot_button_click. cbn [bind gets].
    change (w_company w1) with "Infosys". change (w_duration w1) with "1 year".
    change (dict_get COMPANIES "Infosys") with (Some "INFY.NS"). cbv iota.
    change (str_truth "INFY.NS") with true. cbv iota. rewrite (bind_Ok _ _ _ _ _ Hrun).
    assert (Hne : ds <> []) by (intros ->; discriminate).
    assert (H2 : (2 <= List.length ps)%nat) by lia.
    unfold bind at 1, show_canvas, modify. unfold bind at 1.
    rewrite (bind_Raise _ _ _ _ _ (save_predictions_raise _ _ _ _ Hne H2)). reflexivity.
Qed.
End Liveness.

Lemma forecast_always_reachable_witness :
  exists ds ps, length ds = 30%nat /\ length ps = 30%nat
    /\ w_label (run session_world [SelectCompany "Infosys"; SelectDuration "1 year"; ClickPlot])
       = prediction_text ds ps.
Proof.
  apply (forecast_always_reachable (stopped_clock (mk_datetime 738946 0))
           (fun _ _ _ => linear_series 250) (Some [infy_row])).
  - intros n. unfold MAXORDINAL. simpl. lia.
  - intros a b c. rewrite linear_series_length. lia.
  - intros a b c bar. apply linear_series_complete.
  - apply reach_init.
Defined.
